(** * rethinkstore: a gorilla/sessions store backed by RethinkDB

    A shallow embedding of [rethinkstore.go], in the revision that talks
    to [rethinkdb-go.v5] and keeps an [Expires] field in every record,
    with the properties of its specification stated and settled over it.
    (The earlier revision, on [gorethink], differs in [Save], which called
    [s.delete] for a session marked for deletion, and in [save], which
    inserted a record without an expiry; it is embedded in [Earlier], and
    the recorder of the test file in [ResponseRecorder].)

    Layout: the Go library boundaries ([encoding/base32], [strings],
    [time], [gorilla/sessions], [net/http], the RethinkDB server) come
    first, then the store's own functions in the order of the source, then
    a test bed, then the lemmas.

    How Go is read here:
    - a function that has effects is a function of the world it runs in
      ([M]); the world holds the [sessions.Options] objects by address,
      the tables of the server, and the journal of the terms sent;
    - a [*sessions.Options] is an address, so that two holders of one
      pointer see each other's writes; a [*sessions.Session] and the
      [http.ResponseWriter] are passed in and handed back;
    - what the clock reads ([time.Now], [r.Now]) and what the random
      source gives ([securecookie.GenerateRandomKey]) are arguments;
    - an instant is a whole number of nanoseconds since the epoch, and the
      table keeps it as Go built it; the driver transmits it as it is
      between 1677 and 2262 ([DB.epoch_time]), and what is said of a
      stored expiry is said for such instants;
    - [Get] is [New] behind the per-request registry of [gorilla/sessions],
      which is not part of this file: the first [Get] of a name on a
      request is [New]. *)

From Stdlib Require Import ZArith Ascii String.
From Stdlib.Strings Require Import Byte.
From stdpp Require Import gmap strings list fin_maps.

Local Open Scope string_scope.

(** ** [encoding/base32]: [StdEncoding.EncodeToString] (RFC 4648)

    The input is read as one stream of bits, most significant bit of each
    byte first; every five bits select one character of the alphabet; the
    last group is completed with zero bits and the text is completed with
    ['='] up to a multiple of eight characters. *)
Module Base32.

Definition encodeStd : string := "ABCDEFGHIJKLMNOPQRSTUVWXYZ234567".

Definition StdPadding : ascii := "="%char.

(** The eight bits of a byte, most significant first. *)
Definition byte_bits (b : byte) : list bool :=
match Byte.to_bits b with
| (b0, (b1, (b2, (b3, (b4, (b5, (b6, b7))))))) =>
    [b7; b6; b5; b4; b3; b2; b1; b0]
end.

Definition bits_of_bytes (src : list byte) : list bool :=
concat (map byte_bits src).

(** Five-bit groups; a short last group is filled with zero bits. *)
Fixpoint quintets (bits : list bool) : list (list bool) :=
match bits with
| [] => []
| a :: b :: c :: d :: e :: rest => [a; b; c; d; e] :: quintets rest
| [a; b; c; d] => [[a; b; c; d; false]]
| [a; b; c] => [[a; b; c; false; false]]
| [a; b] => [[a; b; false; false; false]]
| [a] => [[a; false; false; false; false]]
end.

(** Value of a group of bits read as a binary numeral. *)
Definition bits_value (q : list bool) : nat :=
fold_left (fun acc (b : bool) => 2 * acc + (if b then 1 else 0)) q 0.

(** The alphabet character of a five-bit group ([enc.encode[b&31]]). *)
Definition symbol (q : list bool) : ascii :=
match String.get (bits_value q) encodeStd with
| Some c => c
| None => StdPadding
end.

Definition symbols (src : list byte) : list ascii :=
map symbol (quintets (bits_of_bytes src)).

(** Number of pad characters after [n] symbols. *)
Definition pad_count (n : nat) : nat := (8 - n mod 8) mod 8.

Definition EncodeToString (src : list byte) : string :=
let cs := symbols src in
string_of_list_ascii (cs ++ repeat StdPadding (pad_count (length cs)))%list.

End Base32.

(** ** [strings.TrimRight] *)

Definition in_cutset (cutset : string) (c : ascii) : bool :=
  existsb (Ascii.eqb c) (list_ascii_of_string cutset).

Fixpoint drop_while {A} (f : A -> bool) (l : list A) : list A :=
  match l with
  | [] => []
  | x :: l' => if f x then drop_while f l' else l
  end.

(** [TrimRight s cutset]: [s] without its trailing characters that occur
    in [cutset]. *)
Definition TrimRight (s cutset : string) : string :=
  string_of_list_ascii
    (rev (drop_while (in_cutset cutset) (rev (list_ascii_of_string s)))).

(** The characters of the standard alphabet. *)
Definition is_base32_char (c : ascii) : bool :=
  in_cutset Base32.encodeStd c.

(** ** Go scalars, [error] and [time] *)

(** A Go [error] value, by its message; [nil] is [None] of [option error]. *)
Definition error : Type := string.

(** Go's [int64], and [int] where it is 64 bits wide (amd64, arm64):
    the result of an operation is reduced to the signed 64-bit range. *)
Definition wrap64 (z : Z) : Z := ((z + 2 ^ 63) mod 2 ^ 64 - 2 ^ 63)%Z.

Module time.
(** [time.Duration]: an [int64] count of nanoseconds. *)
Definition Duration : Type := Z.
(** [time.Time]: an instant, in nanoseconds since the Unix epoch. *)
Definition Time : Type := Z.
Definition Second : Duration := 1000000000%Z.
(** [d1 * d2] on [Duration]s. *)
Definition mul (d1 d2 : Duration) : Duration := wrap64 (d1 * d2).
(** [t.Add(d)]. *)
Definition Add (t : Time) (d : Duration) : Time := (t + d)%Z.
(** [time.Unix(sec, nsec)]. *)
Definition Unix (sec nsec : Z) : Time := (sec * 1000000000 + nsec)%Z.
End time.

(** Amount of time for keys to expire ([var sessionExpire = 86400 * 30]). *)
Definition sessionExpire : Z := (86400 * 30)%Z.

(** ** [gorilla/sessions] and [net/http] data *)

(** Address of a [sessions.Options] object; a nil pointer is [None]. *)
Definition ptr : Type := option positive.

Module Options.
Record t : Type := mk {
  Path : string;
  Domain : string;
  MaxAge : Z;
  Secure : bool;
  HttpOnly : bool
}.
Definition set_MaxAge (age : Z) (o : t) : t :=
  mk (Path o) (Domain o) age (Secure o) (HttpOnly o).
End Options.

Module Session.
(** [sessions.Session]; the back reference to the store is left out. *)
Record t {Val : Type} : Type := mk {
  ID : string;
  Values : gmap string Val;
  Options : ptr;
  IsNew : bool;
  name : string
}.
Arguments t : clear implicits.
Arguments mk {Val} _ _ _ _ _.
Section setters.
Context {Val : Type}.
Implicit Type s : t Val.
Definition set_ID (id : string) s : t Val :=
  mk id (Values s) (Options s) (IsNew s) (name s).
Definition set_Values (v : gmap string Val) s : t Val :=
  mk (ID s) v (Options s) (IsNew s) (name s).
Definition set_Options (p : ptr) s : t Val :=
  mk (ID s) (Values s) p (IsNew s) (name s).
Definition set_IsNew (b : bool) s : t Val :=
  mk (ID s) (Values s) (Options s) b (name s).
End setters.
End Session.

Module Cookie.
(** [http.Cookie], with the attributes [sessions.NewCookie] fills in. *)
Record t : Type := mk {
  Name : string;
  Value : string;
  Path : string;
  Domain : string;
  Expires : option time.Time;
  MaxAge : Z;
  Secure : bool;
  HttpOnly : bool
}.
End Cookie.

Module Request.
(** [http.Request]: the cookies of its [Cookie] header, in order. *)
Record t : Type := mk { Cookies : list (string * string) }.

(** [r.Cookie(name)]: the first cookie of that name
    ([http.ErrNoCookie] is [None]). *)
Definition Cookie (r : t) (name : string) : option Cookie.t :=
  match List.find (fun c => String.eqb (fst c) name) (Cookies r) with
  | Some c => Some (Cookie.mk (fst c) (snd c) "" "" None 0 false false)
  | None => None
  end.
End Request.

(** [http.ResponseWriter], by the [Set-Cookie] headers added so far. *)
Definition ResponseWriter : Type := list Cookie.t.

(** [http.SetCookie(w, cookie)] adds one header. *)
Definition SetCookie (w : ResponseWriter) (c : Cookie.t) : ResponseWriter :=
  (w ++ [c])%list.

(** ** The persisted record and the store *)

Module RethinkSession.
Record t : Type := mk {
  Id : string;
  Expires : time.Time;
  Session : list byte
}.
End RethinkSession.

Module ConnectOpts.
Record t : Type := mk {
  Address : string;
  Database : string;
  MaxIdle : Z;
  MaxOpen : Z
}.
End ConnectOpts.

Module RethinkStore.
Record t {Codec : Type} : Type := mk {
  Rethink : ConnectOpts.t;   (* rethink session *)
  Table : string;            (* table to store sessions in *)
  Codecs : list Codec;       (* session codecs *)
  Options : ptr;             (* default configuration *)
  DefaultMaxAge : Z          (* default TTL for a MaxAge == 0 session *)
}.
Arguments t : clear implicits.
Arguments mk {Codec} _ _ _ _ _.
End RethinkStore.

(** ** The RethinkDB server, as the store's queries see it *)

Module DB.

(** A table: its documents by primary key, and the names of its
    secondary indexes. *)
Record Table : Type := mkTable {
  rows : gmap string RethinkSession.t;
  indexes : gset string
}.

(** An end point of [Between]: [r.MinVal], or [r.Now()] as the server
    evaluates it when the query runs. *)
Inductive Bound : Type :=
| MinVal
| Now (server_time : time.Time).

(** The ReQL terms the store sends. *)
Inductive Term : Type :=
| Get (table id : string)
| GetReplace (table id : string) (doc : RethinkSession.t)
| GetDelete (table id : string)
| BetweenDelete (table : string) (lo hi : Bound) (index : string)
| Count (table : string)
| DBCreate (db : string)
| TableCreate (db table : string)
| IndexCreate (table index : string)
| IndexWait (table : string).

(** What a cursor yields: nothing, a document, a number (the driver
    hands it over as a [float64]; a count is a whole number), or the
    summary of a write. *)
Inductive Datum : Type :=
| Null
| Doc (d : RethinkSession.t)
| Number (n : N)
| WriteResponse.

(** [Between] keeps the documents whose index value is in the interval
    closed on the left and open on the right (the default bounds). *)
Definition above (lo : Bound) (x : time.Time) : bool :=
  match lo with
  | MinVal => true
  | Now t => (t <=? x)%Z
  end.

Definition below (hi : Bound) (x : time.Time) : bool :=
  match hi with
  | MinVal => false
  | Now t => (x <? t)%Z
  end.

Definition between (lo hi : Bound) (d : RethinkSession.t) : bool :=
  above lo (RethinkSession.Expires d) && below hi (RethinkSession.Expires d).

(** How the driver transmits a [time.Time]: as the seconds since the
    epoch, [float64(t.UnixNano()) / 1e9].  [UnixNano] is an [int64]: it
    is the instant itself from 1677-09-21 to 2262-04-11 and wraps
    outside.  The float is read here at the nanosecond (it keeps a
    little less than a microsecond).  For an instant before 1677 the
    driver sends the whole seconds, [float64(t.Unix())], instead. *)
Definition epoch_time (t : time.Time) : Z :=
  if (t <? - 2 ^ 63)%Z then (t / 1000000000 * 1000000000)%Z else wrap64 t.

Definition no_table : error := "table does not exist".

Definition on_table {A} (srv : gmap string Table) (table : string)
    (k : Table -> (error + A) * gmap string Table)
    : (error + A) * gmap string Table :=
  match srv !! table with
  | Some tb => k tb
  | None => (inl no_table, srv)
  end.

(** The effect of a term on the tables of the connection's database. *)
Definition eval (q : Term) (srv : gmap string Table)
    : (error + Datum) * gmap string Table :=
  match q with
  | Get table id =>
      on_table srv table (fun tb =>
        (inr (match rows tb !! id with Some d => Doc d | None => Null end),
         srv))
  | GetReplace table id doc =>
      on_table srv table (fun tb =>
        if decide (RethinkSession.Id doc = id)
        then (inr WriteResponse,
              <[table := mkTable (<[id := doc]> (rows tb)) (indexes tb)]> srv)
        else (inr WriteResponse, srv))
  | GetDelete table id =>
      on_table srv table (fun tb =>
        (inr WriteResponse,
         <[table := mkTable (delete id (rows tb)) (indexes tb)]> srv))
  | BetweenDelete table lo hi index =>
      on_table srv table (fun tb =>
        if decide (index ∈ indexes tb ∧ index = "expires")
        then (inr WriteResponse,
              <[table := mkTable
                  (filter (fun kd => between lo hi (snd kd) = false) (rows tb))
                  (indexes tb)]> srv)
        else (inl "index does not exist", srv))
  | Count table =>
      on_table srv table (fun tb =>
        (inr (Number (N.of_nat (size (rows tb)))), srv))
  | DBCreate db => (inr WriteResponse, srv)
  | TableCreate db table =>
      match srv !! table with
      | Some _ => (inl "table already exists", srv)
      | None => (inr WriteResponse, <[table := mkTable ∅ ∅]> srv)
      end
  | IndexCreate table index =>
      on_table srv table (fun tb =>
        if decide (index ∈ indexes tb)
        then (inl "index already exists", srv)
        else (inr WriteResponse,
              <[table := mkTable (rows tb) ({[index]} ∪ indexes tb)]> srv))
  | IndexWait table =>
      on_table srv table (fun tb => (inr WriteResponse, srv))
  end.

Definition ErrEmptyResult : error :=
  "The result does not contain any more rows".

(** [cursor.One(&data)] for [data RethinkSession]. *)
Definition One (res : Datum) : error + RethinkSession.t :=
  match res with
  | Null => inl ErrEmptyResult
  | Doc d => inr d
  | Number _ | WriteResponse => inl "could not decode the row"
  end.

(** [cursor.One(&result)] for [result interface{}]. *)
Definition OneAny (res : Datum) : error + Datum :=
  match res with
  | Null => inl ErrEmptyResult
  | other => inr other
  end.

End DB.

(** ** The world a call runs in *)

Record World : Type := mkWorld {
  heap : gmap positive Options.t;     (* the [sessions.Options] objects *)
  server : gmap string DB.Table;      (* the database of the connection *)
  outcomes : list (option error);     (* fate of the coming round trips:
                                         [Some e] is a failure of the
                                         connection or of the server *)
  journal : list DB.Term              (* the terms run so far, in order *)
}.

(** A call: it may panic ([None], a nil pointer dereference), otherwise it
    gives a result and the world after it. *)
Definition M (A : Type) : Type := World -> option (A * World).

Definition ret {A} (a : A) : M A := fun w => Some (a, w).

Definition bind {A B} (m : M A) (k : A -> M B) : M B :=
  fun w => match m w with
           | Some (a, w') => k a w'
           | None => None
           end.

Notation "'let!' x ':=' m 'in' k" := (bind m (fun x => k))
  (at level 10, x pattern, m at level 100, k at level 200).

(** A read through the pointer [p]. *)
Definition deref (p : ptr) : M Options.t :=
  fun w => match p with
           | Some l => match heap w !! l with
                       | Some o => Some (o, w)
                       | None => None
                       end
           | None => None
           end.

(** A write through the pointer: the object at [p] becomes [f] of it. *)
Definition update (p : ptr) (f : Options.t -> Options.t) : M unit :=
  fun w => match p with
           | Some l => match heap w !! l with
                       | Some o =>
                           Some (tt, mkWorld (<[l := f o]> (heap w))
                                       (server w) (outcomes w) (journal w))
                       | None => None
                       end
           | None => None
           end.

(** [&sessions.Options{...}]: a new object. *)
Definition alloc (o : Options.t) : M ptr :=
  fun w => let l := fresh (dom (heap w)) in
           Some (Some l, mkWorld (<[l := o]> (heap w))
                           (server w) (outcomes w) (journal w)).

(** One round trip to the server.  A failure is one that keeps the term
    from being run: the connection is refused or lost before the server
    has the query.  A connection lost after the server ran the term is a
    fate the world does not have. *)
Definition round_trip {A} (w : World)
    (k : World -> (error + A) * World) : (error + A) * World :=
  match outcomes w with
  | Some e :: rest =>
      (inl e, mkWorld (heap w) (server w) rest (journal w))
  | None :: rest => k (mkWorld (heap w) (server w) rest (journal w))
  | [] => k w
  end.

(** [term.Run(session)]. *)
Definition Run (q : DB.Term) : M (error + DB.Datum) :=
  fun w =>
    let w := mkWorld (heap w) (server w) (outcomes w) (journal w ++ [q])%list in
    Some (round_trip w (fun w =>
            let '(res, srv) := DB.eval q (server w) in
            (res, mkWorld (heap w) srv (outcomes w) (journal w)))).

(** [r.Connect(opts)]. *)
Definition Connect (opts : ConnectOpts.t) : M (error + ConnectOpts.t) :=
  fun w => Some (round_trip w (fun w => (inr opts, w))).

Definition err_of {A} (res : error + A) : option error :=
  match res with
  | inl e => Some e
  | inr _ => None
  end.

(** ** The libraries the store calls

    [encoding/gob] and [gorilla/securecookie] are used through a few
    functions only, and the store branches on nothing but their success;
    they are taken as they come.  A decoder receives what its destination
    holds and gives what it holds afterwards; on an error the destination
    is taken as untouched. *)
Class Libraries : Type := {
  (** what a session may hold under a key *)
  Val : Type;
  (** [securecookie.Codec] *)
  Codec : Type;
  (** [gob.NewEncoder(buf).Encode(values)], then [buf.Bytes()] *)
  gob_Encode : gmap string Val -> error + list byte;
  (** [gob.NewDecoder(bytes.NewBuffer(data)).Decode(&values)] *)
  gob_Decode : list byte -> gmap string Val -> error + gmap string Val;
  (** [securecookie.CodecsFromPairs(keyPairs...)] *)
  CodecsFromPairs : list (list byte) -> list Codec;
  (** [securecookie.EncodeMulti(name, value, codecs...)] *)
  EncodeMulti : string -> string -> list Codec -> error + string;
  (** [securecookie.DecodeMulti(name, value, &dst, codecs...)] *)
  DecodeMulti : string -> string -> list Codec -> error + string;
  (** [sc.MaxAge(age)] on a codec that is a [*securecookie.SecureCookie],
      nothing on another *)
  SecureCookie_MaxAge : Z -> Codec -> Codec
}.

(** [sessions.NewSession(store, name)]. *)
Definition NewSession {L : Libraries} (name : string) : Session.t Val :=
  Session.mk "" ∅ None false name.

(** [sessions.NewCookie(name, value, options)], at the instant [now]. *)
Definition NewCookie (now : time.Time) (name value : string) (options : ptr)
    : M Cookie.t :=
  let! o := deref options in
  let expires :=
    if (0 <? Options.MaxAge o)%Z
    then Some (time.Add now (time.mul (Options.MaxAge o) time.Second))
    else if (Options.MaxAge o <? 0)%Z
         then Some (time.Unix 1 0)   (* set it to the past to expire now *)
         else None in
  ret (Cookie.mk name value (Options.Path o) (Options.Domain o) expires
         (Options.MaxAge o) (Options.Secure o) (Options.HttpOnly o)).

(** ** rethinkstore.go *)

Abbreviation Store := (RethinkStore.t Codec).
Abbreviation Sess := (Session.t Val).

Section Store.
Context {L : Libraries}.

(** MaxAge sets the maximum age for the store and the underlying cookie
    implementation. *)
Definition MaxAge (s : Store) (age : Z) : M Store :=
  let! _ := update (RethinkStore.Options s) (Options.set_MaxAge age) in
  ret (RethinkStore.mk (RethinkStore.Rethink s) (RethinkStore.Table s)
         (map (SecureCookie_MaxAge age) (RethinkStore.Codecs s))
         (RethinkStore.Options s) (RethinkStore.DefaultMaxAge s)).

(** NewRethinkStore returns a new RethinkStore. *)
Definition NewRethinkStore (addr db table : string) (idle open : Z)
    (keyPairs : list (list byte)) : M (error + Store) :=
  let! conn := Connect (ConnectOpts.mk addr db idle open) in
  match conn with
  | inl err => ret (inl err)
  | inr session =>
      let! options := alloc (Options.mk "/" "" sessionExpire false false) in
      let rs := RethinkStore.mk session table (CodecsFromPairs keyPairs)
                  options 0%Z in
      let! rs := MaxAge rs sessionExpire in
      (* Create missing db, table and secondary index. Discard error *)
      let! _ := Run (DB.DBCreate db) in
      let! _ := Run (DB.TableCreate db table) in
      (* Index for removing expired data *)
      let! _ := Run (DB.IndexCreate table "expires") in
      let! _ := Run (DB.IndexWait table) in
      ret (inr rs)
  end.

(** load reads the session from rethink.
    returns true if there is session data in the DB. *)
Definition load (s : Store) (session : Sess)
    : M (bool * option error * Sess) :=
  let! res := Run (DB.Get (RethinkStore.Table s) (Session.ID session)) in
  match res with
  | inl err => ret (false, Some err, session)
  | inr cur =>
      match DB.One cur with
      | inl err => ret (false, Some err, session)
      | inr data =>
          match gob_Decode (RethinkSession.Session data)
                  (Session.Values session) with
          | inl err => ret (true, Some err, session)
          | inr values => ret (true, None, Session.set_Values values session)
          end
      end
  end.

(** New returns a session for the given name without adding it to the
    registry. *)
Definition New (s : Store) (r : Request.t) (name : string)
    : M (Sess * option error) :=
  let session := NewSession name in
  (* [&( *s.Options)]: the object is read and its own address taken *)
  let! _ := deref (RethinkStore.Options s) in
  let session := Session.set_Options (RethinkStore.Options s) session in
  let session := Session.set_IsNew true session in
  match Request.Cookie r name with
  | Some c =>
      match DecodeMulti name (Cookie.Value c) (RethinkStore.Codecs s) with
      | inl err => ret (session, Some err)
      | inr id =>
          let session := Session.set_ID id session in
          (* [ok, err := s.load(session)] declares a second [err], local
             to this block; the one returned below is still nil *)
          let! (ok, err', session) := load s session in
          let session :=
            Session.set_IsNew
              (negb (bool_decide (err' = None) && ok)) session in
          ret (session, None)
      end
  | None => ret (session, None)
  end.

(** save stores the session in rethink. *)
Definition save (now : time.Time) (s : Store) (session : Sess)
    : M (option error) :=
  match gob_Encode (Session.Values session) with
  | inl err => ret (Some err)
  | inr buf =>
      let! o := deref (Session.Options session) in
      let age := Options.MaxAge o in
      let age := if (age =? 0)%Z then RethinkStore.DefaultMaxAge s else age in
      let expires := time.Add now (time.mul age time.Second) in
      let! res :=
        Run (DB.GetReplace (RethinkStore.Table s) (Session.ID session)
               (RethinkSession.mk (Session.ID session) expires buf)) in
      ret (err_of res)
  end.

(** delete removes keys from rethink *)
Definition delete (s : Store) (session : Sess) : M (option error) :=
  let! res :=
    Run (DB.GetDelete (RethinkStore.Table s) (Session.ID session)) in
  ret (err_of res).

(** Save adds a single session to the response.  [now] is the reading
    of the clock during the call and [key] what
    [securecookie.GenerateRandomKey(32)] gives if it is asked. *)
Definition Save (now : time.Time) (key : list byte)
    (s : Store) (r : Request.t) (w : ResponseWriter) (session : Sess)
    : M (option error * ResponseWriter * Sess) :=
  let! o := deref (Session.Options session) in
  (* Marked for deletion. *)
  if (Options.MaxAge o <? 0)%Z then
    let! c := NewCookie now (Session.name session) ""
                (Session.Options session) in
    ret (None, SetCookie w c, session)
  else
    (* Build an alphanumeric key for the redis store. *)
    let session :=
      if decide (Session.ID session = "")
      then Session.set_ID (TrimRight (Base32.EncodeToString key) "=") session
      else session in
    let! err := save now s session in
    match err with
    | Some err => ret (Some err, w, session)
    | None =>
        match EncodeMulti (Session.name session) (Session.ID session)
                (RethinkStore.Codecs s) with
        | inl err => ret (Some err, w, session)
        | inr encoded =>
            let! c := NewCookie now (Session.name session) encoded
                        (Session.Options session) in
            ret (None, SetCookie w c, session)
        end
    end.

(** Deletes expired entries.  [now] is the server's reading of its clock
    for [r.Now()]. *)
Definition DeleteExpired (now : time.Time) (s : Store) : M (option error) :=
  let! res :=
    Run (DB.BetweenDelete (RethinkStore.Table s) DB.MinVal (DB.Now now)
           "expires") in
  ret (err_of res).

(** Count gives the number of documents in the table.  The type
    assertion [result.(float64)] is the match on [DB.Number]. *)
Definition Count (s : Store) : M (N * option error) :=
  let! res := Run (DB.Count (RethinkStore.Table s)) in
  match res with
  | inl err => ret (0%N, Some err)
  | inr cursor =>
      match DB.OneAny cursor with
      | inl err => ret (0%N, Some err)
      | inr result =>
          match result with
          | DB.Number count => ret (count, None)
          | _ => ret (0%N, Some "count isn't float64")
          end
      end
  end.

End Store.

(** ** Reading the world *)

(** The object a pointer refers to. *)
Definition pointee (w : World) (p : ptr) : option Options.t :=
  match p with
  | Some l => heap w !! l
  | None => None
  end.

(** The failure, if any, that awaits the next round trip. *)
Definition pending (w : World) : option error :=
  match outcomes w with
  | Some e :: _ => Some e
  | _ => None
  end.

(** The documents of a table. *)
Definition documents (w : World) (table : string)
    : option (gmap string RethinkSession.t) :=
  DB.rows <$> server w !! table.

(** The world after a round trip that the server answered without a
    change to its tables. *)
Definition asked (q : DB.Term) (w : World) : World :=
  mkWorld (heap w) (server w) (tail (outcomes w)) (journal w ++ [q]).

(** The session [New] starts from. *)
Definition blank {L : Libraries} (s : Store) (name : string) : Sess :=
  Session.mk "" ∅ (RethinkStore.Options s) true name.

(** ** Names for what [save] and [Save] compute *)

Section store_terms.
Context {L : Libraries}.

(** The age [save] turns into an expiry: [options.MaxAge], or the
    store's [DefaultMaxAge] when that is zero. *)
Definition effective_age (s : Store) (o : Options.t) : Z :=
  if (Options.MaxAge o =? 0)%Z then RethinkStore.DefaultMaxAge s
  else Options.MaxAge o.

(** The document [save] sends. *)
Definition record (now : time.Time) (s : Store) (session : Sess)
    (o : Options.t) (buf : list byte) : RethinkSession.t :=
  RethinkSession.mk (Session.ID session)
    (time.Add now (time.mul (effective_age s o) time.Second)) buf.

(** The session as [Save] hands it to [save]: with a new id if it had
    none. *)
Definition identified (key : list byte) (session : Sess) : Sess :=
  if decide (Session.ID session = "")
  then Session.set_ID (TrimRight (Base32.EncodeToString key) "=") session
  else session.

(** The cookie [sessions.NewCookie] builds from the options [o]. *)
Definition cookie_of (now : time.Time) (name value : string)
    (o : Options.t) : Cookie.t :=
  Cookie.mk name value (Options.Path o) (Options.Domain o)
    (if (0 <? Options.MaxAge o)%Z
     then Some (time.Add now (time.mul (Options.MaxAge o) time.Second))
     else if (Options.MaxAge o <? 0)%Z then Some (time.Unix 1 0) else None)
    (Options.MaxAge o) (Options.Secure o) (Options.HttpOnly o).

End store_terms.

(** ** Stand-ins for the libraries and a test bed, for the examples

    A payload format that knows one key, ["foo"], and a cookie codec that
    prefixes the value with its secret. *)
Module Demo.

Definition encode (values : gmap string string) : error + list byte :=
  if decide (dom values ⊆ {["foo"]})
  then inr (match values !! "foo" with
            | Some v => x01 :: list_byte_of_string v
            | None => [x00]
            end)
  else inl "gob: type not registered for interface".

Definition decode (data : list byte) (dst : gmap string string)
    : error + gmap string string :=
  match data with
  | x01 :: v => inr (<["foo" := string_of_list_byte v]> dst)
  | [x00] => inr dst
  | _ => inl "unexpected EOF"
  end.

Definition sign (secret value : string) : string :=
  secret ++ ":" ++ value.

Definition verify (secret value : string) : option string :=
  let tag := secret ++ ":" in
  if String.prefix tag value
  then Some (String.substring (String.length tag)
               (String.length value - String.length tag) value)
  else None.

Definition encodeMulti (name value : string) (codecs : list string)
    : error + string :=
  match codecs with
  | secret :: _ => inr (sign secret value)
  | [] => inl "securecookie: no codecs provided"
  end.

Fixpoint decodeMulti (name value : string) (codecs : list string)
    : error + string :=
  match codecs with
  | secret :: codecs' =>
      match verify secret value with
      | Some id => inr id
      | None => match codecs' with
                | [] => inl "securecookie: the value is not valid"
                | _ => decodeMulti name value codecs'
                end
      end
  | [] => inl "securecookie: no codecs provided"
  end.

Definition libraries : Libraries := {|
  Val := string;
  Codec := string;
  gob_Encode := encode;
  gob_Decode := decode;
  CodecsFromPairs := map string_of_list_byte;
  EncodeMulti := encodeMulti;
  DecodeMulti := decodeMulti;
  SecureCookie_MaxAge := fun _ c => c
|}.

(** A server with nothing in it and a connection that never fails. *)
Definition empty_world : World := mkWorld ∅ ∅ [] [].

Definition secret_key : list byte := list_byte_of_string "secret-key".

(** [NewRethinkStore("127.0.0.1:28015", db, table, 5, 5, secret_key)]. *)
Definition open_store : option ((error + RethinkStore.t string) * World) :=
  NewRethinkStore (L := libraries) "127.0.0.1:28015" "session_test_db"
    "session_test_table" 5 5 [secret_key] empty_world.

(** The 32 bytes [00 01 ... 1f] as a random key. *)
Definition key0 : list byte :=
  [x00; x01; x02; x03; x04; x05; x06; x07; x08; x09; x0a; x0b; x0c; x0d;
   x0e; x0f; x10; x11; x12; x13; x14; x15; x16; x17; x18; x19; x1a; x1b;
   x1c; x1d; x1e; x1f].

End Demo.

(** ** A payload format with pointers

    [encoding/gob] does not transmit pointers, it transmits what they
    point to: a value that was stored through a pointer is decoded as
    the value itself.  The test file relies on it: it saves
    [&FlashMessage{42, "foo"}] and asserts that what it loads is a
    [FlashMessage].  This stand-in has the values of the tests (strings,
    the registered struct [FlashMessage], pointers to them) and a byte
    format of its own: every entry is the key, a tag for the type (in
    place of the registered name) and the fields. *)
Module Gob.

Inductive Value : Type :=
| String_ (s : string)
| FlashMessage (Type_ : Z) (Message : string)
| Pointer (to : Value).

(** The value at the end of the pointers. *)
Fixpoint indirect (v : Value) : Value :=
  match v with
  | Pointer to => indirect to
  | _ => v
  end.

Definition byte_of_Z (z : Z) : byte :=
  default x00 (Byte.of_N (Z.to_N (z mod 256))).

Definition Z_of_byte (b : byte) : Z := Z.of_N (Byte.to_N b).

(** An [int64], in eight bytes, the least significant first. *)
Definition int64_bytes (z : Z) : list byte :=
  map (fun i => byte_of_Z (z / 2 ^ (8 * Z.of_nat i))) (seq 0 8).

Definition int64_of_bytes (bs : list byte) : Z :=
  wrap64 (fold_right (fun b acc => Z_of_byte b + 256 * acc)%Z 0%Z bs).

Definition string_bytes (s : string) : list byte :=
  (int64_bytes (Z.of_nat (String.length s)) ++ list_byte_of_string s)%list.

Definition read_int64 (data : list byte) : option (Z * list byte) :=
  if decide (8 <= length data)
  then Some (int64_of_bytes (take 8 data), drop 8 data)
  else None.

Definition read_string (data : list byte) : option (string * list byte) :=
  match read_int64 data with
  | Some (n, rest) =>
      if decide (0 <= n /\ n <= Z.of_nat (length rest))%Z
      then Some (string_of_list_byte (take (Z.to_nat n) rest),
                 drop (Z.to_nat n) rest)
      else None
  | None => None
  end.

Definition value_bytes (v : Value) : list byte :=
  match indirect v with
  | String_ s => x01 :: string_bytes s
  | FlashMessage type message =>
      (x02 :: int64_bytes type ++ string_bytes message)%list
  | Pointer _ => []
  end.

Definition read_value (data : list byte) : option (Value * list byte) :=
  match data with
  | x01 :: rest =>
      match read_string rest with
      | Some (s, rest') => Some (String_ s, rest')
      | None => None
      end
  | x02 :: rest =>
      match read_int64 rest with
      | Some (type, rest') =>
          match read_string rest' with
          | Some (message, rest'') => Some (FlashMessage type message, rest'')
          | None => None
          end
      | None => None
      end
  | _ => None
  end.

Definition encode (values : gmap string Value) : error + list byte :=
  inr (concat (map (fun kv => string_bytes (fst kv) ++ value_bytes (snd kv))%list
                 (map_to_list values))).

Fixpoint decode_entries (n : nat) (data : list byte)
    (dst : gmap string Value) : error + gmap string Value :=
  match data with
  | [] => inr dst
  | _ =>
      match n with
      | O => inl "unexpected EOF"
      | S n' =>
          match read_string data with
          | Some (key, rest) =>
              match read_value rest with
              | Some (v, rest') => decode_entries n' rest' (<[key := v]> dst)
              | None => inl "unexpected EOF"
              end
          | None => inl "unexpected EOF"
          end
      end
  end.

Definition decode (data : list byte) (dst : gmap string Value)
    : error + gmap string Value :=
  decode_entries (length data) data dst.

Definition libraries : Libraries := {|
  Val := Value;
  Codec := string;
  gob_Encode := encode;
  gob_Decode := decode;
  CodecsFromPairs := map string_of_list_byte;
  EncodeMulti := Demo.encodeMulti;
  DecodeMulti := Demo.decodeMulti;
  SecureCookie_MaxAge := fun _ c => c
|}.

End Gob.

(** ** The test bed, continued: one session through its life *)
Module Scenario.
Import Demo.
Local Open Scope Z_scope.

Definition table : string := "session_test_table".

Definition store : RethinkStore.t string :=
  RethinkStore.mk (ConnectOpts.mk "127.0.0.1:28015" "session_test_db" 5 5)
    table ["secret-key"] (Some 1%positive) 0.

(** The world [NewRethinkStore] leaves. *)
Definition opened : World :=
  mkWorld {[1%positive := Options.mk "/" "" 2592000 false false]}
    {[table := DB.mkTable ∅ {["expires"]}]} []
    [DB.DBCreate "session_test_db";
     DB.TableCreate "session_test_db" table;
     DB.IndexCreate table "expires";
     DB.IndexWait table].

(** A first request, without a cookie, and its session with a value. *)
Definition first_request : Request.t := Request.mk [].

Definition session0 : Session.t string :=
  Session.mk "" {["foo" := "bar"]} (Some 1%positive) true "session-key".

Definition id0 : string :=
  Eval vm_compute in TrimRight (Base32.EncodeToString key0) "=".

Definition session1 : Session.t string :=
  Session.mk id0 {["foo" := "bar"]} (Some 1%positive) true "session-key".

Definition payload : list byte := [x01; x62; x61; x72].

(** The world after [Save] at the instant [1000]. *)
Definition saved : World :=
  mkWorld (heap opened)
    {[table := DB.mkTable
         {[id0 := RethinkSession.mk id0 2592000000001000 payload]}
         {["expires"]}]} []
    (journal opened ++
     [DB.GetReplace table id0
        (RethinkSession.mk id0 2592000000001000 payload)]).

(** The second request brings the cookie back. *)
Definition second_request : Request.t :=
  Request.mk [("session-key", sign "secret-key" id0)].

(** A request whose cookie was tampered with. *)
Definition forged_request : Request.t :=
  Request.mk [("session-key", "secret-kez:" ++ id0)].

(** The caller's [session.Options.MaxAge = age]. *)
Definition set_session_MaxAge (age : Z) (session : Session.t string)
    : M unit :=
  update (Session.Options session) (Options.set_MaxAge age).

(** [saved] after [session.Options.MaxAge = -1]. *)
Definition marked : World :=
  mkWorld {[1%positive := Options.mk "/" "" (-1) false false]}
    (server saved) [] (journal saved).

(** [opened] with a connection that fails at the next round trip. *)
Definition unplugged : World :=
  mkWorld (heap opened) (server opened) [Some "connection refused"]
    (journal opened).

(** [saved] with the payload of the session replaced by bytes that do
    not decode. *)
Definition garbled : World :=
  mkWorld (heap opened)
    {[table := DB.mkTable
         {[id0 := RethinkSession.mk id0 2592000000001000 [xff]]}
         {["expires"]}]} [] (journal saved).

(** A session whose value has no encoding. *)
Definition session_bad : Session.t string :=
  Session.mk "" {["ch" := "chan"]} (Some 1%positive) true "session-key".

End Scenario.

(** ** The test bed, continued: ages and sweeps *)
Module Ages.
Import Demo Scenario.
Local Open Scope Z_scope.

(** [opened] after [session.Options.MaxAge = age]. *)
Definition aged (age : Z) : World :=
  mkWorld {[1%positive := Options.mk "/" "" age false false]}
    (server opened) [] (journal opened).

(** [aged age] after a [Save] that stored [expires]. *)
Definition stored (age : Z) (expires : time.Time) : World :=
  mkWorld (heap (aged age))
    {[table := DB.mkTable
         {[id0 := RethinkSession.mk id0 expires payload]} {["expires"]}]} []
    (journal opened ++
     [DB.GetReplace table id0 (RethinkSession.mk id0 expires payload)]).

(** A [MaxAge] of a little more than 292 years. *)
Definition long_age : Z := 9223372037.

(** A table with a document that expired at 500 and one that expires at
    5000. *)
Definition two_documents : gmap string RethinkSession.t :=
  {["old" := RethinkSession.mk "old" 500 payload;
    "young" := RethinkSession.mk "young" 5000 payload]}.

Definition before_sweep : World :=
  mkWorld (heap opened)
    {[table := DB.mkTable two_documents {["expires"]}]} [] (journal opened).

Definition after_sweep : World :=
  mkWorld (heap opened)
    {[table := DB.mkTable {["young" := RethinkSession.mk "young" 5000 payload]}
                 {["expires"]}]} []
    (journal opened ++
     [DB.BetweenDelete table DB.MinVal (DB.Now 1000) "expires"]).

(** [stored 0 1000] after a sweep at the instant [1001]. *)
Definition emptied : World :=
mkWorld (heap (aged 0)) {[table := DB.mkTable ∅ {["expires"]}]} []
  (journal (stored 0 1000) ++
   [DB.BetweenDelete table DB.MinVal (DB.Now 1001) "expires"]).

End Ages.

(** ** What the terms leave alone *)

(** The table a term works on, if it works on one. *)
Definition term_table (q : DB.Term) : option string :=
  match q with
  | DB.Get table _ | DB.GetReplace table _ _ | DB.GetDelete table _
  | DB.BetweenDelete table _ _ _ | DB.Count table
  | DB.TableCreate _ table | DB.IndexCreate table _ | DB.IndexWait table =>
      Some table
  | DB.DBCreate _ => None
  end.

(** The tables after some terms on the table [t] were evaluated. *)
Inductive evolves (t : string) (srv : gmap string DB.Table)
    : gmap string DB.Table -> Prop :=
| evolves_refl : evolves t srv srv
| evolves_step q srv' :
    evolves t srv srv' ->
    (term_table q = None \/ term_table q = Some t) ->
    evolves t srv (DB.eval q srv').2.

(** The next [n] round trips are answered. *)
Definition answered (n : nat) (w : World) : bool :=
  forallb (fun o : option error =>
             match o with Some _ => false | None => true end)
    (take n (outcomes w)).

(** ** The earlier revision of rethinkstore.go

    The revision on [gorethink]: a record is an id and a payload, [save]
    inserts it, and [Save] deletes the record of a session marked for
    deletion.  [NewRethinkStore] connects and builds the store, nothing
    more.  [New], [load] and [delete] read as in the later revision. *)
Module Earlier.

Module RethinkSession.
Record t : Type := mk {
  Id : string;
  Session : list byte
}.
End RethinkSession.

(** The ReQL terms this revision sends. *)
Inductive Term : Type :=
| Get (table id : string)
| Insert (table : string) (doc : RethinkSession.t)
| GetDelete (table id : string).

(** What a cursor yields; the summary of a write counts the documents it
    could not write. *)
Inductive Datum : Type :=
| Null
| Doc (d : RethinkSession.t)
| WriteResponse (errors : nat).

(** The effect of a term on the tables.  [Insert] keeps to the default
    for conflicts: a document whose key is taken is not inserted, and the
    summary of the write counts one error. *)
Definition eval (q : Term) (srv : gmap string (gmap string RethinkSession.t))
    : (error + Datum) * gmap string (gmap string RethinkSession.t) :=
  match q with
  | Get table id =>
      match srv !! table with
      | Some rows =>
          (inr (match rows !! id with Some d => Doc d | None => Null end), srv)
      | None => (inl DB.no_table, srv)
      end
  | Insert table doc =>
      match srv !! table with
      | Some rows =>
          match rows !! RethinkSession.Id doc with
          | Some _ => (inr (WriteResponse 1), srv)
          | None =>
              (inr (WriteResponse 0),
               <[table := <[RethinkSession.Id doc := doc]> rows]> srv)
          end
      | None => (inl DB.no_table, srv)
      end
  | GetDelete table id =>
      match srv !! table with
      | Some rows => (inr (WriteResponse 0), <[table := base.delete id rows]> srv)
      | None => (inl DB.no_table, srv)
      end
  end.

(** [cursor.One(&data)] for [data RethinkSession]. *)
Definition One (res : Datum) : error + RethinkSession.t :=
  match res with
  | Null => inl DB.ErrEmptyResult
  | Doc d => inr d
  | WriteResponse _ => inl "could not decode the row"
  end.

Record World : Type := mkWorld {
  heap : gmap positive Options.t;
  server : gmap string (gmap string RethinkSession.t);
  outcomes : list (option error);
  journal : list Term
}.

Definition M (A : Type) : Type := World -> option (A * World).

Definition ret {A} (a : A) : M A := fun w => Some (a, w).

Definition bind {A B} (m : M A) (k : A -> M B) : M B :=
  fun w => match m w with
           | Some (a, w') => k a w'
           | None => None
           end.

Local Notation "'let?' x ':=' m 'in' k" := (bind m (fun x => k))
  (at level 10, x pattern, m at level 100, k at level 200).

Definition deref (p : ptr) : M Options.t :=
  fun w => match p with
           | Some l => match heap w !! l with
                       | Some o => Some (o, w)
                       | None => None
                       end
           | None => None
           end.

Definition alloc (o : Options.t) : M ptr :=
  fun w => let l := fresh (dom (heap w)) in
           Some (Some l, mkWorld (<[l := o]> (heap w))
                           (server w) (outcomes w) (journal w)).

Definition round_trip {A} (w : World)
    (k : World -> (error + A) * World) : (error + A) * World :=
  match outcomes w with
  | Some e :: rest =>
      (inl e, mkWorld (heap w) (server w) rest (journal w))
  | None :: rest => k (mkWorld (heap w) (server w) rest (journal w))
  | [] => k w
  end.

(** [term.Run(session)]: an error of the write that the summary counts is
    not an error of [Run]. *)
Definition Run (q : Term) : M (error + Datum) :=
  fun w =>
    let w := mkWorld (heap w) (server w) (outcomes w) (journal w ++ [q])%list in
    Some (round_trip w (fun w =>
            let '(res, srv) := eval q (server w) in
            (res, mkWorld (heap w) srv (outcomes w) (journal w)))).

Definition Connect (opts : ConnectOpts.t) : M (error + ConnectOpts.t) :=
  fun w => Some (round_trip w (fun w => (inr opts, w))).

Definition NewCookie (now : time.Time) (name value : string) (options : ptr)
    : M Cookie.t :=
  let? o := deref options in
  ret (cookie_of now name value o).

Section Store.
Context {L : Libraries}.

(** NewRethinkStore returns a new RethinkStore. *)
Definition NewRethinkStore (addr db table : string) (idle open : Z)
    (keyPairs : list (list byte)) : M (error + Store) :=
  let? conn := Connect (ConnectOpts.mk addr db idle open) in
  match conn with
  | inl err => ret (inl err)
  | inr session =>
      let? options := alloc (Options.mk "/" "" sessionExpire false false) in
      ret (inr (RethinkStore.mk session table (CodecsFromPairs keyPairs)
                  options 0%Z))
  end.

(** load reads the session from rethink.
    returns true if there is session data in the DB. *)
Definition load (s : Store) (session : Sess)
    : M (bool * option error * Sess) :=
  let? res := Run (Get (RethinkStore.Table s) (Session.ID session)) in
  match res with
  | inl err => ret (false, Some err, session)
  | inr cur =>
      match One cur with
      | inl err => ret (false, Some err, session)
      | inr data =>
          match gob_Decode (RethinkSession.Session data)
                  (Session.Values session) with
          | inl err => ret (true, Some err, session)
          | inr values => ret (true, None, Session.set_Values values session)
          end
      end
  end.

(** New returns a session for the given name without adding it to the
    registry. *)
Definition New (s : Store) (r : Request.t) (name : string)
    : M (Sess * option error) :=
  let session := NewSession name in
  let? _ := deref (RethinkStore.Options s) in
  let session := Session.set_Options (RethinkStore.Options s) session in
  let session := Session.set_IsNew true session in
  match Request.Cookie r name with
  | Some c =>
      match DecodeMulti name (Cookie.Value c) (RethinkStore.Codecs s) with
      | inl err => ret (session, Some err)
      | inr id =>
          let session := Session.set_ID id session in
          let? (ok, err', session) := load s session in
          let session :=
            Session.set_IsNew
              (negb (bool_decide (err' = None) && ok)) session in
          ret (session, None)
      end
  | None => ret (session, None)
  end.

(** save stores the session in rethink.  The age it computes is not
    used. *)
Definition save (s : Store) (session : Sess) : M (option error) :=
  match gob_Encode (Session.Values session) with
  | inl err => ret (Some err)
  | inr buf =>
      let? o := deref (Session.Options session) in
      let age := Options.MaxAge o in
      let age := if (age =? 0)%Z then RethinkStore.DefaultMaxAge s else age in
      let? res :=
        Run (Insert (RethinkStore.Table s)
               (RethinkSession.mk (Session.ID session) buf)) in
      ret (err_of res)
  end.

(** delete removes keys from rethink *)
Definition delete (s : Store) (session : Sess) : M (option error) :=
  let? res := Run (GetDelete (RethinkStore.Table s) (Session.ID session)) in
  ret (err_of res).

(** Save adds a single session to the response. *)
Definition Save (now : time.Time) (key : list byte)
    (s : Store) (r : Request.t) (w : ResponseWriter) (session : Sess)
    : M (option error * ResponseWriter * Sess) :=
  let? o := deref (Session.Options session) in
  (* Marked for deletion. *)
  if (Options.MaxAge o <? 0)%Z then
    let? err := delete s session in
    match err with
    | Some err => ret (Some err, w, session)
    | None =>
        let? c := NewCookie now (Session.name session) ""
                    (Session.Options session) in
        ret (None, SetCookie w c, session)
    end
  else
    (* Build an alphanumeric key for the redis store. *)
    let session :=
      if decide (Session.ID session = "")
      then Session.set_ID (TrimRight (Base32.EncodeToString key) "=") session
      else session in
    let? err := save s session in
    match err with
    | Some err => ret (Some err, w, session)
    | None =>
        match EncodeMulti (Session.name session) (Session.ID session)
                (RethinkStore.Codecs s) with
        | inl err => ret (Some err, w, session)
        | inr encoded =>
            let? c := NewCookie now (Session.name session) encoded
                        (Session.Options session) in
            ret (None, SetCookie w c, session)
        end
    end.

End Store.

(** Reading the world of this revision. *)
Definition pointee (w : World) (p : ptr) : option Options.t :=
  match p with
  | Some l => heap w !! l
  | None => None
  end.

Definition pending (w : World) : option error :=
  match outcomes w with
  | Some e :: _ => Some e
  | _ => None
  end.

Definition asked (q : Term) (w : World) : World :=
  mkWorld (heap w) (server w) (tail (outcomes w)) (journal w ++ [q]).

End Earlier.

(** ** A recorder of responses (rethinkstore_test.go) *)
Module ResponseRecorder.

(** ResponseRecorder is an implementation of http.ResponseWriter that
    records its mutations for later inspection in tests. *)
Record t : Type := mk {
  Code : Z;                              (* the HTTP response code *)
  HeaderMap : gmap string (list string); (* the HTTP response headers *)
  Body : option (list byte);             (* if non-nil, the written data *)
  Flushed : bool
}.

(** NewRecorder returns an initialized ResponseRecorder. *)
Definition NewRecorder : t := mk 0 ∅ (Some []) false.

Definition StatusOK : Z := 200.

(** Header returns the response headers. *)
Definition Header (rw : t) : gmap string (list string) := HeaderMap rw.

(** Write always succeeds and writes to rw.Body, if not nil. *)
Definition Write (rw : t) (buf : list byte) : (Z * option error) * t :=
  let rw :=
    match Body rw with
    | Some body =>
        mk (Code rw) (HeaderMap rw) (Some (body ++ buf)%list) (Flushed rw)
    | None => rw
    end in
  let rw :=
    if (Code rw =? 0)%Z
    then mk StatusOK (HeaderMap rw) (Body rw) (Flushed rw)
    else rw in
  ((Z.of_nat (length buf), None), rw).

(** WriteHeader sets rw.Code. *)
Definition WriteHeader (rw : t) (code : Z) : t :=
  mk code (HeaderMap rw) (Body rw) (Flushed rw).

(** Flush sets rw.Flushed to true. *)
Definition Flush (rw : t) : t :=
  mk (Code rw) (HeaderMap rw) (Body rw) true.

(** The recorder after the buffers were written one after the other. *)
Definition WriteAll (rw : t) (bufs : list (list byte)) : t :=
  fold_left (fun rw buf => (Write rw buf).2) bufs rw.

End ResponseRecorder.

(** ** The test bed, continued: the earlier revision, and a store without
    codecs *)
Module Bench.
Import Demo Scenario.
Local Open Scope Z_scope.

(** A store whose list of codecs is empty: no identifier encodes. *)
Definition mute_store : RethinkStore.t string :=
  RethinkStore.mk (ConnectOpts.mk "127.0.0.1:28015" "session_test_db" 5 5)
    table [] (Some 1%positive) 0.

(** A world of the earlier revision that holds the record of [session1],
    with the options at the age [age]. *)
Definition held (age : Z) : Earlier.World :=
  Earlier.mkWorld {[1%positive := Options.mk "/" "" age false false]}
    {[table := ({[id0 := Earlier.RethinkSession.mk id0 payload]}
                : gmap string Earlier.RethinkSession.t)]} [] [].

(** The session of [id0] with another value. *)
Definition session2 : Session.t string :=
  Session.mk id0 {["foo" := "baz"]} (Some 1%positive) false "session-key".

(** The documents of [Scenario.saved], and the records of [held]. *)
Definition saved_documents : gmap string RethinkSession.t :=
  {[id0 := RethinkSession.mk id0 2592000000001000 payload]}.

Definition held_records : gmap string Earlier.RethinkSession.t :=
  {[id0 := Earlier.RethinkSession.mk id0 payload]}.

(** The session that [New] returns for [second_request] on [saved]. *)
Definition loaded : Session.t string :=
  Session.mk id0 {["foo" := "bar"]} (Some 1%positive) false "session-key".

(** The earlier revision before and after [NewRethinkStore], on a server
    without tables. *)
Definition earlier_empty : Earlier.World := Earlier.mkWorld ∅ ∅ [] [].

Definition earlier_opened : Earlier.World :=
  Earlier.mkWorld
    {[1%positive := Options.mk "/" "" 2592000 false false]} ∅ [] [].

(** [session.Values["flash"] = &FlashMessage{42, "foo"}], what is loaded
    in its place, and the bytes in between. *)
Definition flash_sent : gmap string Gob.Value :=
  {["flash" := Gob.Pointer (Gob.FlashMessage 42 "foo")]}.

Definition flash_loaded : gmap string Gob.Value :=
  {["flash" := Gob.FlashMessage 42 "foo"]}.

Definition flash_payload : list byte :=
  Eval vm_compute in
    match Gob.encode flash_sent with inr buf => buf | inl _ => [] end.

Definition flash_session : Session.t Gob.Value :=
  Session.mk id0 flash_sent (Some 1%positive) false "session-key".

Definition flash_saved : World :=
  mkWorld (heap opened)
    {[table := DB.mkTable
         {[id0 := RethinkSession.mk id0 2592000000001000 flash_payload]}
         {["expires"]}]} []
    (journal opened ++
     [DB.GetReplace table id0
        (RethinkSession.mk id0 2592000000001000 flash_payload)]).

(** [opened] after a [Save] without random bytes. *)
Definition anonymous : World :=
  mkWorld (heap opened)
    {[table := DB.mkTable
         {["" := RethinkSession.mk "" 2592000000001000 payload]}
         {["expires"]}]} []
    (journal opened ++
     [DB.GetReplace table ""
        (RethinkSession.mk "" 2592000000001000 payload)]).

(** Another visitor's session, without an id. *)
Definition session_other : Session.t string :=
  Session.mk "" {["foo" := "baz"]} (Some 1%positive) true "session-key".

(** The first instant of the year 2000, in nanoseconds. *)
Definition year_2000 : time.Time := 946684800 * 1000000000.

End Bench.

(** * Properties *)

(** RFC 4648, section 10, and the shape of a session id. *)
Example base32_rfc4648_vectors :
  Base32.EncodeToString [] = ""
  /\ Base32.EncodeToString [x66] = "MY======"
  /\ Base32.EncodeToString [x66; x6f] = "MZXQ===="
  /\ Base32.EncodeToString [x66; x6f; x6f] = "MZXW6==="
  /\ Base32.EncodeToString [x66; x6f; x6f; x62] = "MZXW6YQ="
  /\ Base32.EncodeToString [x66; x6f; x6f; x62; x61] = "MZXW6YTB"
  /\ Base32.EncodeToString [x66; x6f; x6f; x62; x61; x72] = "MZXW6YTBOI======".
Proof. repeat split; reflexivity. Qed.

Example TrimRight_examples :
  TrimRight "MZXW====" "=" = "MZXW"
  /\ TrimRight "a=b==" "=" = "a=b"
  /\ TrimRight "====" "=" = ""
  /\ TrimRight "xyz" "=" = "xyz".
Proof. repeat split; reflexivity. Qed.

(** ** Facts about the base-32 text *)

Section base32_facts.
Import Base32.

Lemma byte_bits_length b : length (byte_bits b) = 8.
Proof.
  unfold byte_bits.
  destruct (Byte.to_bits b) as (?&?&?&?&?&?&?&?). reflexivity.
Qed.

Lemma byte_bits_inj a b : byte_bits a = byte_bits b -> a = b.
Proof.
  unfold byte_bits. intros Heq.
  rewrite <- (Byte.of_bits_to_bits a), <- (Byte.of_bits_to_bits b).
  destruct (Byte.to_bits a) as (?&?&?&?&?&?&?&?),
           (Byte.to_bits b) as (?&?&?&?&?&?&?&?).
  by simplify_eq.
Qed.

Lemma bits_of_bytes_length src :
  length (bits_of_bytes src) = 8 * length src.
Proof.
  unfold bits_of_bytes. induction src as [|b src IH]; [done|].
  cbn [map concat]. rewrite length_app, byte_bits_length, IH. simpl. lia.
Qed.

Lemma bits_of_bytes_inj src1 src2 :
  bits_of_bytes src1 = bits_of_bytes src2 -> src1 = src2.
Proof.
  revert src2. induction src1 as [|a src1 IH]; intros [|b src2] Heq.
  - done.
  - apply (f_equal length) in Heq.
    rewrite !bits_of_bytes_length in Heq. simpl in Heq. lia.
  - apply (f_equal length) in Heq.
    rewrite !bits_of_bytes_length in Heq. simpl in Heq. lia.
  - unfold bits_of_bytes in Heq. cbn [map concat] in Heq.
    apply app_inj_1 in Heq as [Hhd Htl];
      [|by rewrite !byte_bits_length].
    f_equal; [by apply byte_bits_inj|by apply IH].
Qed.

(** Induction five bits at a time. *)
Lemma quintets_ind (P : list bool -> Prop) :
  (forall l, length l < 5 -> P l) ->
  (forall a b c d e rest, P rest -> P (a :: b :: c :: d :: e :: rest)) ->
  forall l, P l.
Proof.
  intros Hshort Hstep l.
  induction l as [l IH] using (induction_ltof1 _ (@length bool)).
  destruct l as [|a [|b [|c [|d [|e rest]]]]];
    try (apply Hshort; simpl; lia).
  apply Hstep, IH. unfold ltof. simpl. lia.
Qed.

Lemma quintets_Forall l : Forall (fun q => length q = 5) (quintets l).
Proof.
  induction l as [l Hl|a b c d e rest IH] using quintets_ind.
  - destruct l as [|a [|b [|c [|d [|e rest]]]]];
      [| | | | |simpl in Hl; lia]; repeat constructor.
  - cbn [quintets]. by constructor.
Qed.

Lemma quintets_length l : length (quintets l) = (length l + 4) / 5.
Proof.
  induction l as [l Hl|a b c d e rest IH] using quintets_ind.
  - destruct l as [|a [|b [|c [|d [|e rest]]]]];
      [| | | | |simpl in Hl; lia]; reflexivity.
  - cbn [quintets length]. rewrite IH.
    replace (S (S (S (S (S (length rest))))) + 4)
      with ((length rest + 4) + 1 * 5) by lia.
    rewrite Nat.div_add by lia. lia.
Qed.

Lemma quintets_inj l1 l2 :
  length l1 = length l2 -> quintets l1 = quintets l2 -> l1 = l2.
Proof.
  revert l2.
  induction l1 as [l1 Hl|a b c d e rest IH] using quintets_ind;
    intros l2 Hlen Heq.
  - destruct l1 as [|a [|b [|c [|d [|e rest]]]]];
      [| | | | |simpl in Hl; lia];
      destruct l2 as [|a' [|b' [|c' [|d' [|e' rest']]]]];
      simpl in Hlen; try lia; simpl in Heq; by simplify_eq.
  - destruct l2 as [|a' [|b' [|c' [|d' [|e' rest']]]]];
      simpl in Hlen; try lia.
    cbn [quintets] in Heq. simplify_eq.
    by rewrite (IH rest') by (done || lia).
Qed.

Lemma symbol_inj q1 q2 :
  length q1 = 5 -> length q2 = 5 -> symbol q1 = symbol q2 -> q1 = q2.
Proof.
  intros H1 H2.
  destruct q1 as [|a [|b [|c [|d [|e [|]]]]]]; try discriminate H1.
  destruct q2 as [|a' [|b' [|c' [|d' [|e' [|]]]]]]; try discriminate H2.
  clear H1 H2.
  destruct a, b, c, d, e, a', b', c', d', e';
    first [reflexivity | intros Hs; vm_compute in Hs; discriminate Hs].
Qed.

Lemma symbol_alphabet q : length q = 5 -> is_base32_char (symbol q) = true.
Proof.
  intros Hq.
  destruct q as [|a [|b [|c [|d [|e [|]]]]]]; try discriminate Hq.
  destruct a, b, c, d, e; reflexivity.
Qed.

Lemma base32_char_not_padding c :
  is_base32_char c = true -> in_cutset "=" c = false.
Proof.
  unfold is_base32_char, in_cutset. cbn [list_ascii_of_string existsb].
  rewrite !orb_false_r.
  destruct (Ascii.eqb_spec c "="%char) as [->|]; [|done].
  vm_compute. discriminate.
Qed.

Lemma symbols_alphabet src :
  Forall (fun c => is_base32_char c = true) (symbols src).
Proof.
  unfold symbols. apply Forall_map.
  eapply Forall_impl; [apply quintets_Forall|].
  intros q Hq. by apply symbol_alphabet.
Qed.

Lemma symbols_length src :
  length (symbols src) = (8 * length src + 4) / 5.
Proof.
  unfold symbols.
  by rewrite length_map, quintets_length, bits_of_bytes_length.
Qed.

Lemma map_symbol_inj qs1 qs2 :
  Forall (fun q => length q = 5) qs1 ->
  Forall (fun q => length q = 5) qs2 ->
  map symbol qs1 = map symbol qs2 -> qs1 = qs2.
Proof.
  intros H1. revert qs2.
  induction H1 as [|q1 qs1 Hq1 _ IH]; intros [|q2 qs2] H2 Heq;
    try done.
  inversion H2; subst. cbn [map] in Heq. simplify_eq.
  f_equal; [by apply symbol_inj|by apply IH].
Qed.

Lemma symbols_inj src1 src2 :
  length src1 = length src2 -> symbols src1 = symbols src2 -> src1 = src2.
Proof.
  intros Hlen Heq. apply bits_of_bytes_inj, quintets_inj.
  - rewrite !bits_of_bytes_length. lia.
  - eapply map_symbol_inj; eauto using quintets_Forall.
Qed.

End base32_facts.

(** ** The session id: the base-32 text without its padding *)

Section session_id.
Import Base32.

Lemma drop_while_repeat {A} (f : A -> bool) x n l :
  f x = true -> drop_while f (repeat x n ++ l) = drop_while f l.
Proof. intros Hx. induction n as [|n IH]; simpl; [done|by rewrite Hx]. Qed.

Lemma drop_while_Forall {A} (f : A -> bool) l :
  Forall (fun x => f x = false) l -> drop_while f l = l.
Proof. intros [|x l' Hx _]; simpl; [done|by rewrite Hx]. Qed.

Lemma string_of_list_ascii_length l :
  String.length (string_of_list_ascii l) = length l.
Proof. induction l as [|c l IH]; simpl; [done|by rewrite IH]. Qed.

Lemma string_of_list_ascii_inj l1 l2 :
  string_of_list_ascii l1 = string_of_list_ascii l2 -> l1 = l2.
Proof.
  intros Heq. apply (f_equal list_ascii_of_string) in Heq.
  by rewrite !list_ascii_of_string_of_list_ascii in Heq.
Qed.

Lemma TrimRight_padding cs n :
  Forall (fun c => is_base32_char c = true) cs ->
  TrimRight (string_of_list_ascii (cs ++ repeat StdPadding n)) "="
  = string_of_list_ascii cs.
Proof.
  intros Hcs. unfold TrimRight.
  rewrite list_ascii_of_string_of_list_ascii, rev_app_distr, rev_repeat.
  rewrite drop_while_repeat by reflexivity.
  rewrite drop_while_Forall, rev_involutive; [done|].
  apply Forall_rev. eapply Forall_impl; [exact Hcs|].
  intros c. apply base32_char_not_padding.
Qed.

Lemma session_id_text key :
  TrimRight (EncodeToString key) "=" = string_of_list_ascii (symbols key).
Proof. unfold EncodeToString. apply TrimRight_padding, symbols_alphabet. Qed.

Lemma session_id_inj key1 key2 :
  length key1 = length key2 ->
  TrimRight (EncodeToString key1) "=" = TrimRight (EncodeToString key2) "=" ->
  key1 = key2.
Proof.
  rewrite !session_id_text. intros Hlen Heq.
  by apply symbols_inj, string_of_list_ascii_inj.
Qed.

Lemma session_id_chars key :
  Forall (fun c => is_base32_char c = true)
    (list_ascii_of_string (TrimRight (EncodeToString key) "=")).
Proof.
  rewrite session_id_text, list_ascii_of_string_of_list_ascii.
  apply symbols_alphabet.
Qed.

Lemma session_id_length key :
  length key = 32 ->
  String.length (TrimRight (EncodeToString key) "=") = 52.
Proof.
  intros Hlen.
  by rewrite session_id_text, string_of_list_ascii_length,
    symbols_length, Hlen.
Qed.

End session_id.

Example demo_store_opened :
  match Demo.open_store with
  | Some (inr s, w) =>
      RethinkStore.Options s = Some 1%positive
      /\ RethinkStore.DefaultMaxAge s = 0%Z
      /\ RethinkStore.Codecs s = ["secret-key"]
      /\ heap w !! 1%positive
         = Some (Options.mk "/" "" 2592000 false false)
      /\ server w !! "session_test_table"
         = Some (DB.mkTable ∅ {["expires"]})
      /\ journal w = [DB.DBCreate "session_test_db";
                      DB.TableCreate "session_test_db" "session_test_table";
                      DB.IndexCreate "session_test_table" "expires";
                      DB.IndexWait "session_test_table"]
  | _ => False
  end.
Proof. vm_compute. repeat split. Qed.

Section world_facts.

Lemma bind_Some {A B} (m : M A) (k : A -> M B) w r :
  bind m k w = Some r <-> exists a w', m w = Some (a, w') /\ k a w' = Some r.
Proof.
  unfold bind. split.
  - destruct (m w) as [[a w']|]; [eauto|done].
  - by intros (a & w' & -> & ?).
Qed.

Lemma deref_eq p w :
  deref p w = (fun o => (o, w)) <$> pointee w p.
Proof.
  unfold deref, pointee. destruct p as [l|]; [|done].
  by destruct (heap w !! l).
Qed.

Lemma Run_eq q w :
  Run q w =
  Some (match pending w with
        | Some e =>
            (inl e, mkWorld (heap w) (server w) (tail (outcomes w))
                      (journal w ++ [q]))
        | None =>
            ((DB.eval q (server w)).1,
             mkWorld (heap w) (DB.eval q (server w)).2
               (tail (outcomes w)) (journal w ++ [q]))
        end).
Proof.
  unfold Run, round_trip, pending. cbn [outcomes heap server journal].
  destruct (outcomes w) as [|[e|] rest]; cbn [tail];
    by destruct (DB.eval q (server w)).
Qed.

(** A query leaves the heap alone, is written in the journal, and either
    fails on the way, or is evaluated by the server. *)
Lemma Run_inv q w res w' :
  Run q w = Some (res, w') ->
  heap w' = heap w /\ journal w' = (journal w ++ [q])%list
  /\ outcomes w' = tail (outcomes w)
  /\ ((exists e, pending w = Some e /\ res = inl e /\ server w' = server w)
      \/ (pending w = None /\ DB.eval q (server w) = (res, server w'))).
Proof.
  rewrite Run_eq. intros Heq.
  destruct (pending w) as [e|] eqn:Hp; simplify_eq; cbn.
  - repeat split; eauto.
  - repeat split. right. split; [done|].
    by destruct (DB.eval q (server w)).
Qed.

Lemma Run_total q w : is_Some (Run q w).
Proof. rewrite Run_eq. eauto. Qed.

(** What the server does with the upsert of a document under its own
    key. *)
Lemma eval_GetReplace srv table id doc res srv' :
  RethinkSession.Id doc = id ->
  DB.eval (DB.GetReplace table id doc) srv = (res, srv') ->
  match srv !! table with
  | Some tb =>
      res = inr DB.WriteResponse
      /\ srv' = <[table := DB.mkTable (<[id := doc]> (DB.rows tb))
                             (DB.indexes tb)]> srv
  | None => res = inl DB.no_table /\ srv' = srv
  end.
Proof.
  intros Hid. cbn [DB.eval]. unfold DB.on_table.
  destruct (srv !! table) as [tb|]; [|by intros [= <- <-]].
  rewrite decide_True by done. by intros [= <- <-].
Qed.

Lemma eval_Get srv table id res srv' :
  DB.eval (DB.Get table id) srv = (res, srv') ->
  srv' = srv
  /\ match srv !! table with
     | Some tb =>
         res = inr (match DB.rows tb !! id with
                    | Some d => DB.Doc d
                    | None => DB.Null
                    end)
     | None => res = inl DB.no_table
     end.
Proof.
  cbn [DB.eval]. unfold DB.on_table.
  destruct (srv !! table) as [tb|]; by intros [= <- <-].
Qed.

Lemma eval_BetweenDelete srv table lo hi index res srv' :
  DB.eval (DB.BetweenDelete table lo hi index) srv = (inr res, srv') ->
  exists tb,
    srv !! table = Some tb /\ index ∈ DB.indexes tb /\ index = "expires"
    /\ srv' = <[table := DB.mkTable
                  (filter (fun kd => DB.between lo hi (snd kd) = false)
                     (DB.rows tb))
                  (DB.indexes tb)]> srv.
Proof.
  cbn [DB.eval]. unfold DB.on_table.
  destruct (srv !! table) as [tb|]; [|done].
  case_decide as Hix; [|done]. intros [= <- <-].
  exists tb. by destruct Hix.
Qed.

Lemma eval_Count srv table res srv' :
  DB.eval (DB.Count table) srv = (res, srv') ->
  srv' = srv
  /\ match srv !! table with
     | Some tb => res = inr (DB.Number (N.of_nat (size (DB.rows tb))))
     | None => res = inl DB.no_table
     end.
Proof.
  cbn [DB.eval]. unfold DB.on_table.
  destruct (srv !! table) as [tb|]; by intros [= <- <-].
Qed.

End world_facts.

(** ** How the store's functions run *)

Section store_facts.
Context {L : Libraries}.
Implicit Types (s : Store) (session : Sess) (w : World).

Lemma NewCookie_eq now name value p w :
  NewCookie now name value p w
  = (fun o => (cookie_of now name value o, w)) <$> pointee w p.
Proof.
  unfold NewCookie, bind. rewrite deref_eq.
  by destruct (pointee w p).
Qed.

Lemma save_eq now s session w :
  save now s session w =
  match gob_Encode (Session.Values session) with
  | inl err => Some (Some err, w)
  | inr buf =>
      match pointee w (Session.Options session) with
      | Some o =>
          match Run (DB.GetReplace (RethinkStore.Table s) (Session.ID session)
                       (record now s session o buf)) w with
          | Some (res, w') => Some (err_of res, w')
          | None => None
          end
      | None => None
      end
  end.
Proof.
  unfold save. destruct (gob_Encode _) as [err|buf]; [done|].
  unfold bind at 1. rewrite deref_eq.
  destruct (pointee w _) as [o|]; [|done]. cbn [fmap option_fmap option_map].
  unfold bind. unfold record, effective_age.
  by destruct (Run _ w) as [[res w']|].
Qed.

(** A [save] that reports no error has stored the document. *)
Lemma save_success now s session w w' :
  save now s session w = Some (None, w') ->
  exists buf o tb,
    gob_Encode (Session.Values session) = inr buf
    /\ pointee w (Session.Options session) = Some o
    /\ pending w = None
    /\ server w !! RethinkStore.Table s = Some tb
    /\ server w' = <[RethinkStore.Table s :=
                      DB.mkTable (<[Session.ID session :=
                                     record now s session o buf]> (DB.rows tb))
                        (DB.indexes tb)]> (server w)
    /\ heap w' = heap w
    /\ outcomes w' = tail (outcomes w)
    /\ journal w' = (journal w ++
                     [DB.GetReplace (RethinkStore.Table s) (Session.ID session)
                        (record now s session o buf)])%list.
Proof.
  rewrite save_eq.
  destruct (gob_Encode _) as [err|buf]; [done|].
  destruct (pointee w _) as [o|]; [|done].
  destruct (Run _ w) as [[res w1]|] eqn:Hrun; [|done].
  intros [= Hres ->].
  apply Run_inv in Hrun as (Hheap & Hj & Hout & [(e & _ & -> & _)|[Hp Hev]]);
    [done|].
  apply eval_GetReplace in Hev; [|done].
  destruct (server w !! RethinkStore.Table s) as [tb|] eqn:Htb.
  - destruct Hev as [_ Hsrv]. by exists buf, o, tb.
  - destruct Hev as [-> _]. done.
Qed.

Lemma save_heap now s session w err w' :
  save now s session w = Some (err, w') -> heap w' = heap w.
Proof.
  rewrite save_eq.
  destruct (gob_Encode _) as [e|buf]; [by intros [= _ <-]|].
  destruct (pointee w _) as [o|]; [|done].
  destruct (Run _ w) as [[res w1]|] eqn:Hrun; [|done].
  intros [= _ <-]. by apply Run_inv in Hrun as (? & _).
Qed.

Lemma save_total now s session w o :
  pointee w (Session.Options session) = Some o ->
  is_Some (save now s session w).
Proof.
  intros Ho. rewrite save_eq, Ho.
  destruct (gob_Encode _); [eauto|].
  destruct (Run_total (DB.GetReplace (RethinkStore.Table s)
              (Session.ID session) (record now s session o l)) w)
    as [[res w'] ->]. eauto.
Qed.

Lemma identified_Options key session :
  Session.Options (identified key session) = Session.Options session.
Proof. unfold identified. by case_decide. Qed.

Lemma identified_Values key session :
  Session.Values (identified key session) = Session.Values session.
Proof. unfold identified. by case_decide. Qed.

Lemma identified_name key session :
  Session.name (identified key session) = Session.name session.
Proof. unfold identified. by case_decide. Qed.

(** [Save] on a session marked for deletion. *)
Lemma Save_negative now key s r rw session o w :
  pointee w (Session.Options session) = Some o ->
  (Options.MaxAge o < 0)%Z ->
  Save now key s r rw session w
  = Some ((None, SetCookie rw (cookie_of now (Session.name session) "" o),
           session), w).
Proof.
  intros Ho Hneg. unfold Save, bind. rewrite deref_eq, Ho.
  cbn [fmap option_fmap option_map].
  rewrite (proj2 (Z.ltb_lt _ _) Hneg).
  by rewrite NewCookie_eq, Ho.
Qed.

(** [Save] on any other session, by what [save] and [EncodeMulti] give. *)
Lemma Save_nonnegative now key s r rw session o w :
  pointee w (Session.Options session) = Some o ->
  (0 <= Options.MaxAge o)%Z ->
  Save now key s r rw session w =
  let session' := identified key session in
  match save now s session' w with
  | Some (Some err, w') => Some ((Some err, rw, session'), w')
  | Some (None, w') =>
      match EncodeMulti (Session.name session') (Session.ID session')
              (RethinkStore.Codecs s) with
      | inl err => Some ((Some err, rw, session'), w')
      | inr encoded =>
          Some ((None,
                 SetCookie rw
                   (cookie_of now (Session.name session') encoded o),
                 session'), w')
      end
  | None => None
  end.
Proof.
  intros Ho Hage. unfold Save. unfold bind at 1. rewrite deref_eq, Ho.
  cbn [fmap option_fmap option_map].
  rewrite (proj2 (Z.ltb_ge _ _) Hage).
  fold (identified key session). cbn zeta. unfold bind.
  destruct (save now s (identified key session) w)
    as [[[err|] w']|] eqn:Hsave; [done| |done].
  destruct (EncodeMulti _ _ _) as [err|encoded]; [done|].
  rewrite NewCookie_eq, identified_Options.
  unfold pointee in *. rewrite (save_heap _ _ _ _ _ _ Hsave).
  by rewrite Ho.
Qed.

End store_facts.

Section retrieval_facts.
Context {L : Libraries}.
Implicit Types (s : Store) (session : Sess) (w : World).

Lemma load_eq s session w :
  load s session w =
  match Run (DB.Get (RethinkStore.Table s) (Session.ID session)) w with
  | Some (inl err, w') => Some ((false, Some err, session), w')
  | Some (inr cur, w') =>
      match DB.One cur with
      | inl err => Some ((false, Some err, session), w')
      | inr data =>
          match gob_Decode (RethinkSession.Session data)
                  (Session.Values session) with
          | inl err => Some ((true, Some err, session), w')
          | inr values =>
              Some ((true, None, Session.set_Values values session), w')
          end
      end
  | None => None
  end.
Proof.
  unfold load, bind.
  destruct (Run _ w) as [[[err|cur] w']|]; [done| |done].
  destruct (DB.One cur) as [err|data]; [done|].
  by destruct (gob_Decode _ _).
Qed.

Lemma load_total s session w : is_Some (load s session w).
Proof.
  rewrite load_eq.
  destruct (Run_total (DB.Get (RethinkStore.Table s) (Session.ID session)) w)
    as [[[err|cur] w'] ->]; [eauto|].
  destruct (DB.One cur) as [err|data]; [eauto|].
  destruct (gob_Decode _ _); eauto.
Qed.

(** [load] when the document is there and the server answers. *)
Lemma load_hit s session w docs d :
  pending w = None ->
  documents w (RethinkStore.Table s) = Some docs ->
  docs !! Session.ID session = Some d ->
  load s session w =
  Some (match gob_Decode (RethinkSession.Session d)
                (Session.Values session) with
        | inl err => (true, Some err, session)
        | inr values => (true, None, Session.set_Values values session)
        end,
        asked (DB.Get (RethinkStore.Table s) (Session.ID session)) w).
Proof.
  intros Hp Hdocs Hd. rewrite load_eq, Run_eq, Hp.
  unfold documents in Hdocs.
  destruct (server w !! RethinkStore.Table s) as [tb|] eqn:Htb;
    [|done]. cbn in Hdocs. simplify_eq.
  cbn [DB.eval]. unfold DB.on_table. rewrite Htb. cbn [fst snd].
  rewrite Hd. cbn [DB.One]. unfold asked.
  by destruct (gob_Decode _ _).
Qed.

(** [load] reports a document only when it is there. *)
Lemma load_ok_hit s session w ok session' w' :
  load s session w = Some ((ok, None, session'), w') ->
  exists docs d,
    documents w (RethinkStore.Table s) = Some docs
    /\ docs !! Session.ID session = Some d.
Proof.
  rewrite load_eq, Run_eq. unfold documents.
  destruct (pending w); [done|].
  cbn [DB.eval]. unfold DB.on_table.
  destruct (server w !! RethinkStore.Table s) as [tb|]; [|done].
  cbn [fst snd]. destruct (DB.rows tb !! Session.ID session) as [d|] eqn:Hd;
    [|done].
  intros _. by exists (DB.rows tb), d.
Qed.

Lemma New_eq s r name w o :
  pointee w (RethinkStore.Options s) = Some o ->
  New s r name w =
  match Request.Cookie r name with
  | Some c =>
      match DecodeMulti name (Cookie.Value c) (RethinkStore.Codecs s) with
      | inl err => Some ((blank s name, Some err), w)
      | inr id =>
          match load s (Session.set_ID id (blank s name)) w with
          | Some ((ok, err', session), w') =>
              Some ((Session.set_IsNew
                       (negb (bool_decide (err' = None) && ok)) session,
                     None), w')
          | None => None
          end
      end
  | None => Some ((blank s name, None), w)
  end.
Proof.
  intros Ho. unfold New. unfold bind at 1. rewrite deref_eq, Ho.
  cbn [fmap option_fmap option_map].
  change (Session.set_IsNew true
            (Session.set_Options (RethinkStore.Options s) (NewSession name)))
    with (blank s name).
  destruct (Request.Cookie r name) as [c|]; [|done].
  destruct (DecodeMulti _ _ _) as [err|id]; [done|].
  unfold bind.
  by destruct (load s (Session.set_ID id (blank s name)) w)
    as [[[[ok err'] session] w']|].
Qed.

Lemma DeleteExpired_success now s w w' :
  DeleteExpired now s w = Some (None, w') ->
  exists tb,
    server w !! RethinkStore.Table s = Some tb
    /\ "expires" ∈ DB.indexes tb
    /\ server w' =
       <[RethinkStore.Table s :=
           DB.mkTable
             (filter (fun kd => DB.between DB.MinVal (DB.Now now) (snd kd)
                                = false) (DB.rows tb))
             (DB.indexes tb)]> (server w)
    /\ heap w' = heap w
    /\ outcomes w' = tail (outcomes w)
    /\ journal w' = (journal w ++
                     [DB.BetweenDelete (RethinkStore.Table s) DB.MinVal
                        (DB.Now now) "expires"])%list.
Proof.
  unfold DeleteExpired, bind.
  destruct (Run _ w) as [[res w1]|] eqn:Hrun; [|done].
  intros [= Hres <-].
  apply Run_inv in Hrun as (Hheap & Hj & Hout & [(e & _ & -> & _)|[Hp Hev]]);
    [done|].
  destruct res as [e|res]; [done|].
  apply eval_BetweenDelete in Hev as (tb & Htb & Hix & _ & Hsrv).
  by exists tb.
Qed.

Lemma Count_eq s w docs :
  pending w = None ->
  documents w (RethinkStore.Table s) = Some docs ->
  Count s w
  = Some ((N.of_nat (size docs), None),
          asked (DB.Count (RethinkStore.Table s)) w).
Proof.
  intros Hp Hdocs. unfold Count, bind. rewrite Run_eq, Hp.
  unfold documents in Hdocs.
  destruct (server w !! RethinkStore.Table s) as [tb|] eqn:Htb; [|done].
  cbn in Hdocs. simplify_eq.
  cbn [DB.eval]. unfold DB.on_table. by rewrite Htb.
Qed.

Lemma NewRethinkStore_success addr db table idle open keyPairs w s w' :
  NewRethinkStore addr db table idle open keyPairs w = Some (inr s, w') ->
  RethinkStore.DefaultMaxAge s = 0%Z
  /\ RethinkStore.Table s = table
  /\ RethinkStore.Options s = Some (fresh (dom (heap w)))
  /\ RethinkStore.Codecs s
     = map (SecureCookie_MaxAge sessionExpire) (CodecsFromPairs keyPairs)
  /\ heap w' = <[fresh (dom (heap w)) :=
                  Options.mk "/" "" sessionExpire false false]> (heap w).
Proof.
  unfold NewRethinkStore. intros Hrun.
  apply bind_Some in Hrun as ([err|conn] & w1 & Hconn & Hrun); [done|].
  assert (heap w1 = heap w) as Hh1.
  { unfold Connect, round_trip in Hconn.
    destruct (outcomes w) as [|[e|] rest]; by simplify_eq. }
  apply bind_Some in Hrun as (p & w2 & Halloc & Hrun).
  unfold alloc in Halloc. injection Halloc as <- <-.
  apply bind_Some in Hrun as (rs & w3 & Hmax & Hrun).
  unfold MaxAge in Hmax.
  apply bind_Some in Hmax as ([] & w3' & Hupd & Hret).
  unfold update in Hupd. cbn in Hupd.
  rewrite lookup_insert_eq in Hupd. injection Hupd as <-.
  injection Hret as <- <-.
  apply bind_Some in Hrun as (r1 & w4 & H1 & Hrun).
  apply bind_Some in Hrun as (r2 & w5 & H2 & Hrun).
  apply bind_Some in Hrun as (r3 & w6 & H3 & Hrun).
  apply bind_Some in Hrun as (r4 & w7 & H4 & Hrun).
  injection Hrun as <- <-.
  apply Run_inv in H1 as (Hh4 & _), H2 as (Hh5 & _),
    H3 as (Hh6 & _), H4 as (Hh7 & _).
  cbn in *. repeat split; [by rewrite Hh1|].
  rewrite Hh7, Hh6, Hh5, Hh4, Hh1. cbn.
  by rewrite insert_insert_eq.
Qed.

Lemma load_Options s session w ok err session' w' :
  load s session w = Some ((ok, err, session'), w') ->
  Session.Options session' = Session.Options session.
Proof.
  rewrite load_eq.
  destruct (Run _ w) as [[[e|cur] w1]|]; [by intros [= _ _ <- _]| |done].
  destruct (DB.One cur); [by intros [= _ _ <- _]|].
  destruct (gob_Decode _ _); by intros [= _ _ <- _].
Qed.

(** [delete] removes the document of the session, when the server
    answers. *)
Lemma delete_success s session w w' :
  delete s session w = Some (None, w') ->
  exists docs,
    documents w (RethinkStore.Table s) = Some docs
    /\ documents w' (RethinkStore.Table s)
       = Some (base.delete (Session.ID session) docs).
Proof.
  unfold delete, bind.
  destruct (Run _ w) as [[res w1]|] eqn:Hrun; [|done].
  intros [= Hres <-].
  apply Run_inv in Hrun as (_ & _ & _ & [(e & _ & -> & _)|[_ Hev]]); [done|].
  cbn [DB.eval] in Hev. unfold DB.on_table, documents in *.
  destruct (server w !! RethinkStore.Table s) as [tb|]; [|by simplify_eq].
  injection Hev as _ <-. exists (DB.rows tb).
  by rewrite lookup_insert_eq.
Qed.

End retrieval_facts.

Example scenario_opened :
  Demo.open_store = Some (inr Scenario.store, Scenario.opened).
Proof. vm_compute. reflexivity. Qed.

Example scenario_saved :
  Save (L := Demo.libraries) 1000%Z Demo.key0 Scenario.store
    Scenario.first_request []
    Scenario.session0 Scenario.opened
  = Some ((None,
           [Cookie.mk "session-key" (Demo.sign "secret-key" Scenario.id0)
              "/" "" (Some 2592000000001000%Z) 2592000%Z false false],
           Scenario.session1),
          Scenario.saved).
Proof. vm_compute. reflexivity. Qed.

Example scenario_loaded :
  New (L := Demo.libraries) Scenario.store Scenario.second_request
    "session-key" Scenario.saved
  = Some ((Session.mk Scenario.id0 {["foo" := "bar"]} (Some 1%positive)
             false "session-key", None),
          asked (DB.Get Scenario.table Scenario.id0) Scenario.saved).
Proof. vm_compute. reflexivity. Qed.

(** A value that has no encoding: the error comes back, no cookie is
    set and nothing is sent to the server. *)
Example scenario_unserializable :
  Save (L := Demo.libraries) 1000%Z Demo.key0 Scenario.store
    Scenario.first_request []
    Scenario.session_bad Scenario.opened
  = Some ((Some "gob: type not registered for interface", [],
           Session.set_ID Scenario.id0 Scenario.session_bad),
          Scenario.opened).
Proof. vm_compute. reflexivity. Qed.

(** A pointer to a [FlashMessage] is stored as the [FlashMessage]. *)
Example gob_flattens :
  Gob.decode Bench.flash_payload ∅ = inr Bench.flash_loaded
  /\ Gob.encode Bench.flash_loaded = inr Bench.flash_payload.
Proof. vm_compute. split; reflexivity. Qed.

Example flash_scenario_saved :
  save (L := Gob.libraries) 1000%Z Scenario.store Bench.flash_session
    Scenario.opened
  = Some (None, Bench.flash_saved).
Proof. vm_compute. reflexivity. Qed.

(** Without random bytes ([GenerateRandomKey] gives nil when the random
    source fails) the id stays empty. *)
Example session_id_without_key :
  TrimRight (Base32.EncodeToString []) "=" = "".
Proof. reflexivity. Qed.

(** A client that still sends the old cookie after the session was
    marked for deletion and saved finds the session as it was stored. *)
Example scenario_still_stored :
  New (L := Demo.libraries) Scenario.store Scenario.second_request
    "session-key" Scenario.marked
  = Some ((Session.mk Scenario.id0 {["foo" := "bar"]} (Some 1%positive)
             false "session-key", None),
          asked (DB.Get Scenario.table Scenario.id0) Scenario.marked).
Proof. vm_compute. reflexivity. Qed.

Example scenario_marked :
  Scenario.set_session_MaxAge (-1) Scenario.session1 Scenario.saved
  = Some (tt, Scenario.marked).
Proof. vm_compute. reflexivity. Qed.

(** ** Retrieval: [New] *)

Section New_properties.
Context {L : Libraries}.
Implicit Types (s : Store) (session : Sess) (w : World).

(** Without a cookie of that name [New] gives the blank session and no
    error, and asks the server nothing. *)
Lemma New_no_cookie s r name o w :
  pointee w (RethinkStore.Options s) = Some o ->
  Request.Cookie r name = None ->
  New s r name w = Some ((blank s name, None), w).
Proof. intros Ho Hc. by rewrite (New_eq _ _ _ _ _ Ho), Hc. Qed.

(** Whatever [load] reports, [New] returns a nil error once the cookie
    has decoded: the error of [load] lives in a variable of the inner
    block. *)
Lemma New_after_decode s r name c id o w :
  pointee w (RethinkStore.Options s) = Some o ->
  Request.Cookie r name = Some c ->
  DecodeMulti name (Cookie.Value c) (RethinkStore.Codecs s) = inr id ->
  exists session w',
    New s r name w = Some ((session, None), w').
Proof.
  intros Ho Hc Hdec. rewrite (New_eq _ _ _ _ _ Ho), Hc, Hdec.
  destruct (load_total s (Session.set_ID id (blank s name)) w)
    as [[[[ok err'] session] w'] ->]. eauto.
Qed.

Lemma New_load_error s r name c id o w ok err session w' :
  pointee w (RethinkStore.Options s) = Some o ->
  Request.Cookie r name = Some c ->
  DecodeMulti name (Cookie.Value c) (RethinkStore.Codecs s) = inr id ->
  load s (Session.set_ID id (blank s name)) w
    = Some ((ok, Some err, session), w') ->
  New s r name w = Some ((Session.set_IsNew true session, None), w').
Proof.
  intros Ho Hc Hdec Hload.
  by rewrite (New_eq _ _ _ _ _ Ho), Hc, Hdec, Hload.
Qed.

(** [IsNew] is false only for a cookie that decoded and a document that
    was found and decoded. *)
Lemma New_not_new s r name o w session err w' :
  pointee w (RethinkStore.Options s) = Some o ->
  New s r name w = Some ((session, err), w') ->
  Session.IsNew session = false ->
  exists c docs d,
    Request.Cookie r name = Some c
    /\ DecodeMulti name (Cookie.Value c) (RethinkStore.Codecs s)
       = inr (Session.ID session)
    /\ documents w (RethinkStore.Table s) = Some docs
    /\ docs !! Session.ID session = Some d.
Proof.
  intros Ho. rewrite (New_eq _ _ _ _ _ Ho).
  destruct (Request.Cookie r name) as [c|]; [|by intros [= <- _ _]].
  destruct (DecodeMulti _ _ _) as [e|id] eqn:Hdec; [by intros [= <- _ _]|].
  destruct (load s _ w) as [[[[ok err'] session'] w1]|] eqn:Hload; [|done].
  intros [= <- _ _]. cbn [Session.IsNew Session.set_IsNew].
  intros Hnew%negb_false_iff%andb_true_iff.
  destruct Hnew as [->%bool_decide_eq_true ->].
  assert (Session.ID session' = id) as Hid.
  { rewrite load_eq in Hload.
    destruct (Run _ w) as [[[e|cur] w2]|]; [done| |done].
    destruct (DB.One cur); [done|].
    destruct (gob_Decode _ _); by simplify_eq. }
  apply load_ok_hit in Hload as (docs & d & Hdocs & Hd).
  exists c, docs, d. cbn [Session.ID Session.set_IsNew Session.set_ID] in *.
  by rewrite Hid.
Qed.

(** C9.  A request brings a cookie of the requested name whose value the
    codecs refuse: [New] returns the blank session (empty id, no values,
    [IsNew] true, the store's options) together with the codecs' error,
    and the world it returns is the world it was given: no term was sent
    to the server, so no database error can take the place of the
    verification failure. *)
Theorem New_rejects_undecodable_cookie s r name c err o w :
  pointee w (RethinkStore.Options s) = Some o ->
  Request.Cookie r name = Some c ->
  DecodeMulti name (Cookie.Value c) (RethinkStore.Codecs s) = inl err ->
  New s r name w
  = Some ((Session.mk "" ∅ (RethinkStore.Options s) true name, Some err), w).
Proof.
  intros Ho Hc Hdec. by rewrite (New_eq _ _ _ _ _ Ho), Hc, Hdec.
Qed.

(** The options of the session [New] returns are the object the store
    points to. *)
Lemma New_Options s r name o w session err w' :
  pointee w (RethinkStore.Options s) = Some o ->
  New s r name w = Some ((session, err), w') ->
  Session.Options session = RethinkStore.Options s.
Proof.
  intros Ho. rewrite (New_eq _ _ _ _ _ Ho).
  destruct (Request.Cookie r name) as [c|]; [|by intros [= <- _ _]].
  destruct (DecodeMulti _ _ _) as [e|id]; [by intros [= <- _ _]|].
  destruct (load s _ w) as [[[[ok err'] session'] w1]|] eqn:Hload; [|done].
  intros [= <- _ _]. apply load_Options in Hload. exact Hload.
Qed.

End New_properties.

Lemma New_rejects_undecodable_cookie_witness :
  New (L := Demo.libraries) Scenario.store Scenario.forged_request
    "session-key" Scenario.saved
  = Some ((Session.mk "" ∅ (Some 1%positive) true "session-key",
           Some "securecookie: the value is not valid"),
          Scenario.saved).
Proof.
  eapply (New_rejects_undecodable_cookie (L := Demo.libraries)
            Scenario.store Scenario.forged_request "session-key").
  - vm_compute. reflexivity.
  - vm_compute. reflexivity.
  - vm_compute. reflexivity.
Defined.

(** C8.  [session.Options = &( *s.Options)] takes the address of the
    store's own options object, it makes no copy.  On the store that
    [NewRethinkStore] opens, a request without a cookie gets the blank
    session with a nil error and no query; its options pointer is the
    store's; the caller's [session.Options.MaxAge = -1] on that session
    therefore rewrites the store's default, and the session [New] builds
    for the next request starts with [MaxAge] -1. *)
Theorem New_options_are_the_store_options :
  exists session w2 session2,
    New (L := Demo.libraries) Scenario.store Scenario.first_request
      "session-key" Scenario.opened
      = Some ((session, None), Scenario.opened)
    /\ Session.ID session = "" /\ Session.Values session = ∅
    /\ Session.IsNew session = true
    /\ Session.Options session = RethinkStore.Options Scenario.store
    /\ pointee Scenario.opened (RethinkStore.Options Scenario.store)
       = Some (Options.mk "/" "" sessionExpire false false)
    /\ Scenario.set_session_MaxAge (-1) session Scenario.opened = Some (tt, w2)
    /\ pointee w2 (RethinkStore.Options Scenario.store)
       = Some (Options.mk "/" "" (-1) false false)
    /\ New (L := Demo.libraries) Scenario.store Scenario.first_request
         "other-key" w2
       = Some ((session2, None), w2)
    /\ pointee w2 (Session.Options session2)
       = Some (Options.mk "/" "" (-1) false false).
Proof.
  eexists _, _, _. vm_compute. repeat split.
Qed.

(** C4.  The cookie decodes, the document is there, its payload does not
    decode: [load] reports the decoding error, and [New] returns the
    session, empty and marked new, with a nil error. *)
Theorem New_drops_the_error_of_load :
  let session :=
    Session.mk Scenario.id0 ∅ (Some 1%positive) true "session-key" in
  let w' := asked (DB.Get Scenario.table Scenario.id0) Scenario.garbled in
  load (L := Demo.libraries) Scenario.store session Scenario.garbled
    = Some ((true, Some "unexpected EOF", session), w')
  /\ New (L := Demo.libraries) Scenario.store Scenario.second_request
       "session-key" Scenario.garbled
     = Some ((session, None), w').
Proof. vm_compute. split; reflexivity. Qed.

(** ** Persistence: [Save] *)

Section Save_properties.
Context {L : Libraries}.
Implicit Types (s : Store) (session : Sess) (w : World).

(** C2.  For a session whose [MaxAge] is not negative [Save] returns,
    and
    - if the payload does not serialize, it returns that error, the
      response has the cookies it had, and nothing was sent to the
      server;
    - if the upsert fails, it returns that error and the response has
      the cookies it had;
    - if the write went through and the identifier does not encode, it
      returns that error and the response has the cookies it had;
    - whenever the response comes back changed, [Save] returned nil and
      [save] had reported no error: [SetCookie] is reached only after
      the write. *)
Theorem Save_failure_sets_no_cookie now key s r rw session o w :
  pointee w (Session.Options session) = Some o ->
  (0 <= Options.MaxAge o)%Z ->
  let session' := identified key session in
  is_Some (Save now key s r rw session w)
  /\ (forall err,
       gob_Encode (Session.Values session) = inl err ->
       Save now key s r rw session w = Some ((Some err, rw, session'), w))
  /\ (forall buf err w',
       gob_Encode (Session.Values session) = inr buf ->
       Run (DB.GetReplace (RethinkStore.Table s) (Session.ID session')
              (record now s session' o buf)) w = Some (inl err, w') ->
       Save now key s r rw session w = Some ((Some err, rw, session'), w'))
  /\ (forall err w',
       save now s session' w = Some (None, w') ->
       EncodeMulti (Session.name session') (Session.ID session')
         (RethinkStore.Codecs s) = inl err ->
       Save now key s r rw session w = Some ((Some err, rw, session'), w'))
  /\ (forall result rw' session'' w',
       Save now key s r rw session w = Some ((result, rw', session''), w') ->
       rw' <> rw ->
       result = None /\ save now s session' w = Some (None, w')).
Proof.
  intros Ho Hage session'.
  pose proof (Save_nonnegative now key s r rw session o w Ho Hage) as HS.
  cbn zeta in HS. fold session' in HS.
  assert (pointee w (Session.Options session') = Some o) as Ho'
    by (by unfold session'; rewrite identified_Options).
  split; [|split; [|split; [|split]]].
  - rewrite HS.
    destruct (save_total now s session' w o Ho') as [[[e|] w'] ->]; [eauto|].
    destruct (EncodeMulti _ _ _); eauto.
  - intros err Henc. rewrite HS, save_eq.
    unfold session'. by rewrite identified_Values, Henc.
  - intros buf err w' Henc Hrun. rewrite HS, save_eq.
    unfold session' at 1. rewrite identified_Values, Henc.
    fold session'. by rewrite Ho', Hrun.
  - intros err w' Hsave Henc. by rewrite HS, Hsave, Henc.
  - intros result rw' session'' w'. rewrite HS.
    destruct (save now s session' w) as [[[e|] w1]|]; [| |done].
    + intros [= <- <- <- <-]. done.
    + destruct (EncodeMulti _ _ _).
      * intros [= <- <- <- <-]. done.
      * by intros [= <- <- <- <-].
Qed.


End Save_properties.

Lemma Save_failure_sets_no_cookie_witness :
  Save (L := Demo.libraries) 1000%Z Demo.key0 Scenario.store
    Scenario.first_request []
    Scenario.session0 Scenario.unplugged
  = Some ((Some "connection refused", [], Scenario.session1),
          asked (DB.GetReplace Scenario.table Scenario.id0
                   (RethinkSession.mk Scenario.id0 2592000000001000%Z
                      Scenario.payload))
            Scenario.unplugged).
Proof.
  eapply (proj1 (proj2 (proj2
    (Save_failure_sets_no_cookie (L := Demo.libraries) 1000%Z Demo.key0
       Scenario.store Scenario.first_request [] Scenario.session0
       (Options.mk "/" "" 2592000 false false) Scenario.unplugged
       ltac:(reflexivity) ltac:(vm_compute; discriminate))))).
  - vm_compute. reflexivity.
  - vm_compute. reflexivity.
Defined.



(** ** Expiry, identifiers and the sweep *)

Section lifecycle_facts.
Context {L : Libraries}.
Implicit Types (s : Store) (session : Sess) (w : World).

Lemma wrap64_small z :
  (- 2 ^ 63 <= z < 2 ^ 63)%Z -> wrap64 z = z.
Proof. intros Hz. unfold wrap64. rewrite Z.mod_small; lia. Qed.

Lemma seconds_exact age :
  (-9223372036 <= age <= 9223372036)%Z ->
  time.mul age time.Second = (age * 1000000000)%Z.
Proof. intros Hage. unfold time.mul, time.Second. apply wrap64_small. lia. Qed.

Lemma epoch_time_exact t :
  (- 2 ^ 63 <= t < 2 ^ 63)%Z -> DB.epoch_time t = t.
Proof.
  intros Ht. unfold DB.epoch_time.
  replace (t <? - 2 ^ 63)%Z with false by lia. by apply wrap64_small.
Qed.

(** A [Save] that returns nil has put the document of the session in
    the table. *)
Lemma Save_success now key s r rw session o w rw' session' w' :
  pointee w (Session.Options session) = Some o ->
  (0 <= Options.MaxAge o)%Z ->
  Save now key s r rw session w = Some ((None, rw', session'), w') ->
  session' = identified key session
  /\ heap w' = heap w
  /\ exists buf docs,
       documents w (RethinkStore.Table s) = Some docs
       /\ documents w' (RethinkStore.Table s)
          = Some (<[Session.ID session' := record now s session' o buf]> docs).
Proof.
  intros Ho Hage. rewrite (Save_nonnegative _ _ _ _ _ _ _ _ Ho Hage).
  cbn zeta.
  destruct (save now s (identified key session) w)
    as [[[e|] w1]|] eqn:Hsave; [done| |done].
  destruct (EncodeMulti _ _ _); [done|].
  intros [= <- <- <-].
  apply save_success in Hsave
    as (buf & o' & tb & _ & Ho' & _ & Htb & Hsrv & Hheap & _).
  rewrite identified_Options, Ho in Ho'. injection Ho' as <-.
  repeat split; [done|]. exists buf, (DB.rows tb).
  unfold documents. by rewrite Hsrv, Htb, lookup_insert_eq.
Qed.

Lemma between_sweep now d :
  DB.between DB.MinVal (DB.Now now) d = false
  <-> (now <= RethinkSession.Expires d)%Z.
Proof.
  unfold DB.between. cbn [DB.above DB.below andb].
  rewrite Z.ltb_ge. done.
Qed.

(** The documents after a sweep that reported no error. *)
Lemma DeleteExpired_documents now s w w' :
  DeleteExpired now s w = Some (None, w') ->
  exists docs,
    documents w (RethinkStore.Table s) = Some docs
    /\ documents w' (RethinkStore.Table s)
       = Some (filter (fun kd => DB.between DB.MinVal (DB.Now now) (snd kd)
                                 = false) docs).
Proof.
  intros (tb & Htb & _ & Hsrv & _)%DeleteExpired_success.
  exists (DB.rows tb). unfold documents.
  by rewrite Hsrv, Htb, lookup_insert_eq.
Qed.

(** [Save] sends the server one upsert or nothing; it never sends a
    deletion. *)
Lemma Save_journal now key s r rw session w result w' :
  Save now key s r rw session w = Some (result, w') ->
  journal w' = journal w
  \/ exists doc,
       journal w' = (journal w ++
                     [DB.GetReplace (RethinkStore.Table s)
                        (Session.ID (identified key session)) doc])%list.
Proof.
  intros HS.
  destruct (pointee w (Session.Options session)) as [o|] eqn:Ho.
  - destruct (Z_lt_le_dec (Options.MaxAge o) 0) as [Hneg|Hage].
    + rewrite (Save_negative _ _ _ _ _ _ _ _ Ho Hneg) in HS.
      left. by simplify_eq.
    + rewrite (Save_nonnegative _ _ _ _ _ _ _ _ Ho Hage) in HS.
      cbn zeta in HS.
      destruct (save now s (identified key session) w)
        as [[err w1]|] eqn:Hsave; [|by destruct (save _ _ _ _)].
      assert (w' = w1) as ->.
      { destruct err; [by simplify_eq|].
        destruct (EncodeMulti _ _ _); by simplify_eq. }
      clear HS. rewrite save_eq in Hsave.
      destruct (gob_Encode _); [left; by simplify_eq|].
      destruct (pointee w _) as [o'|]; [|done].
      destruct (Run _ w) as [[res w2]|] eqn:Hrun; [|done].
      apply Run_inv in Hrun as (_ & Hj & _). simplify_eq. eauto.
  - unfold Save, bind in HS. by rewrite deref_eq, Ho in HS.
Qed.

End lifecycle_facts.

Example ages_stored_zero :
  Save (L := Demo.libraries) 1000%Z Demo.key0 Scenario.store
    Scenario.first_request []
    Scenario.session0 (Ages.aged 0)
  = Some ((None,
           [Cookie.mk "session-key" (Demo.sign "secret-key" Scenario.id0)
              "/" "" None 0%Z false false],
           Scenario.session1), Ages.stored 0 1000%Z).
Proof. vm_compute. reflexivity. Qed.

Example ages_stored_long :
  Save (L := Demo.libraries) 1000%Z Demo.key0 Scenario.store
    Scenario.first_request []
    Scenario.session0 (Ages.aged Ages.long_age)
  = Some ((None,
           [Cookie.mk "session-key" (Demo.sign "secret-key" Scenario.id0)
              "/" "" (Some (-9223372036709550616)%Z) Ages.long_age false false],
           Scenario.session1),
          Ages.stored Ages.long_age (-9223372036709550616)%Z).
Proof. vm_compute. reflexivity. Qed.

(** An instant after 2262 is not transmitted as it is: 292 years after
    the first instant of 2000 the driver sends an instant of 1707. *)
Example epoch_time_wraps :
  DB.epoch_time (Bench.year_2000 + 9223372036 * 1000000000)%Z
  = (-8276687237709551616)%Z.
Proof. vm_compute. reflexivity. Qed.

Example ages_swept :
  DeleteExpired (L := Demo.libraries) 1000%Z Scenario.store Ages.before_sweep
  = Some (None, Ages.after_sweep).
Proof. vm_compute. reflexivity. Qed.

(** A document that expires at the very instant of the sweep stays: the
    interval is open on the right. *)
Example sweep_keeps_the_boundary :
  DeleteExpired (L := Demo.libraries) 5000%Z Scenario.store Ages.after_sweep
  = Some (None,
          asked (DB.BetweenDelete Scenario.table DB.MinVal (DB.Now 5000%Z)
                   "expires") Ages.after_sweep).
Proof. vm_compute. reflexivity. Qed.

Section lifecycle_properties.
Context {L : Libraries}.
Implicit Types (s : Store) (session : Sess) (w : World).

(** C1, as the code has it.  For a session whose [MaxAge] is negative
    [Save] returns nil, adds to the response the cookie of the session's
    name with an empty value, the session's options, its negative
    [MaxAge] and an expiry in 1970, and leaves the world as it was:
    nothing is sent to the server and the document, if there is one,
    stays in the table.  A later [New], for a request that has no cookie
    of the name or whose cookie the codecs refuse, gives a session with
    [IsNew] true. *)
Theorem Save_negative_max_age now key s r rw session o w :
  pointee w (Session.Options session) = Some o ->
  (Options.MaxAge o < 0)%Z ->
  Save now key s r rw session w
  = Some ((None,
           SetCookie rw
             (Cookie.mk (Session.name session) "" (Options.Path o)
                (Options.Domain o) (Some (time.Unix 1 0)) (Options.MaxAge o)
                (Options.Secure o) (Options.HttpOnly o)),
           session), w)
  /\ forall r' name o',
       pointee w (RethinkStore.Options s) = Some o' ->
       Request.Cookie r' name = None
       \/ (exists c err,
             Request.Cookie r' name = Some c
             /\ DecodeMulti name (Cookie.Value c) (RethinkStore.Codecs s)
                = inl err) ->
       exists session' err,
         New s r' name w = Some ((session', err), w)
         /\ Session.IsNew session' = true.
Proof.
  intros Ho Hneg. split.
  - rewrite (Save_negative _ _ _ _ _ _ _ _ Ho Hneg). unfold cookie_of.
    rewrite (proj2 (Z.ltb_lt _ _) Hneg).
    replace (0 <? Options.MaxAge o)%Z with false
      by (symmetry; apply Z.ltb_ge; lia).
    reflexivity.
  - intros r' name o' Ho' [Hnone|(c & err & Hc & Hdec)];
      rewrite (New_eq _ _ _ _ _ Ho').
    + rewrite Hnone. by eexists _, _.
    + rewrite Hc, Hdec. by eexists _, _.
Qed.


(** What [Save] does about the id when the random source works.  A
    [Save] with a [MaxAge] that is not negative keeps the id of a
    session that has one.  A session without an id gets the base-32
    text of the key with the padding cut off; for a key of 32 bytes
    that text has 52 characters, all of them letters [A]-[Z] or digits
    [2]-[7] and none of them the padding, and another key of 32 bytes
    gives another text. *)
Theorem Save_assigns_session_id
    now key key2 s r rw session o w result rw' session' w' :
  length key = 32 ->
  length key2 = 32 ->
  pointee w (Session.Options session) = Some o ->
  (0 <= Options.MaxAge o)%Z ->
  Save now key s r rw session w = Some ((result, rw', session'), w') ->
  (Session.ID session <> "" -> Session.ID session' = Session.ID session)
  /\ (Session.ID session = "" ->
      Session.ID session' = TrimRight (Base32.EncodeToString key) "="
      /\ String.length (Session.ID session') = 52
      /\ Forall (fun c => is_base32_char c = true /\ c <> "="%char)
           (list_ascii_of_string (Session.ID session'))
      /\ (key <> key2 ->
          Session.ID session' <> TrimRight (Base32.EncodeToString key2) "=")).
Proof.
  intros Hkey Hkey2 Ho Hage HS.
  assert (session' = identified key session) as ->.
  { rewrite (Save_nonnegative _ _ _ _ _ _ _ _ Ho Hage) in HS.
    cbn zeta in HS.
    destruct (save now s (identified key session) w) as [[[e|] w1]|];
      [by simplify_eq| |done].
    destruct (EncodeMulti _ _ _); by simplify_eq. }
  unfold identified. split; intros Hid; [by rewrite decide_False|].
  rewrite decide_True by done. cbn [Session.ID Session.set_ID].
  split; [done|]. split; [by apply session_id_length|]. split.
  - eapply Forall_impl; [apply session_id_chars|].
    intros c Hc. split; [done|]. intros ->. vm_compute in Hc. done.
  - intros Hne Heq. apply Hne, session_id_inj; [congruence|done].
Qed.

(** C7.  A [DeleteExpired] that returns nil, run when the server reads
    [now] on its clock, asked for the deletion of the interval from
    [r.MinVal] to [r.Now()] of the index ["expires"], which the table
    has.  Afterwards the table holds exactly the documents it held
    whose [Expires] is not before [now], each unchanged; those whose
    [Expires] is before [now] are gone; and [Count], if the server
    answers, returns the number of documents left. *)
Theorem DeleteExpired_removes_the_expired now s w w' docs :
  documents w (RethinkStore.Table s) = Some docs ->
  DeleteExpired now s w = Some (None, w') ->
  exists docs',
    documents w' (RethinkStore.Table s) = Some docs'
    /\ (forall id d,
          docs' !! id = Some d
          <-> docs !! id = Some d /\ (now <= RethinkSession.Expires d)%Z)
    /\ (forall id d,
          docs !! id = Some d -> (RethinkSession.Expires d < now)%Z ->
          docs' !! id = None)
    /\ (exists tb, server w !! RethinkStore.Table s = Some tb
                   /\ "expires" ∈ DB.indexes tb)
    /\ journal w' = (journal w ++
                     [DB.BetweenDelete (RethinkStore.Table s) DB.MinVal
                        (DB.Now now) "expires"])%list
    /\ (pending w' = None ->
        Count s w'
        = Some ((N.of_nat (size docs'), None),
                asked (DB.Count (RethinkStore.Table s)) w')).
Proof.
  intros Hdocs Hsweep.
  destruct (DeleteExpired_documents _ _ _ _ Hsweep) as (docs0 & Hd0 & Hd').
  rewrite Hdocs in Hd0. injection Hd0 as <-.
  eexists. split; [exact Hd'|].
  assert (forall id d,
    filter (fun kd => DB.between DB.MinVal (DB.Now now) (snd kd) = false)
      docs !! id = Some d
    <-> docs !! id = Some d /\ (now <= RethinkSession.Expires d)%Z) as Hiff.
  { intros id d. rewrite map_lookup_filter_Some. cbn [snd].
    by rewrite between_sweep. }
  split; [exact Hiff|]. split.
  { intros id d Hd Hlt.
    destruct (filter _ docs !! id) as [d'|] eqn:Hf; [|done].
    apply Hiff in Hf as [Hd2 Hge]. rewrite Hd in Hd2. simplify_eq. lia. }
  apply DeleteExpired_success in Hsweep
    as (tb & Htb & Hix & _ & _ & _ & Hj).
  split; [by exists tb|]. split; [exact Hj|].
  intros Hp. by apply Count_eq.
Qed.

(** C10.  The store [NewRethinkStore] returns has [DefaultMaxAge] zero.
    So a [Save] on it of a session whose [MaxAge] is zero, if it returns
    nil, has stored a document whose [Expires] is the instant of the
    save, and any [DeleteExpired] that follows, returns nil and runs
    when the server's clock has passed that instant, removes it. *)
Theorem NewRethinkStore_leaves_DefaultMaxAge_zero
    addr db table idle open keyPairs w0 s w1 :
  NewRethinkStore addr db table idle open keyPairs w0 = Some (inr s, w1) ->
  RethinkStore.DefaultMaxAge s = 0%Z
  /\ forall now key r rw session o w rw' session' w',
       pointee w (Session.Options session) = Some o ->
       Options.MaxAge o = 0%Z ->
       Save now key s r rw session w = Some ((None, rw', session'), w') ->
       exists docs d,
         documents w' (RethinkStore.Table s) = Some docs
         /\ docs !! Session.ID session' = Some d
         /\ RethinkSession.Expires d = now
         /\ forall now' w'',
              (now < now')%Z ->
              DeleteExpired now' s w' = Some (None, w'') ->
              exists docs',
                documents w'' (RethinkStore.Table s) = Some docs'
                /\ docs' !! Session.ID session' = None.
Proof.
  intros Hnew.
  apply NewRethinkStore_success in Hnew as (Hdefault & _).
  split; [exact Hdefault|].
  intros now key r rw session o w rw' session' w' Ho Hzero HS.
  assert (0 <= Options.MaxAge o)%Z as Hage by lia.
  destruct (Save_success _ _ _ _ _ _ _ _ _ _ _ Ho Hage HS)
    as (_ & _ & buf & docs & _ & Hdocs').
  eexists _, _. split; [exact Hdocs'|]. split; [apply lookup_insert_eq|].
  assert (RethinkSession.Expires (record now s session' o buf) = now) as Hexp.
  { cbn [record RethinkSession.Expires]. unfold effective_age.
    rewrite Hzero. cbn [Z.eqb]. rewrite Hdefault, seconds_exact by lia.
    unfold time.Add. lia. }
  split; [exact Hexp|].
  intros now' w'' Hlater Hsweep.
  destruct (DeleteExpired_documents _ _ _ _ Hsweep) as (docs0 & Hd0 & Hd').
  rewrite Hdocs' in Hd0. injection Hd0 as <-.
  eexists. split; [exact Hd'|].
  apply map_lookup_filter_None. right. intros d Hd.
  rewrite lookup_insert_eq in Hd. injection Hd as <-.
  cbn [snd]. rewrite between_sweep, Hexp. lia.
Qed.

End lifecycle_properties.

(** The session of the test bed is marked for deletion and saved: the
    cookie is cleared and the world, with the document in it, is as
    before. *)
Lemma Save_negative_max_age_witness :
  Save (L := Demo.libraries) 2000%Z Demo.key0 Scenario.store
    Scenario.second_request []
    Scenario.session1 Scenario.marked
  = Some ((None,
           [Cookie.mk "session-key" "" "/" "" (Some 1000000000%Z) (-1)%Z
              false false],
           Scenario.session1), Scenario.marked).
Proof.
  apply (proj1
    (Save_negative_max_age (L := Demo.libraries) 2000%Z Demo.key0
       Scenario.store Scenario.second_request [] Scenario.session1
       (Options.mk "/" "" (-1) false false) Scenario.marked
       ltac:(vm_compute; reflexivity) ltac:(reflexivity))).
Defined.

(** C1 says that [Save] removes the document of a session whose [MaxAge]
    is negative.  It does not: the document of the test bed is still in
    the table after such a [Save]. *)
Lemma Save_negative_max_age_keeps_document :
  ~ (forall (L : Libraries) now key (s : Store) r rw (session : Sess) o w
            result w' docs,
       pointee w (Session.Options session) = Some o ->
       (Options.MaxAge o < 0)%Z ->
       Save now key s r rw session w = Some (result, w') ->
       documents w' (RethinkStore.Table s) = Some docs ->
       docs !! Session.ID session = None).
Proof.
  intros Hclaim.
  assert (documents Scenario.marked (RethinkStore.Table Scenario.store)
          = Some {[Scenario.id0 :=
                     RethinkSession.mk Scenario.id0 2592000000001000%Z
                       Scenario.payload]}) as Hdocs
    by (vm_compute; reflexivity).
  assert (Save (L := Demo.libraries) 2000%Z Demo.key0 Scenario.store
            Scenario.second_request [] Scenario.session1 Scenario.marked
          = Some ((None,
                   [Cookie.mk "session-key" "" "/" "" (Some 1000000000%Z)
                      (-1)%Z false false],
                   Scenario.session1), Scenario.marked)) as Hsave
    by (vm_compute; reflexivity).
  pose proof (Hclaim Demo.libraries 2000%Z Demo.key0 Scenario.store
                Scenario.second_request [] Scenario.session1
                (Options.mk "/" "" (-1) false false) Scenario.marked _
                Scenario.marked _
                ltac:(vm_compute; reflexivity) ltac:(reflexivity)
                Hsave Hdocs) as Habsent.
  vm_compute in Habsent. discriminate Habsent.
Qed.



Lemma Save_assigns_session_id_witness :
  Session.ID Scenario.session1
  = "AAAQEAYEAUDAOCAJBIFQYDIOB4IBCEQTCQKRMFYYDENBWHA5DYPQ"
  /\ String.length (Session.ID Scenario.session1) = 52
  /\ Session.ID Scenario.session1
     <> TrimRight (Base32.EncodeToString (repeat xff 32)) "=".
Proof.
  destruct (Save_assigns_session_id (L := Demo.libraries) 1000%Z Demo.key0
              (repeat xff 32)
              Scenario.store Scenario.first_request [] Scenario.session0
              (Options.mk "/" "" 2592000 false false) Scenario.opened
              None
              [Cookie.mk "session-key" (Demo.sign "secret-key" Scenario.id0)
                 "/" "" (Some 2592000000001000%Z) 2592000%Z false false]
              Scenario.session1 Scenario.saved
              ltac:(reflexivity) ltac:(reflexivity)
              ltac:(vm_compute; reflexivity) ltac:(vm_compute; discriminate)
              ltac:(vm_compute; reflexivity))
    as [_ Hnew].
  destruct (Hnew eq_refl) as (Hid & Hlen & _ & Hother).
  split; [vm_compute; reflexivity|]. split; [exact Hlen|].
  apply Hother. discriminate.
Defined.

(** C6, where the code departs from it.  [GenerateRandomKey] gives nil
    when the random source fails, and [Save] does not look at what it
    got: for a session without an id it returns nil, the session still
    has no id, the document is stored under the empty id and the cookie
    carries the empty id.  The next session without an id is stored
    under the same key, in place of this one. *)
Theorem Save_without_random_bytes :
  Save (L := Demo.libraries) 1000%Z [] Scenario.store
    Scenario.first_request [] Scenario.session0 Scenario.opened
  = Some ((None,
           [Cookie.mk "session-key" (Demo.sign "secret-key" "") "/" ""
              (Some 2592000000001000%Z) 2592000%Z false false],
           Scenario.session0), Bench.anonymous)
  /\ Session.ID Scenario.session0 = ""
  /\ documents Bench.anonymous Scenario.table
     = Some {["" := RethinkSession.mk "" 2592000000001000%Z
                       Scenario.payload]}
  /\ exists w',
       Save (L := Demo.libraries) 2000%Z [] Scenario.store
         Scenario.first_request [] Bench.session_other Bench.anonymous
       = Some ((None,
                [Cookie.mk "session-key" (Demo.sign "secret-key" "") "/" ""
                   (Some 2592000000002000%Z) 2592000%Z false false],
                Bench.session_other), w')
       /\ documents w' Scenario.table
          = Some {["" := RethinkSession.mk "" 2592000000002000%Z
                            [x01; x62; x61; x7a]]}.
Proof.
  split; [vm_compute; reflexivity|]. split; [reflexivity|].
  split; [vm_compute; reflexivity|].
  eexists. split; vm_compute; reflexivity.
Qed.

Lemma DeleteExpired_removes_the_expired_witness :
  exists docs',
    documents Ages.after_sweep Scenario.table = Some docs'
    /\ docs' !! "old" = None
    /\ docs' !! "young"
       = Some (RethinkSession.mk "young" 5000%Z Scenario.payload)
    /\ Count (L := Demo.libraries) Scenario.store Ages.after_sweep
       = Some ((N.of_nat (size docs'), None),
               asked (DB.Count Scenario.table) Ages.after_sweep).
Proof.
  destruct (DeleteExpired_removes_the_expired (L := Demo.libraries) 1000%Z
              Scenario.store Ages.before_sweep Ages.after_sweep
              Ages.two_documents
              ltac:(vm_compute; reflexivity) ltac:(vm_compute; reflexivity))
    as (docs' & Hdocs & Hkept & Hgone & _ & _ & Hcount).
  exists docs'. split; [exact Hdocs|]. split; [|split].
  - apply (Hgone "old" (RethinkSession.mk "old" 500%Z Scenario.payload));
      [vm_compute; reflexivity|reflexivity].
  - apply Hkept. split; [vm_compute; reflexivity|vm_compute; discriminate].
  - apply Hcount. reflexivity.
Defined.

Lemma NewRethinkStore_leaves_DefaultMaxAge_zero_witness :
  RethinkStore.DefaultMaxAge Scenario.store = 0%Z
  /\ exists docs d,
       documents (Ages.stored 0 1000%Z) Scenario.table = Some docs
       /\ docs !! Scenario.id0 = Some d
       /\ RethinkSession.Expires d = 1000%Z
       /\ exists docs',
            documents Ages.emptied Scenario.table = Some docs'
            /\ docs' !! Scenario.id0 = None.
Proof.
  destruct (NewRethinkStore_leaves_DefaultMaxAge_zero (L := Demo.libraries)
              "127.0.0.1:28015" "session_test_db" "session_test_table"
              5%Z 5%Z [Demo.secret_key] Demo.empty_world
              Scenario.store Scenario.opened
              ltac:(vm_compute; reflexivity))
    as [Hzero Hsave].
  split; [exact Hzero|].
  destruct (Hsave 1000%Z Demo.key0 Scenario.first_request []
              Scenario.session0 (Options.mk "/" "" 0 false false)
              (Ages.aged 0)
              [Cookie.mk "session-key" (Demo.sign "secret-key" Scenario.id0)
                 "/" "" None 0%Z false false]
              Scenario.session1 (Ages.stored 0 1000%Z)
              ltac:(vm_compute; reflexivity) ltac:(reflexivity)
              ltac:(vm_compute; reflexivity))
    as (docs & d & Hdocs & Hd & Hexp & Hsweep).
  exists docs, d. split; [exact Hdocs|]. split; [exact Hd|].
  split; [exact Hexp|].
  exact (Hsweep 1001%Z Ages.emptied ltac:(reflexivity)
           ltac:(vm_compute; reflexivity)).
Defined.

(** * Further properties of the code *)

Section table_invariants.

Lemma eval_other_table q srv t :
  term_table q <> Some t -> (DB.eval q srv).2 !! t = srv !! t.
Proof.
  intros Hq.
  destruct q; cbn [DB.eval term_table] in *; unfold DB.on_table;
    try (destruct (srv !! table) as [tb|] eqn:Htb; cbn [snd]);
    repeat case_decide; cbn [snd]; try done;
    rewrite lookup_insert_ne; congruence.
Qed.


Lemma evolves_other_table t srv srv' t' :
  evolves t srv srv' -> t' <> t -> srv' !! t' = srv !! t'.
Proof.
  induction 1 as [|q srv' _ IH Hq]; intros Hne; [done|].
  rewrite eval_other_table; [by apply IH|].
  destruct Hq as [Hq|Hq]; rewrite Hq; congruence.
Qed.


Lemma Run_evolves t q w res w' :
  Run q w = Some (res, w') ->
  term_table q = None \/ term_table q = Some t ->
  evolves t (server w) (server w') /\ heap w' = heap w.
Proof.
  intros Hrun Hq.
  apply Run_inv in Hrun as (Hheap & _ & _ & [(e & _ & _ & ->)|[_ Hev]]).
  - split; [constructor|done].
  - split; [|done].
    replace (server w') with (DB.eval q (server w)).2 by by rewrite Hev.
    apply evolves_step; [constructor|done].
Qed.

End table_invariants.

(** ** What each function changes *)

Section frames.
Context {L : Libraries}.
Implicit Types (s : Store) (session : Sess) (w : World).

Lemma save_evolves now s session w err w' :
  save now s session w = Some (err, w') ->
  evolves (RethinkStore.Table s) (server w) (server w') /\ heap w' = heap w.
Proof.
  rewrite save_eq.
  destruct (gob_Encode _); [intros [= _ <-]; split; [constructor|done]|].
  destruct (pointee w _); [|done].
  destruct (Run _ w) as [[res w1]|] eqn:Hrun; [|done].
  intros [= _ <-]. eapply Run_evolves; [done|by right].
Qed.

Lemma Save_evolves now key s r rw session w result w' :
  Save now key s r rw session w = Some (result, w') ->
  evolves (RethinkStore.Table s) (server w) (server w') /\ heap w' = heap w.
Proof.
  intros HS.
  destruct (pointee w (Session.Options session)) as [o|] eqn:Ho.
  - destruct (Z_lt_le_dec (Options.MaxAge o) 0) as [Hneg|Hage].
    + rewrite (Save_negative _ _ _ _ _ _ _ _ Ho Hneg) in HS.
      injection HS as _ <-. split; [constructor|done].
    + rewrite (Save_nonnegative _ _ _ _ _ _ _ _ Ho Hage) in HS.
      cbn zeta in HS.
      destruct (save now s (identified key session) w)
        as [[err w1]|] eqn:Hsave; [|done].
      assert (w' = w1) as ->.
      { destruct err; [by simplify_eq|].
        destruct (EncodeMulti _ _ _); by simplify_eq. }
      by eapply save_evolves.
  - unfold Save, bind in HS. by rewrite deref_eq, Ho in HS.
Qed.

Lemma load_frame s session w res w' :
  load s session w = Some (res, w') ->
  server w' = server w /\ heap w' = heap w
  /\ journal w' = (journal w ++
                   [DB.Get (RethinkStore.Table s) (Session.ID session)])%list.
Proof.
  rewrite load_eq.
  destruct (Run _ w) as [[r1 w1]|] eqn:Hrun; [|done].
  intros Hres.
  assert (w' = w1) as ->.
  { destruct r1 as [e|cur]; [by simplify_eq|].
    destruct (DB.One cur); [by simplify_eq|].
    destruct (gob_Decode _ _); by simplify_eq. }
  apply Run_inv in Hrun as (Hheap & Hj & _ & [(e & _ & _ & Hsrv)|[_ Hev]]);
    [done|].
  by apply eval_Get in Hev as [-> _].
Qed.

Lemma New_frame s r name w res w' :
  New s r name w = Some (res, w') ->
  server w' = server w /\ heap w' = heap w
  /\ (journal w' = journal w
      \/ exists id,
           journal w' = (journal w ++ [DB.Get (RethinkStore.Table s) id])%list).
Proof.
  intros HN.
  destruct (pointee w (RethinkStore.Options s)) as [o|] eqn:Ho.
  - rewrite (New_eq _ _ _ _ _ Ho) in HN.
    destruct (Request.Cookie r name); [|injection HN as _ <-; eauto].
    destruct (DecodeMulti _ _ _) as [e|id]; [injection HN as _ <-; eauto|].
    destruct (load s _ w) as [[[[ok err'] session] w1]|] eqn:Hload; [|done].
    injection HN as _ <-.
    apply load_frame in Hload as (? & ? & ?). eauto.
  - unfold New, bind in HN. by rewrite deref_eq, Ho in HN.
Qed.

Lemma Count_frame s w res w' :
  Count s w = Some (res, w') ->
  server w' = server w /\ heap w' = heap w.
Proof.
  unfold Count, bind, ret.
  destruct (Run _ w) as [[r1 w1]|] eqn:Hrun; [|done].
  intros Hres.
  assert (w' = w1) as ->.
  { destruct r1 as [e|cur]; [by simplify_eq|].
    destruct (DB.OneAny cur) as [e|[]]; by simplify_eq. }
  apply Run_inv in Hrun as (Hheap & _ & _ & [(e & _ & _ & Hsrv)|[_ Hev]]);
    [done|].
  by apply eval_Count in Hev as [-> _].
Qed.

Lemma Connect_frame opts w res w' :
  Connect opts w = Some (res, w') ->
  server w' = server w /\ heap w' = heap w /\ journal w' = journal w
  /\ outcomes w' = tail (outcomes w)
  /\ res = match pending w with Some e => inl e | None => inr opts end.
Proof.
  unfold Connect, round_trip, pending.
  destruct (outcomes w) as [|[e|] rest] eqn:Hout; intros [= <- <-];
    cbn; by rewrite ?Hout.
Qed.

End frames.

(** ** Further properties of the store *)

Section store_extras.
Context {L : Libraries}.
Implicit Types (s : Store) (session : Sess) (w : World).

(** X1.  [delete] asks the server to remove the document of the session's
    id.  If the round trip fails, the error comes back and the tables are
    as they were; otherwise the document of that id is gone, every other
    document of the table and every other table is as it was, and no
    options object has changed. *)
Theorem delete_removes_its_document s session w docs :
  documents w (RethinkStore.Table s) = Some docs ->
  match pending w with
  | Some err =>
      delete s session w
      = Some (Some err,
              asked (DB.GetDelete (RethinkStore.Table s) (Session.ID session))
                w)
  | None =>
      exists w' docs',
        delete s session w = Some (None, w')
        /\ documents w' (RethinkStore.Table s) = Some docs'
        /\ docs' !! Session.ID session = None
        /\ (forall id, id <> Session.ID session -> docs' !! id = docs !! id)
        /\ (forall t, t <> RethinkStore.Table s ->
                      server w' !! t = server w !! t)
        /\ heap w' = heap w
  end.
Proof.
  intros Hdocs. unfold delete, bind. rewrite Run_eq.
  destruct (pending w) as [e|]; [done|].
  unfold documents in Hdocs.
  destruct (server w !! RethinkStore.Table s) as [tb|] eqn:Htb; [|done].
  cbn in Hdocs. injection Hdocs as <-.
  cbn [DB.eval]. unfold DB.on_table. rewrite Htb. cbn [fst snd err_of ret].
  eexists _, _. split; [reflexivity|]. cbn [server heap]. split.
  { unfold documents. cbn [server]. rewrite lookup_insert_eq. reflexivity. }
  cbn [DB.rows]. split; [apply lookup_delete_eq|]. split.
  - intros id Hid. by rewrite lookup_delete_ne.
  - split; [|done]. intros t Ht. by rewrite lookup_insert_ne.
Qed.

Lemma save_documents now s session w err w' docs :
  save now s session w = Some (err, w') ->
  documents w (RethinkStore.Table s) = Some docs ->
  exists docs',
    documents w' (RethinkStore.Table s) = Some docs'
    /\ forall id, id <> Session.ID session -> docs' !! id = docs !! id.
Proof.
  rewrite save_eq. intros Hsave Hdocs.
  destruct (gob_Encode _); [injection Hsave as _ <-; eauto|].
  destruct (pointee w _) as [o|]; [|done].
  destruct (Run _ w) as [[res w1]|] eqn:Hrun; [|done].
  injection Hsave as _ <-.
  apply Run_inv in Hrun as (_ & _ & _ & [(e & _ & _ & Hsrv)|[_ Hev]]).
  { exists docs. unfold documents in *. by rewrite Hsrv. }
  apply eval_GetReplace in Hev; [|done].
  unfold documents in *.
  destruct (server w !! RethinkStore.Table s) as [tb|] eqn:Htb; [|done].
  cbn in Hdocs. injection Hdocs as <-. destruct Hev as [_ ->].
  rewrite lookup_insert_eq. eexists. split; [reflexivity|].
  intros id Hid. cbn [DB.rows]. by rewrite lookup_insert_ne.
Qed.

(** X2.  Whatever [Save] returns, it has changed at most the document of
    the session's own id: every other document of the table, every other
    table and every options object is as before, and what it sent to the
    server is nothing or one upsert of that id, never a deletion. *)
Theorem Save_touches_one_document now key s r rw session w result w' docs :
  Save now key s r rw session w = Some (result, w') ->
  documents w (RethinkStore.Table s) = Some docs ->
  let id := Session.ID (identified key session) in
  exists docs',
    documents w' (RethinkStore.Table s) = Some docs'
    /\ (forall id', id' <> id -> docs' !! id' = docs !! id')
    /\ (forall t, t <> RethinkStore.Table s -> server w' !! t = server w !! t)
    /\ heap w' = heap w
    /\ (journal w' = journal w
        \/ exists doc,
             journal w' = (journal w ++
                           [DB.GetReplace (RethinkStore.Table s) id doc])%list).
Proof.
  intros HS Hdocs id.
  destruct (Save_evolves _ _ _ _ _ _ _ _ _ HS) as [Hev Hheap].
  pose proof (Save_journal _ _ _ _ _ _ _ _ _ HS) as Hj.
  assert (exists docs',
    documents w' (RethinkStore.Table s) = Some docs'
    /\ forall id', id' <> id -> docs' !! id' = docs !! id')
    as (docs' & Hdocs' & Hother).
  { destruct (pointee w (Session.Options session)) as [o|] eqn:Ho.
    - destruct (Z_lt_le_dec (Options.MaxAge o) 0) as [Hneg|Hage].
      + rewrite (Save_negative _ _ _ _ _ _ _ _ Ho Hneg) in HS.
        injection HS as _ <-. eauto.
      + rewrite (Save_nonnegative _ _ _ _ _ _ _ _ Ho Hage) in HS.
        cbn zeta in HS.
        destruct (save now s (identified key session) w)
          as [[err w1]|] eqn:Hsave; [|done].
        assert (w' = w1) as ->.
        { destruct err; [by simplify_eq|].
          destruct (EncodeMulti _ _ _); by simplify_eq. }
        by eapply save_documents.
    - unfold Save, bind in HS. by rewrite deref_eq, Ho in HS. }
  exists docs'. repeat split; try done.
  intros t Ht. by eapply evolves_other_table.
Qed.

(** X3.  [New] only reads: whatever it returns, the tables and the options
    objects are as before, and it has sent the server nothing or one
    lookup by id in the store's table. *)
Theorem New_only_reads s r name w res w' :
  New s r name w = Some (res, w') ->
  server w' = server w /\ heap w' = heap w
  /\ (journal w' = journal w
      \/ exists id,
           journal w' = (journal w ++ [DB.Get (RethinkStore.Table s) id])%list).
Proof. apply New_frame. Qed.


End store_extras.

Section retrieval_extras.
Context {L : Libraries}.
Implicit Types (s : Store) (session : Sess) (w : World).

Lemma New_hit s r name c id o w docs d V :
  pointee w (RethinkStore.Options s) = Some o ->
  Request.Cookie r name = Some c ->
  DecodeMulti name (Cookie.Value c) (RethinkStore.Codecs s) = inr id ->
  pending w = None ->
  documents w (RethinkStore.Table s) = Some docs ->
  docs !! id = Some d ->
  gob_Decode (RethinkSession.Session d) ∅ = inr V ->
  New s r name w
  = Some ((Session.mk id V (RethinkStore.Options s) false name, None),
          asked (DB.Get (RethinkStore.Table s) id) w).
Proof.
  intros Ho Hc Hdec Hp Hdocs Hd HV.
  rewrite (New_eq _ _ _ _ _ Ho), Hc, Hdec.
  rewrite (load_hit s _ w docs d) by done.
  cbn [Session.Values Session.set_ID blank]. by rewrite HV.
Qed.

(** X5.  A request brings a cookie that decodes to [id], the server
    answers, the table holds a document under [id] and its payload decodes
    to [V] (into an empty destination): [New] returns the session with
    that id, the values [V], the store's options and [IsNew] false, with a
    nil error, after one lookup. *)
Theorem New_finds_stored_session s r name c id o w docs d V :
  pointee w (RethinkStore.Options s) = Some o ->
  Request.Cookie r name = Some c ->
  DecodeMulti name (Cookie.Value c) (RethinkStore.Codecs s) = inr id ->
  pending w = None ->
  documents w (RethinkStore.Table s) = Some docs ->
  docs !! id = Some d ->
  gob_Decode (RethinkSession.Session d) ∅ = inr V ->
  New s r name w
  = Some ((Session.mk id V (RethinkStore.Options s) false name, None),
          asked (DB.Get (RethinkStore.Table s) id) w).
Proof. apply New_hit. Qed.

(** X6.  [New] marks a session as not new only when the cookie decoded,
    the server answered, the table held a document under the decoded id
    and its payload decoded; the session then carries that id and the
    decoded values, and the error is nil. *)
Theorem New_existing_only_when_found s r name o w session err w' :
  pointee w (RethinkStore.Options s) = Some o ->
  New s r name w = Some ((session, err), w') ->
  Session.IsNew session = false ->
  err = None /\ pending w = None
  /\ exists c docs d,
       Request.Cookie r name = Some c
       /\ DecodeMulti name (Cookie.Value c) (RethinkStore.Codecs s)
          = inr (Session.ID session)
       /\ documents w (RethinkStore.Table s) = Some docs
       /\ docs !! Session.ID session = Some d
       /\ gob_Decode (RethinkSession.Session d) ∅
          = inr (Session.Values session).
Proof.
  intros Ho. rewrite (New_eq _ _ _ _ _ Ho).
  destruct (Request.Cookie r name) as [c|]; [|by intros [= <- _ _]].
  destruct (DecodeMulti _ _ _) as [e|id] eqn:Hdec; [by intros [= <- _ _]|].
  rewrite load_eq, Run_eq. unfold documents.
  destruct (pending w) as [e|]; [by intros [= <- _ _]|].
  cbn [DB.eval]. unfold DB.on_table.
  cbn [Session.ID Session.set_ID blank].
  destruct (server w !! RethinkStore.Table s) as [tb|];
    [|by intros [= <- _ _]].
  cbn [fst snd].
  destruct (DB.rows tb !! id) as [d|] eqn:Hd; [|by intros [= <- _ _]].
  cbn [DB.One Session.Values].
  destruct (gob_Decode _ _) as [e|V] eqn:HV; [by intros [= <- _ _]|].
  intros [= <- <- _] _. cbn.
  repeat split. by exists c, (DB.rows tb), d.
Qed.

(** X7.  The cookie decodes to [id] but there is nothing to load: the
    round trip fails, or the table is missing, or it holds no document
    under [id] (it was swept, or never stored).  [New] returns a session
    that is new and empty and that carries the id of the cookie, with a
    nil error. *)
Theorem New_without_record s r name c id o w :
  pointee w (RethinkStore.Options s) = Some o ->
  Request.Cookie r name = Some c ->
  DecodeMulti name (Cookie.Value c) (RethinkStore.Codecs s) = inr id ->
  (pending w <> None
   \/ documents w (RethinkStore.Table s) = None
   \/ exists docs,
        documents w (RethinkStore.Table s) = Some docs /\ docs !! id = None) ->
  New s r name w
  = Some ((Session.mk id ∅ (RethinkStore.Options s) true name, None),
          asked (DB.Get (RethinkStore.Table s) id) w).
Proof.
  intros Ho Hc Hdec Hmiss.
  rewrite (New_eq _ _ _ _ _ Ho), Hc, Hdec, load_eq, Run_eq.
  cbn [Session.ID Session.set_ID blank]. unfold documents in Hmiss.
  destruct (pending w) as [e|]; [done|].
  cbn [DB.eval]. unfold DB.on_table.
  destruct (server w !! RethinkStore.Table s) as [tb|]; [|done].
  cbn [fst snd].
  destruct Hmiss as [?|[Hnone|(docs & Hdocs & Hd)]]; [done|done|].
  cbn in Hdocs. injection Hdocs as <-. by rewrite Hd.
Qed.

(** X8.  [Count] only reads.  When it returns an error the number is 0;
    when it returns none the number is the number of documents in the
    store's table. *)
Theorem Count_is_the_size s w n err w' :
  Count s w = Some ((n, err), w') ->
  server w' = server w /\ heap w' = heap w
  /\ match err with
     | Some _ => n = 0%N
     | None =>
         exists docs,
           documents w (RethinkStore.Table s) = Some docs
           /\ n = N.of_nat (size docs)
     end.
Proof.
  intros HC. destruct (Count_frame _ _ _ _ HC) as [Hsrv Hheap].
  repeat split; try done.
  unfold Count, bind, ret in HC. rewrite Run_eq in HC. unfold documents.
  destruct (pending w); [by simplify_eq|].
  cbn [DB.eval] in HC. unfold DB.on_table in HC.
  destruct (server w !! RethinkStore.Table s) as [tb|];
    cbn in HC; simplify_eq; [|done].
  by exists (DB.rows tb).
Qed.

End retrieval_extras.

Section persistence_extras.
Context {L : Libraries}.
Implicit Types (s : Store) (session : Sess) (w : World).

(** X9.  A [Save] with a [MaxAge] that is not negative and that returns
    nil is an upsert: the table afterwards is the table before with the
    document of the session put under the session's id, in place of the
    one that was there if there was one.  The document has that id and
    the gob bytes of the session's values.  So the number of documents
    grows by one for an id that was not stored and stays for one that
    was, and that is what [Count] then returns. *)
Theorem Save_is_an_upsert now key s r rw session o w rw' session' w' docs :
  pointee w (Session.Options session) = Some o ->
  (0 <= Options.MaxAge o)%Z ->
  Save now key s r rw session w = Some ((None, rw', session'), w') ->
  documents w (RethinkStore.Table s) = Some docs ->
  exists d,
    documents w' (RethinkStore.Table s)
      = Some (<[Session.ID session' := d]> docs)
    /\ RethinkSession.Id d = Session.ID session'
    /\ gob_Encode (Session.Values session) = inr (RethinkSession.Session d)
    /\ size (<[Session.ID session' := d]> docs)
       = (if docs !! Session.ID session' is Some _ then size docs
          else S (size docs))
    /\ (pending w' = None ->
        Count s w'
        = Some ((N.of_nat (size (<[Session.ID session' := d]> docs)), None),
                asked (DB.Count (RethinkStore.Table s)) w')).
Proof.
  intros Ho Hage HS Hdocs.
  destruct (Save_success _ _ _ _ _ _ _ _ _ _ _ Ho Hage HS)
    as (Hsess & _ & buf & docs0 & Hdocs0 & Hdocs').
  rewrite Hdocs in Hdocs0. injection Hdocs0 as <-.
  assert (gob_Encode (Session.Values session) = inr buf) as Henc.
  { rewrite (Save_nonnegative _ _ _ _ _ _ _ _ Ho Hage) in HS. cbn zeta in HS.
    destruct (save now s (identified key session) w)
      as [[[e|] w1]|] eqn:Hsave; [done| |done].
    destruct (EncodeMulti _ _ _); [done|]. injection HS as _ _ ->.
    apply save_success in Hsave as (buf' & o' & tb & Henc & _ & _ & Htb & Hsrv & _).
    rewrite identified_Values in Henc. rewrite Henc. f_equal.
    unfold documents in Hdocs'. rewrite Hsrv, lookup_insert_eq in Hdocs'.
    cbn in Hdocs'. injection Hdocs' as Heq.
    apply (f_equal (fun m => m !! Session.ID session')) in Heq.
    rewrite Hsess, !lookup_insert_eq in Heq. by injection Heq. }
  exists (record now s session' o buf).
  split; [exact Hdocs'|]. split; [done|]. split; [exact Henc|]. split.
  - destruct (docs !! Session.ID session') as [d0|] eqn:Hd0.
    + rewrite <- (insert_delete_id docs _ _ Hd0) at 2.
      rewrite <- insert_delete_eq.
      rewrite !map_size_insert_None by apply lookup_delete_eq. done.
    + by rewrite map_size_insert_None.
  - intros Hp. by apply Count_eq.
Qed.

(** X10.  When the write went through and the identifier does not encode,
    [Save] returns the error and sets no cookie, and the document it
    wrote stays in the table. *)
Theorem Save_encode_failure_leaves_document
    now key s r rw session o w err w' :
  pointee w (Session.Options session) = Some o ->
  (0 <= Options.MaxAge o)%Z ->
  let session' := identified key session in
  save now s session' w = Some (None, w') ->
  EncodeMulti (Session.name session') (Session.ID session')
    (RethinkStore.Codecs s) = inl err ->
  Save now key s r rw session w = Some ((Some err, rw, session'), w')
  /\ exists docs d,
       documents w' (RethinkStore.Table s) = Some docs
       /\ docs !! Session.ID session' = Some d
       /\ gob_Encode (Session.Values session)
          = inr (RethinkSession.Session d).
Proof.
  intros Ho Hage session' Hsave Henc.
  rewrite (Save_nonnegative _ _ _ _ _ _ _ _ Ho Hage). cbn zeta.
  fold session'. rewrite Hsave, Henc. split; [done|].
  apply save_success in Hsave
    as (buf & o' & tb & Hbuf & _ & _ & Htb & Hsrv & _).
  eexists _, _. unfold documents. rewrite Hsrv, lookup_insert_eq.
  split; [reflexivity|]. cbn [DB.rows]. rewrite lookup_insert_eq.
  split; [reflexivity|]. cbn [record RethinkSession.Session].
  unfold session' in Hbuf. by rewrite identified_Values in Hbuf.
Qed.

(** X11.  A [Save] with a [MaxAge] that is not negative and that returns
    nil has added one cookie to the response, after those that were
    there: its name is the session's, its value the encoded id, its path,
    domain, max-age and flags those of the session's options.  If the codecs decode what they encoded, the payload format
    gives the values back, and the server answers, then [New], for a
    request that brings this cookie back, returns the session with the
    same id and the same values, not new, with a nil error. *)
Theorem Save_then_New now key s r rw session o o' w rw' session' w' :
  pointee w (Session.Options session) = Some o ->
  (0 <= Options.MaxAge o)%Z ->
  Save now key s r rw session w = Some ((None, rw', session'), w') ->
  (forall buf, gob_Encode (Session.Values session) = inr buf ->
               gob_Decode buf ∅ = inr (Session.Values session)) ->
  (forall encoded,
     EncodeMulti (Session.name session') (Session.ID session')
       (RethinkStore.Codecs s) = inr encoded ->
     DecodeMulti (Session.name session') encoded (RethinkStore.Codecs s)
     = inr (Session.ID session')) ->
  pointee w' (RethinkStore.Options s) = Some o' ->
  pending w' = None ->
  exists c,
    rw' = (rw ++ [c])%list
    /\ Cookie.Name c = Session.name session'
    /\ EncodeMulti (Session.name session') (Session.ID session')
         (RethinkStore.Codecs s) = inr (Cookie.Value c)
    /\ Cookie.Path c = Options.Path o /\ Cookie.Domain c = Options.Domain o
    /\ Cookie.MaxAge c = Options.MaxAge o
    /\ Cookie.Secure c = Options.Secure o
    /\ Cookie.HttpOnly c = Options.HttpOnly o
    /\ New s (Request.mk [(Cookie.Name c, Cookie.Value c)])
         (Session.name session') w'
       = Some ((Session.mk (Session.ID session') (Session.Values session)
                  (RethinkStore.Options s) false (Session.name session'),
                None),
               asked (DB.Get (RethinkStore.Table s) (Session.ID session')) w').
Proof.
  intros Ho Hage HS Hgob Hcodec Ho' Hp.
  pose proof HS as HS0.
  rewrite (Save_nonnegative _ _ _ _ _ _ _ _ Ho Hage) in HS. cbn zeta in HS.
  destruct (save now s (identified key session) w)
    as [[[e|] w1]|] eqn:Hsave; [done| |done].
  destruct (EncodeMulti _ _ _) as [e|encoded] eqn:Henc; [done|].
  injection HS as <- <- <-.
  eexists. split; [reflexivity|]. cbn [cookie_of Cookie.Name Cookie.Value
    Cookie.Path Cookie.Domain Cookie.MaxAge Cookie.Secure Cookie.HttpOnly].
  repeat split; [done|].
  pose proof Hsave as Hsave0.
  apply save_success in Hsave
    as (buf & o2 & tb & Hbuf & _ & _ & Htb & Hsrv & _).
  rewrite identified_Values in Hbuf.
  eapply New_hit; try done.
  - unfold Request.Cookie. cbn [Request.Cookies find fst snd].
    by rewrite String.eqb_refl.
  - cbn [Cookie.Value]. by apply Hcodec.
  - unfold documents. rewrite Hsrv, lookup_insert_eq. reflexivity.
  - cbn [DB.rows]. apply lookup_insert_eq.
  - cbn [record RethinkSession.Session]. by apply Hgob.
Qed.

(** X12.  A session saved with an age of at most 9223372036 seconds in
    absolute value, and with an expiry that the driver transmits as it
    is (the instant of the save plus the age fits the 64 bits of
    [UnixNano]), outlives the sweeps: a [DeleteExpired] that runs when
    the server's clock is not past that instant leaves its document as
    stored, and one that runs later removes it. *)
Theorem Save_outlives_sweeps_until_expiry
    now key s r rw session o w rw' session' w' now' w'' :
  pointee w (Session.Options session) = Some o ->
  (0 <= Options.MaxAge o)%Z ->
  (-9223372036 <= effective_age s o <= 9223372036)%Z ->
  let expires := (now + effective_age s o * 1000000000)%Z in
  (- 2 ^ 63 <= expires < 2 ^ 63)%Z ->
  Save now key s r rw session w = Some ((None, rw', session'), w') ->
  DeleteExpired now' s w' = Some (None, w'') ->
  exists docs docs'' d,
    documents w' (RethinkStore.Table s) = Some docs
    /\ docs !! Session.ID session' = Some d
    /\ RethinkSession.Expires d = expires
    /\ DB.epoch_time (RethinkSession.Expires d) = expires
    /\ documents w'' (RethinkStore.Table s) = Some docs''
    /\ docs'' !! Session.ID session'
       = (if decide (now' <= expires)%Z then Some d else None).
Proof.
  intros Ho Hage Hsmall expires Hfits HS Hsweep.
  destruct (Save_success _ _ _ _ _ _ _ _ _ _ _ Ho Hage HS)
    as (_ & _ & buf & docs & _ & Hdocs').
  destruct (DeleteExpired_documents _ _ _ _ Hsweep) as (docs0 & Hd0 & Hd'').
  rewrite Hdocs' in Hd0. injection Hd0 as <-.
  eexists _, _, _. split; [exact Hdocs'|].
  split; [apply lookup_insert_eq|].
  assert (RethinkSession.Expires (record now s session' o buf) = expires)
    as Hexp.
  { cbn [record RethinkSession.Expires]. by rewrite seconds_exact. }
  split; [exact Hexp|].
  split; [rewrite Hexp; by apply epoch_time_exact|].
  split; [exact Hd''|].
  case_decide as Hle.
  - apply map_lookup_filter_Some. split; [apply lookup_insert_eq|].
    cbn [snd]. rewrite between_sweep, Hexp. done.
  - apply map_lookup_filter_None. right. intros d Hd.
    rewrite lookup_insert_eq in Hd. injection Hd as <-.
    cbn [snd]. rewrite between_sweep, Hexp. done.
Qed.

(** X13.  Two sweeps that return nil, one after the other, leave what one
    sweep at the later of the two instants leaves: the documents whose
    [Expires] is before neither.  In particular a second sweep at an
    instant that is not later changes nothing. *)
Theorem DeleteExpired_twice now1 now2 s w w1 w2 docs :
  documents w (RethinkStore.Table s) = Some docs ->
  DeleteExpired now1 s w = Some (None, w1) ->
  DeleteExpired now2 s w1 = Some (None, w2) ->
  exists docs1 docs2,
    documents w1 (RethinkStore.Table s) = Some docs1
    /\ documents w2 (RethinkStore.Table s) = Some docs2
    /\ (forall id d,
          docs2 !! id = Some d
          <-> docs !! id = Some d
              /\ (Z.max now1 now2 <= RethinkSession.Expires d)%Z)
    /\ ((now2 <= now1)%Z -> docs2 = docs1).
Proof.
  intros Hdocs H1 H2.
  destruct (DeleteExpired_documents _ _ _ _ H1) as (docs0 & Hd0 & Hd1).
  rewrite Hdocs in Hd0. injection Hd0 as <-.
  destruct (DeleteExpired_documents _ _ _ _ H2) as (docs1 & Hd1' & Hd2).
  rewrite Hd1 in Hd1'. injection Hd1' as <-.
  eexists _, _. split; [exact Hd1|]. split; [exact Hd2|]. split.
  - intros id d. rewrite !map_lookup_filter_Some. cbn [snd].
    rewrite !between_sweep. intuition lia.
  - intros Hle. apply map_filter_id. intros id d.
    rewrite map_lookup_filter_Some. cbn [snd]. rewrite !between_sweep. lia.
Qed.

(** X14.  [DeleteExpired] removes nothing when its term is not run: when
    the request does not get through to the server, when the table does
    not exist, and when the table has no index ["expires"].  It returns
    the error, and the tables and the options objects are as they
    were. *)
Theorem DeleteExpired_refused_removes_nothing now s w :
  (pending w <> None
   \/ match server w !! RethinkStore.Table s with
      | Some tb => "expires" ∉ DB.indexes tb
      | None => True
      end) ->
  exists err w',
    DeleteExpired now s w = Some (Some err, w')
    /\ server w' = server w /\ heap w' = heap w
    /\ (forall e, pending w = Some e -> err = e)
    /\ (pending w = None -> server w !! RethinkStore.Table s = None ->
        err = DB.no_table).
Proof.
  intros Hwhy. unfold DeleteExpired, bind, ret. rewrite Run_eq.
  destruct (pending w) as [e|].
  { eexists _, _. split; [reflexivity|]. cbn. repeat split; congruence. }
  destruct Hwhy as [?|Hwhy]; [done|].
  cbn [DB.eval]. unfold DB.on_table.
  destruct (server w !! RethinkStore.Table s) as [tb|].
  - rewrite decide_False by (intros [? _]; done).
    eexists _, _. split; [reflexivity|]. cbn. repeat split; congruence.
  - eexists _, _. split; [reflexivity|]. cbn. repeat split; congruence.
Qed.

End persistence_extras.

Section construction_extras.
Context {L : Libraries}.
Implicit Types (s : Store) (session : Sess) (w : World).

Lemma MaxAge_eq s age o w :
  pointee w (RethinkStore.Options s) = Some o ->
  exists l,
    RethinkStore.Options s = Some l
    /\ MaxAge s age w
       = Some (RethinkStore.mk (RethinkStore.Rethink s) (RethinkStore.Table s)
                 (map (SecureCookie_MaxAge age) (RethinkStore.Codecs s))
                 (RethinkStore.Options s) (RethinkStore.DefaultMaxAge s),
               mkWorld (<[l := Options.set_MaxAge age o]> (heap w))
                 (server w) (outcomes w) (journal w)).
Proof.
  unfold pointee, MaxAge, bind, update.
  destruct (RethinkStore.Options s) as [l|]; [|done].
  intros ->. by exists l.
Qed.

(** X15.  [MaxAge] writes the age into the store's options object and
    hands it to every codec; the path, domain and flags of the options,
    the store's table and its [DefaultMaxAge], the other options objects,
    the tables and the journal are as before.  Since a session that [New]
    returns points to the store's options object, a later [Save] of such
    a session that returns nil, for an age between 1 and 9223372036 and
    an expiry that the driver transmits as it is (the instant of the
    save plus the age fits the 64 bits of [UnixNano]), sets a cookie
    whose max-age is the age and stores a document that expires that
    many seconds after the save. *)
Theorem MaxAge_governs_sessions s age o w :
  pointee w (RethinkStore.Options s) = Some o ->
  exists s' w1,
    MaxAge s age w = Some (s', w1)
    /\ pointee w1 (RethinkStore.Options s)
       = Some (Options.mk (Options.Path o) (Options.Domain o) age
                 (Options.Secure o) (Options.HttpOnly o))
    /\ (forall p, p <> RethinkStore.Options s -> pointee w1 p = pointee w p)
    /\ RethinkStore.Options s' = RethinkStore.Options s
    /\ RethinkStore.Table s' = RethinkStore.Table s
    /\ RethinkStore.DefaultMaxAge s' = RethinkStore.DefaultMaxAge s
    /\ RethinkStore.Codecs s'
       = map (SecureCookie_MaxAge age) (RethinkStore.Codecs s)
    /\ server w1 = server w /\ journal w1 = journal w
    /\ forall now key r rw session rw' session' w2,
         Session.Options session = RethinkStore.Options s ->
         (0 < age <= 9223372036)%Z ->
         (- 2 ^ 63 <= now + age * 1000000000 < 2 ^ 63)%Z ->
         Save now key s' r rw session w1 = Some ((None, rw', session'), w2) ->
         exists c docs d,
           rw' = (rw ++ [c])%list /\ Cookie.MaxAge c = age
           /\ documents w2 (RethinkStore.Table s) = Some docs
           /\ docs !! Session.ID session' = Some d
           /\ RethinkSession.Expires d = (now + age * 1000000000)%Z
           /\ DB.epoch_time (RethinkSession.Expires d)
              = (now + age * 1000000000)%Z.
Proof.
  intros Ho. destruct (MaxAge_eq s age o w Ho) as (l & Hl & ->).
  eexists _, _. split; [reflexivity|].
  assert (pointee
            (mkWorld (<[l := Options.set_MaxAge age o]> (heap w))
               (server w) (outcomes w) (journal w))
            (RethinkStore.Options s)
          = Some (Options.mk (Options.Path o) (Options.Domain o) age
                    (Options.Secure o) (Options.HttpOnly o))) as Ho1.
  { rewrite Hl. cbn. by rewrite lookup_insert_eq. }
  split; [exact Ho1|]. split.
  { intros [l'|] Hp; [|done]. cbn. rewrite lookup_insert_ne; [done|].
    congruence. }
  cbn [RethinkStore.Options RethinkStore.Table RethinkStore.DefaultMaxAge
       RethinkStore.Codecs server journal].
  repeat split.
  intros now key r rw session rw' session' w2 Hshare Hage Hfits HS.
  rewrite <- Hshare in Ho1.
  assert (0 <= Options.MaxAge
                 (Options.mk (Options.Path o) (Options.Domain o) age
                    (Options.Secure o) (Options.HttpOnly o)))%Z as Hnn
    by (cbn; lia).
  destruct (Save_success _ _ _ _ _ _ _ _ _ _ _ Ho1 Hnn HS)
    as (_ & _ & buf & docs & _ & Hdocs').
  rewrite (Save_nonnegative _ _ _ _ _ _ _ _ Ho1 Hnn) in HS. cbn zeta in HS.
  destruct (save now _ _ _) as [[[e|] w3]|]; [done| |done].
  destruct (EncodeMulti _ _ _); [done|].
  injection HS as <- <- <-.
  eexists _, _, _. split; [reflexivity|]. split; [reflexivity|].
  cbn [RethinkStore.Table] in Hdocs'.
  split; [exact Hdocs'|]. split; [apply lookup_insert_eq|].
  cbn [record RethinkSession.Expires]. unfold effective_age, time.Add.
  cbn [Options.MaxAge]. replace (age =? 0)%Z with false by lia.
  rewrite seconds_exact by lia. split; [done|].
  by apply epoch_time_exact.
Qed.

(** X16.  When the connection cannot be made [NewRethinkStore] returns
    the error and no store; it has allocated nothing and sent nothing. *)
Theorem NewRethinkStore_connection_failure
    addr db table idle open keyPairs w err :
  pending w = Some err ->
  NewRethinkStore addr db table idle open keyPairs w
  = Some (inl err,
          mkWorld (heap w) (server w) (tail (outcomes w)) (journal w)).
Proof.
  unfold NewRethinkStore, bind, Connect, round_trip, pending.
  destruct (outcomes w) as [|[e|] rest]; [done| |done].
  by intros [= ->].
Qed.

Lemma Run_answered n q w :
  answered (S n) w = true ->
  exists res,
    Run q w = Some (res, mkWorld (heap w) (DB.eval q (server w)).2
                           (tail (outcomes w)) (journal w ++ [q]))
    /\ answered n (mkWorld (heap w) (DB.eval q (server w)).2
                     (tail (outcomes w)) (journal w ++ [q])) = true.
Proof.
  intros Hans. rewrite Run_eq.
  unfold answered, pending in *. cbn [outcomes].
  destruct (outcomes w) as [|[e|] rest]; cbn in *; [| done |].
  - eexists. split; [reflexivity|]. by rewrite take_nil.
  - eexists. split; [reflexivity|done].
Qed.

(** X17.  Once the connection is made [NewRethinkStore] returns a store,
    whatever becomes of its four set-up queries: it sends, in this order,
    the creation of the database, of the table, of the index ["expires"]
    and the wait for the index, and drops their errors.  The store has
    the table's name, a [DefaultMaxAge] of zero and an options object of
    its own, new in the heap, with path ["/"] and a max-age of 30 days;
    the options objects that existed are as before. *)
Theorem NewRethinkStore_after_connecting
    addr db table idle open keyPairs w :
  pending w = None ->
  exists s w' l,
    NewRethinkStore addr db table idle open keyPairs w = Some (inr s, w')
    /\ RethinkStore.Table s = table
    /\ RethinkStore.Rethink s = ConnectOpts.mk addr db idle open
    /\ RethinkStore.DefaultMaxAge s = 0%Z
    /\ RethinkStore.Options s = Some l
    /\ heap w !! l = None
    /\ heap w' !! l = Some (Options.mk "/" "" 2592000 false false)
    /\ (forall l', l' <> l -> heap w' !! l' = heap w !! l')
    /\ journal w'
       = (journal w ++
          [DB.DBCreate db; DB.TableCreate db table;
           DB.IndexCreate table "expires"; DB.IndexWait table])%list.
Proof.
  intros Hp.
  destruct (Connect (ConnectOpts.mk addr db idle open) w)
    as [[conn w1]|] eqn:Hconn;
    [|by unfold Connect in Hconn].
  destruct (Connect_frame _ _ _ _ Hconn) as (Hs1 & Hh1 & Hj1 & _ & Hres).
  rewrite Hp in Hres. subst conn.
  unfold NewRethinkStore. unfold bind at 1. rewrite Hconn.
  unfold bind at 1. unfold alloc. unfold bind at 1. unfold MaxAge.
  unfold bind at 1. unfold update. cbn [heap RethinkStore.Options].
  rewrite lookup_insert_eq. cbn [ret server outcomes journal].
  repeat (unfold bind at 1; rewrite Run_eq;
          match goal with
          | |- context [pending ?w0] => destruct (pending w0)
          end; cbn [heap server outcomes journal fst snd]).
  all: eexists _, _, (fresh (dom (heap w1))); unfold ret;
    (split; [reflexivity|]);
    cbn [RethinkStore.Table RethinkStore.Rethink RethinkStore.DefaultMaxAge
         RethinkStore.Options heap journal];
    rewrite insert_insert_eq, Hh1, Hj1, <- !(assoc_L (++));
    repeat split; try done;
    [ apply not_elem_of_dom, is_fresh
    | apply lookup_insert_eq
    | by intros l' Hl'; rewrite lookup_insert_ne ].
Qed.

End construction_extras.

Section setup_extras.
Context {L : Libraries}.

Lemma answered_pending n w : answered (S n) w = true -> pending w = None.
Proof.
  unfold answered, pending. by destruct (outcomes w) as [|[e|] rest].
Qed.

Lemma answered_tail n w w' :
  answered (S n) w = true -> outcomes w' = tail (outcomes w) ->
  answered n w' = true.
Proof.
  unfold answered. intros Hans ->.
  destruct (outcomes w) as [|[e|] rest]; cbn in *;
    [by rewrite take_nil|done|done].
Qed.

(** The tables after the four set-up queries, when all are answered. *)
Lemma NewRethinkStore_answered addr db table idle open keyPairs w :
  answered 5 w = true ->
  exists s w',
    NewRethinkStore addr db table idle open keyPairs w = Some (inr s, w')
    /\ server w'
       = (DB.eval (DB.IndexWait table)
            (DB.eval (DB.IndexCreate table "expires")
               (DB.eval (DB.TableCreate db table)
                  (DB.eval (DB.DBCreate db) (server w)).2).2).2).2.
Proof.
  intros Hans.
  destruct (Connect (ConnectOpts.mk addr db idle open) w)
    as [[conn w1]|] eqn:Hconn;
    [|by unfold Connect in Hconn].
  destruct (Connect_frame _ _ _ _ Hconn) as (Hs1 & Hh1 & Hj1 & Ho1 & Hres).
  rewrite (answered_pending _ _ Hans) in Hres. subst conn.
  pose proof (answered_tail _ _ _ Hans Ho1) as Hans1.
  unfold NewRethinkStore. unfold bind at 1. rewrite Hconn.
  unfold bind at 1. unfold alloc. unfold bind at 1. unfold MaxAge.
  unfold bind at 1. unfold update. cbn [heap RethinkStore.Options].
  rewrite lookup_insert_eq. cbn [ret server outcomes journal].
  unfold bind at 1.
  match goal with
  | |- context [Run ?q ?w0] =>
      destruct (Run_answered 3 q w0 Hans1) as (r1 & -> & Hans2)
  end.
  unfold bind at 1.
  match goal with
  | |- context [Run ?q ?w0] =>
      destruct (Run_answered 2 q w0 Hans2) as (r2 & -> & Hans3)
  end.
  unfold bind at 1.
  match goal with
  | |- context [Run ?q ?w0] =>
      destruct (Run_answered 1 q w0 Hans3) as (r3 & -> & Hans4)
  end.
  unfold bind at 1.
  match goal with
  | |- context [Run ?q ?w0] =>
      destruct (Run_answered 0 q w0 Hans4) as (r4 & -> & _)
  end.
  unfold ret. eexists _, _. split; [reflexivity|].
  cbn [server]. by rewrite Hs1.
Qed.

(** X18.  When the connection is made and the four set-up queries are
    answered, the store's table exists afterwards and has the index
    ["expires"], whether or not they existed before: a table that was
    there keeps its documents and its indexes, a table that was not is
    created empty, and the other tables are as before. *)
Theorem NewRethinkStore_ensures_table_and_index
    addr db table idle open keyPairs w :
  answered 5 w = true ->
  exists s w' tb',
    NewRethinkStore addr db table idle open keyPairs w = Some (inr s, w')
    /\ server w' !! table = Some tb'
    /\ "expires" ∈ DB.indexes tb'
    /\ DB.rows tb' = match server w !! table with
                     | Some tb => DB.rows tb
                     | None => ∅
                     end
    /\ (forall tb i, server w !! table = Some tb ->
                     i ∈ DB.indexes tb -> i ∈ DB.indexes tb')
    /\ (forall i, i ∈ DB.indexes tb' ->
                  i = "expires"
                  \/ exists tb, server w !! table = Some tb
                                /\ i ∈ DB.indexes tb)
    /\ (forall t, t <> table -> server w' !! t = server w !! t).
Proof.
  intros Hans.
  destruct (NewRethinkStore_answered addr db table idle open keyPairs w Hans)
    as (s & w' & HN & Hsrv).
  exists s, w'. rewrite Hsrv. clear Hsrv Hans.
  cbn [DB.eval snd]. unfold DB.on_table.
  destruct (server w !! table) as [tb|] eqn:Htb; cbn [snd].
  - rewrite Htb. case_decide as Hix; cbn [snd].
    + rewrite Htb. cbn [snd]. exists tb. rewrite Htb.
      split_and!; [done|done|done|done|by intros tb0 i [= <-]| |done].
      intros i Hi. right. by exists tb.
    + rewrite lookup_insert_eq. cbn [snd]. eexists.
      split; [exact HN|].
      rewrite lookup_insert_eq. split; [reflexivity|].
      cbn [DB.indexes DB.rows]. split_and!.
      * set_solver.
      * done.
      * intros tb0 i [= <-] Hi. set_solver.
      * intros i [->%elem_of_singleton|Hi]%elem_of_union; [by left|].
        right. by exists tb.
      * intros t Ht. by rewrite lookup_insert_ne.
  - rewrite lookup_insert_eq. cbn [DB.indexes].
    rewrite decide_False by set_solver. cbn [snd].
    rewrite lookup_insert_eq. cbn [snd]. eexists.
    split; [exact HN|].
    rewrite lookup_insert_eq. split; [reflexivity|].
    cbn [DB.indexes DB.rows]. split_and!.
    + set_solver.
    + done.
    + done.
    + intros i [->%elem_of_singleton|[]%elem_of_empty]%elem_of_union.
      by left.
    + intros t Ht. rewrite !lookup_insert_ne by done. done.
Qed.

End setup_extras.

Section earlier_facts.
Context {L : Libraries}.
Implicit Types (s : Store) (session : Sess) (w : Earlier.World).

Lemma Earlier_deref_eq p w :
  Earlier.deref p w = (fun o => (o, w)) <$> Earlier.pointee w p.
Proof.
  unfold Earlier.deref, Earlier.pointee. destruct p as [l|]; [|done].
  by destruct (Earlier.heap w !! l).
Qed.

Lemma Earlier_Run_eq q w :
  Earlier.Run q w =
  Some (match Earlier.pending w with
        | Some e => (inl e, Earlier.asked q w)
        | None =>
            ((Earlier.eval q (Earlier.server w)).1,
             Earlier.mkWorld (Earlier.heap w)
               (Earlier.eval q (Earlier.server w)).2
               (tail (Earlier.outcomes w)) (Earlier.journal w ++ [q]))
        end).
Proof.
  unfold Earlier.Run, Earlier.round_trip, Earlier.pending, Earlier.asked.
  cbn [Earlier.outcomes Earlier.heap Earlier.server Earlier.journal].
  destruct (Earlier.outcomes w) as [|[e|] rest]; cbn [tail];
    by destruct (Earlier.eval q (Earlier.server w)).
Qed.

Lemma Earlier_NewCookie_eq now name value p w :
  Earlier.NewCookie now name value p w
  = (fun o => (cookie_of now name value o, w)) <$> Earlier.pointee w p.
Proof.
  unfold Earlier.NewCookie, Earlier.bind. rewrite Earlier_deref_eq.
  by destruct (Earlier.pointee w p).
Qed.

(** X19.  In the earlier revision [Save], for a session whose [MaxAge] is
    negative, first asks the server to delete the record of the session's
    id.  If that fails (the round trip, or the table is missing) it
    returns the error and sets no cookie.  Otherwise the record is gone
    from the table, the other records are as before, and the response
    gets the cookie of the session's name with an empty value that
    expires at once. *)
Theorem Earlier_Save_deletes_the_record now key s r rw session o w :
  Earlier.pointee w (Session.Options session) = Some o ->
  (Options.MaxAge o < 0)%Z ->
  let q := Earlier.GetDelete (RethinkStore.Table s) (Session.ID session) in
  Earlier.Save now key s r rw session w =
  match Earlier.pending w, Earlier.server w !! RethinkStore.Table s with
  | Some err, _ => Some ((Some err, rw, session), Earlier.asked q w)
  | None, None => Some ((Some DB.no_table, rw, session), Earlier.asked q w)
  | None, Some docs =>
      Some ((None,
             SetCookie rw
               (Cookie.mk (Session.name session) "" (Options.Path o)
                  (Options.Domain o) (Some (time.Unix 1 0)) (Options.MaxAge o)
                  (Options.Secure o) (Options.HttpOnly o)),
             session),
            Earlier.mkWorld (Earlier.heap w)
              (<[RethinkStore.Table s := base.delete (Session.ID session) docs]>
                 (Earlier.server w))
              (tail (Earlier.outcomes w)) (Earlier.journal w ++ [q]))
  end.
Proof.
  intros Ho Hneg q. unfold Earlier.Save. unfold Earlier.bind at 1.
  rewrite Earlier_deref_eq, Ho. cbn [fmap option_fmap option_map].
  rewrite (proj2 (Z.ltb_lt _ _) Hneg).
  unfold Earlier.delete. unfold Earlier.bind at 1. unfold Earlier.bind at 1.
  rewrite Earlier_Run_eq. fold q.
  destruct (Earlier.pending w) as [e|]; [done|].
  cbn [Earlier.eval q]. unfold Earlier.ret at 1.
  destruct (Earlier.server w !! RethinkStore.Table s) as [docs|];
    cbn [fst snd err_of]; [|done].
  unfold Earlier.bind. rewrite Earlier_NewCookie_eq.
  unfold Earlier.pointee in *. cbn [Earlier.heap]. rewrite Ho.
  cbn [fmap option_fmap option_map]. unfold Earlier.ret, cookie_of.
  rewrite (proj2 (Z.ltb_lt _ _) Hneg).
  replace (0 <? Options.MaxAge o)%Z with false
    by (symmetry; apply Z.ltb_ge; lia).
  reflexivity.
Qed.

(** X20.  In the earlier revision [Save] inserts: for a session whose
    [MaxAge] is not negative, whose values serialize and whose id encodes,
    with the server answering and the table there, it returns nil and
    sets the cookie; the record is stored when the id was free, and when
    a record of that id was there already that record stays as it was,
    the new payload is not written and no error is reported. *)
Theorem Earlier_Save_inserts_once
    now key s r rw session o w docs buf encoded :
  Earlier.pointee w (Session.Options session) = Some o ->
  (0 <= Options.MaxAge o)%Z ->
  let session' := identified key session in
  gob_Encode (Session.Values session) = inr buf ->
  EncodeMulti (Session.name session') (Session.ID session')
    (RethinkStore.Codecs s) = inr encoded ->
  Earlier.pending w = None ->
  Earlier.server w !! RethinkStore.Table s = Some docs ->
  let doc := Earlier.RethinkSession.mk (Session.ID session') buf in
  exists w',
    Earlier.Save now key s r rw session w
    = Some ((None,
             SetCookie rw (cookie_of now (Session.name session') encoded o),
             session'), w')
    /\ Earlier.heap w' = Earlier.heap w
    /\ Earlier.journal w'
       = (Earlier.journal w ++ [Earlier.Insert (RethinkStore.Table s) doc])%list
    /\ Earlier.server w'
       = match docs !! Session.ID session' with
         | Some _ => Earlier.server w
         | None =>
             <[RethinkStore.Table s := <[Session.ID session' := doc]> docs]>
               (Earlier.server w)
         end.
Proof.
  intros Ho Hage session' Hbuf Henc Hp Hdocs doc.
  unfold doc, session' in *. clear doc session'.
  unfold Earlier.Save. unfold Earlier.bind at 1.
  rewrite Earlier_deref_eq, Ho. cbn [fmap option_fmap option_map].
  rewrite (proj2 (Z.ltb_ge _ _) Hage).
  fold (identified key session).
  unfold Earlier.save. rewrite identified_Values, Hbuf.
  unfold Earlier.bind at 1. unfold Earlier.bind at 1.
  rewrite Earlier_deref_eq, identified_Options, Ho.
  cbn [fmap option_fmap option_map].
  unfold Earlier.bind at 1. rewrite Earlier_Run_eq, Hp.
  cbn [Earlier.eval]. rewrite Hdocs.
  cbn [Earlier.RethinkSession.Id].
  destruct (docs !! Session.ID (identified key session)) as [d0|];
    cbn [fst snd err_of]; unfold Earlier.ret at 1; rewrite Henc;
    unfold Earlier.bind; rewrite Earlier_NewCookie_eq;
    unfold Earlier.pointee in *; cbn [Earlier.heap]; rewrite Ho;
    cbn [fmap option_fmap option_map]; unfold Earlier.ret;
    eexists; (split; [reflexivity|]); done.
Qed.

End earlier_facts.

Section earlier_retrieval.
Context {L : Libraries}.
Implicit Types (s : Store) (session : Sess) (w : Earlier.World).

Lemma Earlier_New_hit s r name c id o w docs d V :
  Earlier.pointee w (RethinkStore.Options s) = Some o ->
  Request.Cookie r name = Some c ->
  DecodeMulti name (Cookie.Value c) (RethinkStore.Codecs s) = inr id ->
  Earlier.pending w = None ->
  Earlier.server w !! RethinkStore.Table s = Some docs ->
  docs !! id = Some d ->
  gob_Decode (Earlier.RethinkSession.Session d) ∅ = inr V ->
  Earlier.New s r name w
  = Some ((Session.mk id V (RethinkStore.Options s) false name, None),
          Earlier.asked (Earlier.Get (RethinkStore.Table s) id) w).
Proof.
  intros Ho Hc Hdec Hp Hdocs Hd HV.
  unfold Earlier.New. unfold Earlier.bind at 1.
  rewrite Earlier_deref_eq, Ho. cbn [fmap option_fmap option_map].
  rewrite Hc, Hdec. unfold Earlier.bind at 1, Earlier.load.
  unfold Earlier.bind at 1. rewrite Earlier_Run_eq, Hp.
  cbn [NewSession Session.set_Options Session.set_IsNew Session.set_ID
       Session.Values Session.ID].
  cbn [Earlier.eval]. rewrite Hdocs, Hd. cbn [fst snd Earlier.One].
  rewrite HV. unfold Earlier.ret, Earlier.asked.
  cbn [Session.set_Values Session.set_IsNew]. 
  rewrite bool_decide_eq_true_2 by done. reflexivity.
Qed.

(** X22.  In the earlier revision a change to a stored session does not
    reach the table.  [Save] of a session whose [MaxAge] is not negative
    and whose id already has a record returns nil and sets the cookie,
    and the tables are as before; a [New] for a request that brings this
    cookie back returns the values of the record stored first, not those
    just saved, with a nil error. *)
Theorem Earlier_Save_keeps_the_first_values
    now key s r rw session o o' w docs d0 V0 buf encoded :
  Earlier.pointee w (Session.Options session) = Some o ->
  Earlier.pointee w (RethinkStore.Options s) = Some o' ->
  (0 <= Options.MaxAge o)%Z ->
  let session' := identified key session in
  gob_Encode (Session.Values session) = inr buf ->
  EncodeMulti (Session.name session') (Session.ID session')
    (RethinkStore.Codecs s) = inr encoded ->
  DecodeMulti (Session.name session') encoded (RethinkStore.Codecs s)
    = inr (Session.ID session') ->
  Earlier.pending w = None ->
  Earlier.server w !! RethinkStore.Table s = Some docs ->
  docs !! Session.ID session' = Some d0 ->
  gob_Decode (Earlier.RethinkSession.Session d0) ∅ = inr V0 ->
  exists c w',
    Earlier.Save now key s r rw session w
      = Some ((None, (rw ++ [c])%list, session'), w')
    /\ Cookie.Name c = Session.name session'
    /\ Cookie.Value c = encoded
    /\ Earlier.server w' = Earlier.server w
    /\ (Earlier.pending w' = None ->
        Earlier.New s (Request.mk [(Cookie.Name c, Cookie.Value c)])
          (Session.name session') w'
        = Some ((Session.mk (Session.ID session') V0 (RethinkStore.Options s)
                   false (Session.name session'), None),
                Earlier.asked
                  (Earlier.Get (RethinkStore.Table s) (Session.ID session'))
                  w')).
Proof.
  intros Ho Ho' Hage session' Hbuf Henc Hdec Hp Hdocs Hd0 HV0.
  unfold session' in *. clear session'.
  unfold Earlier.Save. unfold Earlier.bind at 1.
  rewrite Earlier_deref_eq, Ho. cbn [fmap option_fmap option_map].
  rewrite (proj2 (Z.ltb_ge _ _) Hage).
  fold (identified key session).
  unfold Earlier.save. rewrite identified_Values, Hbuf.
  unfold Earlier.bind at 1. unfold Earlier.bind at 1.
  rewrite Earlier_deref_eq, identified_Options, Ho.
  cbn [fmap option_fmap option_map].
  unfold Earlier.bind at 1. rewrite Earlier_Run_eq, Hp.
  cbn [Earlier.eval]. rewrite Hdocs.
  cbn [Earlier.RethinkSession.Id]. rewrite Hd0.
  cbn [fst snd err_of]. unfold Earlier.ret at 1. rewrite Henc.
  unfold Earlier.bind. rewrite Earlier_NewCookie_eq.
  unfold Earlier.pointee at 1. cbn [Earlier.heap].
  unfold Earlier.pointee in Ho. rewrite Ho.
  cbn [fmap option_fmap option_map]. unfold Earlier.ret, SetCookie.
  eexists _, _. split; [reflexivity|].
  cbn [cookie_of Cookie.Name Cookie.Value Earlier.server].
  split_and!; [done..|]. intros Hp'.
  eapply Earlier_New_hit; try done.
  - unfold Request.Cookie. cbn [Request.Cookies find fst snd].
    by rewrite String.eqb_refl.
  - done.
Qed.

Lemma Earlier_Save_no_table now key s r rw session o w buf :
  Earlier.pointee w (Session.Options session) = Some o ->
  (0 <= Options.MaxAge o)%Z ->
  gob_Encode (Session.Values session) = inr buf ->
  Earlier.server w !! RethinkStore.Table s = None ->
  Earlier.Save now key s r rw session w
  = Some ((Some (default DB.no_table (Earlier.pending w)), rw,
           identified key session),
          Earlier.asked
            (Earlier.Insert (RethinkStore.Table s)
               (Earlier.RethinkSession.mk
                  (Session.ID (identified key session)) buf)) w).
Proof.
  intros Ho Hage Hbuf Hmiss.
  unfold Earlier.Save. unfold Earlier.bind at 1.
  rewrite Earlier_deref_eq, Ho. cbn [fmap option_fmap option_map].
  rewrite (proj2 (Z.ltb_ge _ _) Hage).
  fold (identified key session).
  unfold Earlier.save. rewrite identified_Values, Hbuf.
  unfold Earlier.bind at 1. unfold Earlier.bind at 1.
  rewrite Earlier_deref_eq, identified_Options, Ho.
  cbn [fmap option_fmap option_map].
  unfold Earlier.bind at 1. rewrite Earlier_Run_eq.
  destruct (Earlier.pending w) as [e|]; [reflexivity|].
  cbn [Earlier.eval]. rewrite Hmiss. reflexivity.
Qed.

(** X23.  In the earlier revision [NewRethinkStore] sends the server
    nothing: it creates no database, table or index.  When it returns a
    store, the connection was made and the store has a fresh options
    object with path ["/"] and a max-age of 30 days; if the table does
    not exist, a [Save] on that store, of a session that has the store's
    options and whose values serialize, returns an error, sets no cookie
    and stores nothing. *)
Theorem Earlier_NewRethinkStore_creates_nothing
    addr db table idle open keyPairs w s w' :
  Earlier.NewRethinkStore addr db table idle open keyPairs w
    = Some (inr s, w') ->
  Earlier.pending w = None
  /\ Earlier.server w' = Earlier.server w
  /\ Earlier.journal w' = Earlier.journal w
  /\ RethinkStore.Table s = table
  /\ Earlier.pointee w (RethinkStore.Options s) = None
  /\ Earlier.pointee w' (RethinkStore.Options s)
     = Some (Options.mk "/" "" 2592000 false false)
  /\ (Earlier.server w !! table = None ->
      forall now key r rw session buf,
        Session.Options session = RethinkStore.Options s ->
        gob_Encode (Session.Values session) = inr buf ->
        let session' := identified key session in
        Earlier.Save now key s r rw session w'
        = Some ((Some (default DB.no_table (Earlier.pending w')), rw,
                 session'),
                Earlier.asked
                  (Earlier.Insert table
                     (Earlier.RethinkSession.mk (Session.ID session') buf))
                  w')).
Proof.
  unfold Earlier.NewRethinkStore, Earlier.bind, Earlier.Connect,
    Earlier.round_trip, Earlier.alloc, Earlier.ret, Earlier.pending.
  intros HN.
  destruct (Earlier.outcomes w) as [|[e|] rest] eqn:Hout;
    cbn [Earlier.heap Earlier.server Earlier.outcomes Earlier.journal] in HN;
    [|done|]; injection HN as <- <-;
    cbn [RethinkStore.Table RethinkStore.Options Earlier.pointee
         Earlier.heap Earlier.server Earlier.journal Earlier.outcomes];
    (split_and!;
      [done|done|done|done
      |apply not_elem_of_dom, is_fresh
      |apply lookup_insert_eq
      |]).
  all: intros Hmiss now key r0 rw session buf Hopt Hbuf;
    rewrite (Earlier_Save_no_table now key _ r0 rw session
               (Options.mk "/" "" sessionExpire false false) _ buf);
    [reflexivity
    |unfold Earlier.pointee; rewrite Hopt; apply lookup_insert_eq
    |done|done|done].
Qed.

End earlier_retrieval.

Section recorder_facts.
Import ResponseRecorder.

Lemma Write_result rw buf :
  (Write rw buf).1 = (Z.of_nat (length buf), None).
Proof. reflexivity. Qed.

(** X21.  Writing buffers to a recorder one after the other never fails
    and reports the length of each; with a body, the body grows by the
    buffers in order; the code is the one that was set, or 200 if none
    was set and something was written; the headers and the flushed flag
    are untouched. *)
Theorem WriteAll_records rw bufs :
  let rw' := WriteAll rw bufs in
  Body rw' = (fun body => body ++ concat bufs)%list <$> Body rw
  /\ Code rw' = (if (Code rw =? 0)%Z
                 then (if bufs is [] then 0 else StatusOK)
                 else Code rw)%Z
  /\ HeaderMap rw' = HeaderMap rw /\ Flushed rw' = Flushed rw
  /\ Forall (fun buf => forall rw0,
               (Write rw0 buf).1 = (Z.of_nat (length buf), None)) bufs.
Proof.
  cbn zeta. unfold WriteAll. revert rw.
  induction bufs as [|buf bufs IH]; intros rw.
  - cbn. split_and!; try done.
    + destruct (Body rw); cbn; [by rewrite app_nil_r|done].
    + by destruct (Code rw =? 0)%Z eqn:?; [apply Z.eqb_eq|].
  - cbn [fold_left]. destruct (IH (Write rw buf).2) as (HB & HC & HH & HF & HW).
    rewrite HB, HC, HH, HF. clear IH HB HC HH HF.
    unfold Write. cbn [snd].
    split_and!.
    + destruct (Body rw) as [body|] eqn:Hb;
        cbn [Code Body]; destruct (_ =? 0)%Z; cbn [Body];
        rewrite ?Hb; cbn; [by rewrite <- app_assoc..|done|done].
    + destruct (Body rw) as [body|]; cbn [Code];
        destruct (Code rw =? 0)%Z eqn:Hc; cbn [Code]; rewrite ?Hc;
        try done; by destruct bufs.
    + by destruct (Body rw); cbn [Code]; destruct (_ =? 0)%Z.
    + by destruct (Body rw); cbn [Code]; destruct (_ =? 0)%Z.
    + constructor; [done|exact HW].
Qed.

End recorder_facts.

(** ** The further properties on the test bed *)

Lemma delete_removes_its_document_witness :
  exists w' docs',
    delete (L := Demo.libraries) Scenario.store Scenario.session1
      Scenario.saved = Some (None, w')
    /\ documents w' Scenario.table = Some docs'
    /\ docs' !! Scenario.id0 = None.
Proof.
  pose proof (delete_removes_its_document (L := Demo.libraries)
                Scenario.store Scenario.session1 Scenario.saved
                Bench.saved_documents
                ltac:(vm_compute; reflexivity)) as H.
  change (pending Scenario.saved) with (@None error) in H.
  destruct H as (w' & docs' & Hd & Hdocs & Hgone & _).
  by exists w', docs'.
Defined.

Lemma Save_touches_one_document_witness :
  exists result w' docs',
    Save (L := Demo.libraries) 1000%Z Demo.key0 Scenario.store
      Scenario.first_request [] Scenario.session0 Ages.before_sweep
    = Some (result, w')
    /\ documents w' Scenario.table = Some docs'
    /\ docs' !! "old" = Ages.two_documents !! "old"
    /\ docs' !! "young" = Ages.two_documents !! "young".
Proof.
  destruct (Save (L := Demo.libraries) 1000%Z Demo.key0 Scenario.store
              Scenario.first_request [] Scenario.session0 Ages.before_sweep)
    as [[result w']|] eqn:HS; [|vm_compute in HS; discriminate HS].
  destruct (Save_touches_one_document (L := Demo.libraries) _ _ _ _ _ _ _
              _ _ Ages.two_documents HS ltac:(vm_compute; reflexivity))
    as (docs' & Hdocs & Hother & _).
  exists result, w', docs'. split; [reflexivity|]. split; [exact Hdocs|].
  split; apply Hother; vm_compute; discriminate.
Defined.

Lemma New_only_reads_witness :
  let w' := asked (DB.Get Scenario.table Scenario.id0) Scenario.saved in
  server w' = server Scenario.saved /\ heap w' = heap Scenario.saved
  /\ (journal w' = journal Scenario.saved
      \/ exists id,
           journal w'
           = (journal Scenario.saved ++ [DB.Get Scenario.table id])%list).
Proof.
  exact (New_only_reads (L := Demo.libraries) Scenario.store
           Scenario.second_request "session-key" Scenario.saved
           (Bench.loaded, None)
           (asked (DB.Get Scenario.table Scenario.id0) Scenario.saved)
           ltac:(vm_compute; reflexivity)).
Defined.


Lemma New_finds_stored_session_witness :
  New (L := Demo.libraries) Scenario.store Scenario.second_request
    "session-key" Scenario.saved
  = Some ((Session.mk Scenario.id0 {["foo" := "bar"]} (Some 1%positive)
             false "session-key", None),
          asked (DB.Get Scenario.table Scenario.id0) Scenario.saved).
Proof.
  eapply (New_finds_stored_session (L := Demo.libraries) Scenario.store
            Scenario.second_request "session-key").
  - vm_compute. reflexivity.
  - vm_compute. reflexivity.
  - vm_compute. reflexivity.
  - reflexivity.
  - vm_compute. reflexivity.
  - vm_compute. reflexivity.
  - vm_compute. reflexivity.
Defined.

Lemma New_existing_only_when_found_witness :
  exists docs d,
    documents Scenario.saved Scenario.table = Some docs
    /\ docs !! Scenario.id0 = Some d
    /\ gob_Decode (Libraries := Demo.libraries) (RethinkSession.Session d) ∅
       = inr {["foo" := "bar"]}.
Proof.
  destruct (New_existing_only_when_found (L := Demo.libraries) Scenario.store
              Scenario.second_request "session-key"
              (Options.mk "/" "" 2592000 false false) Scenario.saved
              Bench.loaded None
              (asked (DB.Get Scenario.table Scenario.id0) Scenario.saved)
              ltac:(vm_compute; reflexivity) ltac:(vm_compute; reflexivity)
              ltac:(reflexivity))
    as (_ & _ & c & docs & d & _ & _ & Hdocs & Hd & HV).
  by exists docs, d.
Defined.

Lemma New_without_record_witness :
  New (L := Demo.libraries) Scenario.store Scenario.second_request
    "session-key" Scenario.opened
  = Some ((Session.mk Scenario.id0 ∅ (Some 1%positive) true "session-key",
           None),
          asked (DB.Get Scenario.table Scenario.id0) Scenario.opened).
Proof.
  eapply (New_without_record (L := Demo.libraries) Scenario.store
            Scenario.second_request "session-key").
  - vm_compute. reflexivity.
  - vm_compute. reflexivity.
  - vm_compute. reflexivity.
  - right. right. exists ∅. split; vm_compute; reflexivity.
Defined.

Lemma Count_is_the_size_witness :
  exists docs,
    documents Ages.after_sweep Scenario.table = Some docs
    /\ 1%N = N.of_nat (size docs).
Proof.
  destruct (Count_is_the_size (L := Demo.libraries) Scenario.store
              Ages.after_sweep 1%N None
              (asked (DB.Count Scenario.table) Ages.after_sweep)
              ltac:(vm_compute; reflexivity))
    as (_ & _ & Hn).
  exact Hn.
Defined.

Lemma Save_is_an_upsert_witness :
  exists d,
    documents Scenario.saved Scenario.table
      = Some (<[Scenario.id0 := d]> ∅)
    /\ RethinkSession.Id d = Scenario.id0
    /\ RethinkSession.Session d = Scenario.payload.
Proof.
  destruct (Save_is_an_upsert (L := Demo.libraries) 1000%Z Demo.key0
              Scenario.store Scenario.first_request [] Scenario.session0
              (Options.mk "/" "" 2592000 false false) Scenario.opened
              [Cookie.mk "session-key" (Demo.sign "secret-key" Scenario.id0)
                 "/" "" (Some 2592000000001000%Z) 2592000%Z false false]
              Scenario.session1 Scenario.saved ∅
              ltac:(vm_compute; reflexivity) ltac:(vm_compute; discriminate)
              ltac:(vm_compute; reflexivity) ltac:(vm_compute; reflexivity))
    as (d & Hdocs & Hid & Hbuf & _).
  exists d. split; [exact Hdocs|]. split; [exact Hid|].
  assert (gob_Encode (Libraries := Demo.libraries)
            (Session.Values Scenario.session0) = inr Scenario.payload) as E
    by (vm_compute; reflexivity).
  pose proof (eq_trans (eq_sym Hbuf) E) as E2. congruence.
Defined.

Lemma Save_encode_failure_leaves_document_witness :
  Save (L := Demo.libraries) 1000%Z Demo.key0 Bench.mute_store
    Scenario.first_request [] Scenario.session0 Scenario.opened
  = Some ((Some "securecookie: no codecs provided", [], Scenario.session1),
          Scenario.saved)
  /\ exists docs d,
       documents Scenario.saved Scenario.table = Some docs
       /\ docs !! Scenario.id0 = Some d.
Proof.
  destruct (Save_encode_failure_leaves_document (L := Demo.libraries)
              1000%Z Demo.key0 Bench.mute_store Scenario.first_request []
              Scenario.session0 (Options.mk "/" "" 2592000 false false)
              Scenario.opened "securecookie: no codecs provided"
              Scenario.saved
              ltac:(vm_compute; reflexivity) ltac:(vm_compute; discriminate)
              ltac:(vm_compute; reflexivity) ltac:(vm_compute; reflexivity))
    as (HS & docs & d & Hdocs & Hd & _).
  split; [exact HS|]. by exists docs, d.
Defined.

Lemma Save_then_New_witness :
  exists c,
    Cookie.Name c = "session-key"
    /\ New (L := Demo.libraries) Scenario.store
         (Request.mk [(Cookie.Name c, Cookie.Value c)]) "session-key"
         Scenario.saved
       = Some ((Session.mk Scenario.id0 {["foo" := "bar"]} (Some 1%positive)
                  false "session-key", None),
               asked (DB.Get Scenario.table Scenario.id0) Scenario.saved).
Proof.
  destruct (Save_then_New (L := Demo.libraries) 1000%Z Demo.key0
              Scenario.store Scenario.first_request [] Scenario.session0
              (Options.mk "/" "" 2592000 false false)
              (Options.mk "/" "" 2592000 false false) Scenario.opened
              [Cookie.mk "session-key" (Demo.sign "secret-key" Scenario.id0)
                 "/" "" (Some 2592000000001000%Z) 2592000%Z false false]
              Scenario.session1 Scenario.saved
              ltac:(vm_compute; reflexivity) ltac:(vm_compute; discriminate)
              ltac:(vm_compute; reflexivity))
    as (c & _ & Hname & _ & _ & _ & _ & _ & _ & HN).
  - intros buf Hbuf. vm_compute in Hbuf. injection Hbuf as <-.
    vm_compute. reflexivity.
  - intros encoded Henc. vm_compute in Henc. injection Henc as <-.
    vm_compute. reflexivity.
  - vm_compute. reflexivity.
  - reflexivity.
  - exists c. split; [exact Hname|exact HN].
Defined.

Lemma Save_outlives_sweeps_until_expiry_witness :
  exists docs'' d,
    documents
      (asked (DB.BetweenDelete Scenario.table DB.MinVal (DB.Now 5000%Z)
                "expires") Scenario.saved) Scenario.table = Some docs''
    /\ docs'' !! Scenario.id0 = Some d
    /\ RethinkSession.Expires d = 2592000000001000%Z.
Proof.
  destruct (Save_outlives_sweeps_until_expiry (L := Demo.libraries) 1000%Z
              Demo.key0 Scenario.store Scenario.first_request []
              Scenario.session0 (Options.mk "/" "" 2592000 false false)
              Scenario.opened
              [Cookie.mk "session-key" (Demo.sign "secret-key" Scenario.id0)
                 "/" "" (Some 2592000000001000%Z) 2592000%Z false false]
              Scenario.session1 Scenario.saved 5000%Z
              (asked (DB.BetweenDelete Scenario.table DB.MinVal
                        (DB.Now 5000%Z) "expires") Scenario.saved)
              ltac:(vm_compute; reflexivity) ltac:(vm_compute; discriminate)
              ltac:(vm_compute; split; discriminate)
              ltac:(vm_compute; split; [discriminate|reflexivity])
              ltac:(vm_compute; reflexivity) ltac:(vm_compute; reflexivity))
    as (docs & docs'' & d & _ & _ & Hexp & _ & Hdocs'' & Hd).
  exists docs'', d. split; [exact Hdocs''|].
  split; [exact Hd|exact Hexp].
Defined.

Lemma DeleteExpired_twice_witness :
  exists docs2,
    documents
      (asked (DB.BetweenDelete Scenario.table DB.MinVal (DB.Now 500%Z)
                "expires") Ages.after_sweep) Scenario.table = Some docs2
    /\ documents Ages.after_sweep Scenario.table = Some docs2.
Proof.
  destruct (DeleteExpired_twice (L := Demo.libraries) 1000%Z 500%Z
              Scenario.store Ages.before_sweep Ages.after_sweep
              (asked (DB.BetweenDelete Scenario.table DB.MinVal
                        (DB.Now 500%Z) "expires") Ages.after_sweep)
              Ages.two_documents
              ltac:(vm_compute; reflexivity) ltac:(vm_compute; reflexivity)
              ltac:(vm_compute; reflexivity))
    as (docs1 & docs2 & Hd1 & Hd2 & _ & Hsame).
  exists docs2. split; [exact Hd2|].
  rewrite Hsame; [exact Hd1|]. vm_compute. discriminate.
Defined.

Lemma DeleteExpired_refused_removes_nothing_witness :
  exists w',
    DeleteExpired (L := Demo.libraries) 1000%Z Scenario.store
      Scenario.unplugged
    = Some (Some "connection refused", w')
    /\ server w' = server Scenario.unplugged.
Proof.
  destruct (DeleteExpired_refused_removes_nothing (L := Demo.libraries)
              1000%Z Scenario.store Scenario.unplugged
              ltac:(left; vm_compute; discriminate))
    as (err & w' & HD & Hsrv & _ & Herr & _).
  exists w'. rewrite <- (Herr "connection refused" ltac:(reflexivity)).
  split; [exact HD|exact Hsrv].
Defined.

Lemma MaxAge_governs_sessions_witness :
  exists s' w1 w2 docs d,
    MaxAge (L := Demo.libraries) Scenario.store 3600%Z Scenario.opened
      = Some (s', w1)
    /\ pointee w1 (RethinkStore.Options Scenario.store)
       = Some (Options.mk "/" "" 3600 false false)
    /\ RethinkStore.DefaultMaxAge s' = 0%Z
    /\ Save (L := Demo.libraries) 1000%Z Demo.key0 s'
         Scenario.first_request [] Scenario.session0 w1
       = Some ((None,
                [Cookie.mk "session-key"
                   (Demo.sign "secret-key" Scenario.id0) "/" ""
                   (Some 3600000001000%Z) 3600%Z false false],
                Scenario.session1), w2)
    /\ documents w2 Scenario.table = Some docs
    /\ docs !! Scenario.id0 = Some d
    /\ RethinkSession.Expires d = 3600000001000%Z.
Proof.
  destruct (MaxAge_governs_sessions (L := Demo.libraries) Scenario.store
              3600%Z (Options.mk "/" "" 2592000 false false) Scenario.opened
              ltac:(vm_compute; reflexivity))
    as (s' & w1 & HM & Ho & _ & _ & _ & Hd & _ & _ & _ & Hsave).
  destruct (Save (L := Demo.libraries) 1000%Z Demo.key0 s'
              Scenario.first_request [] Scenario.session0 w1)
    as [[[[result rw'] session'] w2]|] eqn:HS.
  - pose proof HM as HM0. vm_compute in HM0. injection HM0 as <- <-.
    pose proof HS as HS0. vm_compute in HS0. injection HS0 as <- <- <- <-.
    destruct (Hsave 1000%Z Demo.key0 Scenario.first_request []
                Scenario.session0 _ _ _ ltac:(reflexivity)
                ltac:(vm_compute; split; [reflexivity|discriminate])
                ltac:(vm_compute; split; [discriminate|reflexivity]) HS)
      as (c & docs & d & _ & _ & Hdocs & Hid & Hexp & _).
    eexists _, _, _, docs, d. split; [exact HM|]. split; [exact Ho|].
    split; [exact Hd|]. split; [exact HS|].
    split; [exact Hdocs|]. split; [exact Hid|exact Hexp].
  - pose proof HM as HM0. vm_compute in HM0. injection HM0 as <- <-.
    vm_compute in HS. discriminate HS.
Defined.

Lemma NewRethinkStore_connection_failure_witness :
  NewRethinkStore (L := Demo.libraries) "127.0.0.1:28015" "session_test_db"
    "session_test_table" 5 5 [Demo.secret_key] Scenario.unplugged
  = Some (inl "connection refused", Scenario.opened).
Proof.
  rewrite (NewRethinkStore_connection_failure (L := Demo.libraries)
             "127.0.0.1:28015" "session_test_db" "session_test_table" 5 5
             [Demo.secret_key] Scenario.unplugged "connection refused"
             ltac:(reflexivity)).
  reflexivity.
Defined.

Lemma NewRethinkStore_after_connecting_witness :
  exists s w',
    NewRethinkStore (L := Demo.libraries) "127.0.0.1:28015" "session_test_db"
      "session_test_table" 5 5 [Demo.secret_key] Demo.empty_world
    = Some (inr s, w')
    /\ RethinkStore.DefaultMaxAge s = 0%Z
    /\ journal w'
       = [DB.DBCreate "session_test_db";
          DB.TableCreate "session_test_db" "session_test_table";
          DB.IndexCreate "session_test_table" "expires";
          DB.IndexWait "session_test_table"].
Proof.
  destruct (NewRethinkStore_after_connecting (L := Demo.libraries)
              "127.0.0.1:28015" "session_test_db" "session_test_table" 5 5
              [Demo.secret_key] Demo.empty_world ltac:(reflexivity))
    as (s & w' & l & HN & _ & _ & Hd & _ & _ & _ & _ & Hj).
  exists s, w'. split; [exact HN|]. split; [exact Hd|exact Hj].
Defined.

Lemma NewRethinkStore_ensures_table_and_index_witness :
  exists s w' tb',
    NewRethinkStore (L := Demo.libraries) "127.0.0.1:28015" "session_test_db"
      "session_test_table" 5 5 [Demo.secret_key] Ages.before_sweep
    = Some (inr s, w')
    /\ server w' !! "session_test_table" = Some tb'
    /\ "expires" ∈ DB.indexes tb'
    /\ DB.rows tb' = Ages.two_documents.
Proof.
  destruct (NewRethinkStore_ensures_table_and_index (L := Demo.libraries)
              "127.0.0.1:28015" "session_test_db" "session_test_table" 5 5
              [Demo.secret_key] Ages.before_sweep ltac:(reflexivity))
    as (s & w' & tb' & HN & Htb & Hix & Hrows & _).
  exists s, w', tb'. split; [exact HN|]. split; [exact Htb|].
  split; [exact Hix|]. rewrite Hrows. vm_compute. reflexivity.
Defined.

Lemma Earlier_Save_deletes_the_record_witness :
  Earlier.Save (L := Demo.libraries) 2000%Z Demo.key0 Scenario.store
    Scenario.second_request [] Scenario.session1 (Bench.held (-1))
  = Some ((None,
           [Cookie.mk "session-key" "" "/" "" (Some 1000000000%Z) (-1)%Z
              false false],
           Scenario.session1),
          Earlier.mkWorld (Earlier.heap (Bench.held (-1)))
            {[Scenario.table := ∅]} []
            [Earlier.GetDelete Scenario.table Scenario.id0]).
Proof.
  rewrite (Earlier_Save_deletes_the_record (L := Demo.libraries) 2000%Z
             Demo.key0 Scenario.store Scenario.second_request []
             Scenario.session1 (Options.mk "/" "" (-1) false false)
             (Bench.held (-1))
             ltac:(vm_compute; reflexivity) ltac:(reflexivity)).
  vm_compute. reflexivity.
Defined.

Lemma Earlier_Save_inserts_once_witness :
  exists w',
    Earlier.Save (L := Demo.libraries) 2000%Z Demo.key0 Scenario.store
      Scenario.second_request [] Bench.session2 (Bench.held 2592000)
    = Some ((None,
             [Cookie.mk "session-key" (Demo.sign "secret-key" Scenario.id0)
                "/" "" (Some 2592000000002000%Z) 2592000%Z false false],
             Bench.session2), w')
    /\ Earlier.server w' = Earlier.server (Bench.held 2592000).
Proof.
  destruct (Earlier_Save_inserts_once (L := Demo.libraries) 2000%Z
              Demo.key0 Scenario.store Scenario.second_request []
              Bench.session2 (Options.mk "/" "" 2592000 false false)
              (Bench.held 2592000)
              Bench.held_records
              [x01; x62; x61; x7a]
              (Demo.sign "secret-key" Scenario.id0)
              ltac:(vm_compute; reflexivity) ltac:(vm_compute; discriminate)
              ltac:(vm_compute; reflexivity) ltac:(vm_compute; reflexivity)
              ltac:(reflexivity) ltac:(vm_compute; reflexivity))
    as (w' & HS & _ & _ & Hsrv).
  exists w'. split; [exact HS|]. exact Hsrv.
Defined.

Lemma Earlier_Save_keeps_the_first_values_witness :
  exists c w',
    Earlier.Save (L := Demo.libraries) 2000%Z Demo.key0 Scenario.store
      Scenario.second_request [] Bench.session2 (Bench.held 2592000)
    = Some ((None, [c], Bench.session2), w')
    /\ Earlier.New (L := Demo.libraries) Scenario.store
         (Request.mk [(Cookie.Name c, Cookie.Value c)]) "session-key" w'
       = Some ((Bench.loaded, None),
               Earlier.asked (Earlier.Get Scenario.table Scenario.id0) w').
Proof.
  destruct (Earlier_Save_keeps_the_first_values (L := Demo.libraries)
              2000%Z Demo.key0 Scenario.store Scenario.second_request []
              Bench.session2 (Options.mk "/" "" 2592000 false false)
              (Options.mk "/" "" 2592000 false false)
              (Bench.held 2592000) Bench.held_records
              (Earlier.RethinkSession.mk Scenario.id0 Scenario.payload)
              (Session.Values Bench.loaded)
              [x01; x62; x61; x7a]
              (Demo.sign "secret-key" Scenario.id0)
              ltac:(vm_compute; reflexivity) ltac:(vm_compute; reflexivity)
              ltac:(vm_compute; discriminate)
              ltac:(vm_compute; reflexivity) ltac:(vm_compute; reflexivity)
              ltac:(vm_compute; reflexivity) ltac:(reflexivity)
              ltac:(vm_compute; reflexivity) ltac:(vm_compute; reflexivity)
              ltac:(vm_compute; reflexivity))
    as (c & w' & HS & _ & _ & Hsrv & HN).
  exists c, w'. split; [exact HS|]. apply HN.
  vm_compute in HS. injection HS as _ <-. reflexivity.
Defined.

Lemma Earlier_NewRethinkStore_creates_nothing_witness :
  Earlier.pointee Bench.earlier_opened (Some 1%positive)
  = Some (Options.mk "/" "" 2592000 false false)
  /\ Earlier.Save (L := Demo.libraries) 1000%Z Demo.key0 Scenario.store
       Scenario.first_request [] Scenario.session0 Bench.earlier_opened
     = Some ((Some DB.no_table, [], Scenario.session1),
             Earlier.asked
               (Earlier.Insert Scenario.table
                  (Earlier.RethinkSession.mk Scenario.id0 Scenario.payload))
               Bench.earlier_opened).
Proof.
  destruct (Earlier_NewRethinkStore_creates_nothing (L := Demo.libraries)
              "127.0.0.1:28015" "session_test_db" "session_test_table" 5 5
              [Demo.secret_key] Bench.earlier_empty Scenario.store
              Bench.earlier_opened ltac:(vm_compute; reflexivity))
    as (_ & _ & _ & _ & _ & Ho & HS).
  split; [exact Ho|].
  exact (HS ltac:(reflexivity) 1000%Z Demo.key0 Scenario.first_request []
           Scenario.session0 Scenario.payload ltac:(reflexivity)
           ltac:(vm_compute; reflexivity)).
Defined.
